(** * Provisioning scripts of the bootcamp repository

    A shallow embedding of [docs/kiet/setup_scripts/install_aikbt.py] and
    [docs/kiet/setup_scripts/setup_tools.py]: the Python text primitives the
    scripts rely on, a file system, an effect monad with exceptions and an
    event log, the two scripts themselves, and the properties stated about
    them. *)

From Stdlib Require Import ZArith Lia List Bool String Ascii.
From stdpp Require Import base option list strings pretty gmap.

Local Open Scope Z_scope.

(** ** Python text: [str] and [bytes] *)

Module Py.

(** A [str] is a sequence of code points, a [bytes] a sequence of octets. *)
Abbreviation str := (list Z).
Abbreviation bytes := (list Z).

Definition LF : Z := 10.
Definition CR : Z := 13.

(** The code points of a literal; exact for the ASCII literals of the
    scripts. *)
Definition text (s : string) : str :=
  map (fun a => Z.of_nat (nat_of_ascii a)) (list_ascii_of_string s).

(** *** The UTF-8 codec *)

Definition is_cont (b : Z) : bool := (128 <=? b) && (b <=? 191).

(** Second octet of a three-octet sequence: E0 excludes overlong forms, ED
    excludes the surrogates. *)
Definition second3 (b0 b1 : Z) : bool :=
  if b0 =? 224 then (160 <=? b1) && (b1 <=? 191)
  else if b0 =? 237 then (128 <=? b1) && (b1 <=? 159)
  else is_cont b1.

(** Second octet of a four-octet sequence: F0 excludes overlong forms, F4
    stops at U+10FFFF. *)
Definition second4 (b0 b1 : Z) : bool :=
  if b0 =? 240 then (144 <=? b1) && (b1 <=? 191)
  else if b0 =? 244 then (128 <=? b1) && (b1 <=? 143)
  else is_cont b1.

(** [bytes.decode("utf-8", errors="ignore")]: a well-formed sequence yields
    its code point; an octet that starts none is dropped. *)
Fixpoint decode_ignore (bs : bytes) : str :=
  match bs with
  | [] => []
  | b0 :: r0 =>
    if (0 <=? b0) && (b0 <? 128) then b0 :: decode_ignore r0
    else if (194 <=? b0) && (b0 <=? 223) then
      match r0 with
      | b1 :: r1 =>
        if is_cont b1
        then ((b0 - 192) * 64 + (b1 - 128)) :: decode_ignore r1
        else decode_ignore r0
      | _ => decode_ignore r0
      end
    else if (224 <=? b0) && (b0 <=? 239) then
      match r0 with
      | b1 :: b2 :: r2 =>
        if second3 b0 b1 && is_cont b2
        then ((b0 - 224) * 4096 + (b1 - 128) * 64 + (b2 - 128))
               :: decode_ignore r2
        else decode_ignore r0
      | _ => decode_ignore r0
      end
    else if (240 <=? b0) && (b0 <=? 244) then
      match r0 with
      | b1 :: b2 :: b3 :: r3 =>
        if second4 b0 b1 && is_cont b2 && is_cont b3
        then ((b0 - 240) * 262144 + (b1 - 128) * 4096
              + (b2 - 128) * 64 + (b3 - 128)) :: decode_ignore r3
        else decode_ignore r0
      | _ => decode_ignore r0
      end
    else decode_ignore r0
  end.

(** One code point in UTF-8; [None] is [UnicodeEncodeError] (a surrogate). *)
Definition encode_char (c : Z) : option bytes :=
  if c <? 0 then None
  else if c <? 128 then Some [c]
  else if c <? 2048 then Some [192 + c / 64; 128 + c mod 64]
  else if c <? 65536 then
    if (55296 <=? c) && (c <=? 57343) then None
    else Some [224 + c / 4096; 128 + (c / 64) mod 64; 128 + c mod 64]
  else if c <? 1114112 then
    Some [240 + c / 262144; 128 + (c / 4096) mod 64;
          128 + (c / 64) mod 64; 128 + c mod 64]
  else None.

(** [str.encode("utf-8")]. *)
Fixpoint encode (s : str) : option bytes :=
  match s with
  | [] => Some []
  | c :: t =>
    match encode_char c, encode t with
    | Some b, Some bt => Some (b ++ bt)
    | _, _ => None
    end
  end.

(** *** Text-mode reading *)

(** Universal newlines, as text-mode reading applies them: a CR LF pair and
    a lone CR both read as LF. *)
Fixpoint universal_newlines (s : str) : str :=
  match s with
  | [] => []
  | c :: t =>
    if c =? CR then
      LF :: match t with
            | d :: t' => if d =? LF then universal_newlines t'
                         else universal_newlines t
            | [] => []
            end
    else c :: universal_newlines t
  end.

(** *** [str] methods *)

(** The line boundaries of [str.splitlines]. *)
Definition is_linebreak (c : Z) : bool :=
  (c =? 10) || (c =? 11) || (c =? 12) || (c =? 13) || (c =? 28)
  || (c =? 29) || (c =? 30) || (c =? 133) || (c =? 8232) || (c =? 8233).

(** [str.splitlines()]: the lines without their boundaries; CR LF is one
    boundary; no empty last line after a final boundary. *)
Fixpoint splitlines (s : str) : list str :=
  match s with
  | [] => []
  | c :: t =>
    if is_linebreak c then
      [] :: match t with
            | d :: t' => if (c =? CR) && (d =? LF) then splitlines t'
                         else splitlines t
            | [] => []
            end
    else
      match splitlines t with
      | [] => [[c]]
      | l :: ls => (c :: l) :: ls
      end
  end.

(** [s.endswith("\n")]. *)
Definition endswith_LF (s : str) : bool :=
  match last s with
  | Some c => c =? LF
  | None => false
  end.

(** The white space [str.strip()] removes. *)
Definition is_space (c : Z) : bool :=
  ((9 <=? c) && (c <=? 13)) || ((28 <=? c) && (c <=? 32))
  || (c =? 133) || (c =? 160) || (c =? 5760)
  || ((8192 <=? c) && (c <=? 8202)) || (c =? 8232) || (c =? 8233)
  || (c =? 8239) || (c =? 8287) || (c =? 12288).

Fixpoint lstrip (s : str) : str :=
  match s with
  | c :: t => if is_space c then lstrip t else s
  | [] => []
  end.

Definition strip (s : str) : str := rev (lstrip (rev (lstrip s))).

(** The octets [print] sends to the terminal for a [str]. *)
Definition to_string (s : str) : string :=
  match encode s with
  | Some b => string_of_list_ascii (map (fun z => ascii_of_nat (Z.to_nat z)) b)
  | None => ""
  end.

(** [s.lower()] on ASCII letters. *)
Definition lower_ascii (a : ascii) : ascii :=
  let n := nat_of_ascii a in
  if (Nat.leb 65 n && Nat.leb n 90)%bool then ascii_of_nat (n + 32) else a.

Fixpoint lower (s : string) : string :=
  match s with
  | EmptyString => EmptyString
  | String a t => String (lower_ascii a) (lower t)
  end.

(** Text free of carriage returns, and text free of line boundaries. *)
Definition no_cr (s : str) : Prop := Forall (fun c => c <> CR) s.
Definition no_break (s : str) : Prop :=
  Forall (fun c => is_linebreak c = false) s.

(** What may follow a truncated UTF-8 sequence without being taken for its
    continuation. *)
Definition starts_clean (e : bytes) : Prop :=
  match e with
  | [] => True
  | e0 :: _ => is_cont e0 = false
  end.

(** [x in xs] for a list of [str]. *)
Definition contains (xs : list str) (x : str) : bool :=
  bool_decide (x ∈ xs).

End Py.

(** ** The machine: file system, processes, exceptions *)

Module Sys.
Import Py.

(** A path is the list of its components below the root; this stands for
    both [pathlib.Path] values and the path strings of [os.path]. *)
Abbreviation path := (list string).

Inductive node :=
| Dir
| File (content : bytes).

Abbreviation fs := (gmap (list string) node).

(** [Path.parent]; the root is its own parent. *)
Definition parent (p : path) : path := removelast p.

(** [str(path)] of a POSIX path, and of a Windows path (drive first). *)
Definition show_posix (p : path) : string :=
  match p with
  | [] => "/"
  | _ => String.concat "" (map (fun c => "/" +:+ c) p)
  end.

Definition show_windows (p : path) : string := String.concat "\" p.

(** What [lookup] finds at a path: the root is always a directory. *)
Definition node_at (d : fs) (p : path) : option node :=
  match p with
  | [] => Some Dir
  | _ => d !! p
  end.

Inductive exn :=
| SystemExit (code : Z)
| CalledProcessError (code : Z) (cmd : list string)
| PyError (name : string).

(** What a run leaves behind for an observer: lines printed, external
    commands run through [subprocess.run] and commands probed through
    [subprocess.check_output]; the code is [None] when the command could not
    be started. *)
Inductive event :=
| Printed (msg : string)
| Exec (cmd : list string) (check : bool) (code : option Z)
| Probe (cmd : list string) (code : option Z).

Record world := World { disk : fs; log : list event }.

(** The machine the script runs on.  [which] and [spawn] see the whole
    world, so an external command may do anything to the disk and may answer
    differently each time it is run. *)
Record host := Host {
  system : string;        (* platform.system() *)
  release : string;       (* platform.release() *)
  euid : option Z;        (* os.geteuid(); absent where the os has none *)
  home : path;            (* the user's home directory *)
  executable : string;    (* sys.executable *)
  dir_size : Z;           (* st_size of a directory *)
  which : string -> world -> bool;      (* shutil.which(cmd) is not None *)
  spawn : list string -> world -> option (Z * option str * fs)
    (* [None] when the command cannot be started; otherwise its exit code,
       what it wrote (decoded, before newline translation; [None] when it
       does not decode) and the disk afterwards *)
}.

Inductive result (A : Type) :=
| Ok (a : A)
| Raise (e : exn).
Arguments Ok {A} a.
Arguments Raise {A} e.

Definition M (A : Type) : Type := world -> result A * world.

Definition ret {A} (a : A) : M A := fun w => (Ok a, w).

Definition bind {A B} (m : M A) (k : A -> M B) : M B :=
  fun w =>
    match m w with
    | (Ok a, w') => k a w'
    | (Raise e, w') => (Raise e, w')
    end.

Definition raise {A} (e : exn) : M A := fun w => (Raise e, w).

(** [try: m except Exception: h]; [SystemExit] is not an [Exception]. *)
Definition try_except {A} (m : M A) (handler : M A) : M A :=
  fun w =>
    match m w with
    | (Raise (CalledProcessError _ _), w') => handler w'
    | (Raise (PyError _), w') => handler w'
    | r => r
    end.

#[global] Instance M_ret : MRet M := @ret.
#[global] Instance M_bind : MBind M := fun A B k m => bind m k.

Definition emit (e : event) : M unit :=
  fun w => (Ok tt, World (disk w) (log w ++ [e])).

Definition print (msg : string) : M unit := emit (Printed msg).

Definition sys_exit {A} (code : Z) : M A := raise (SystemExit code).

(** *** File operations *)

Definition path_exists (p : path) : M bool :=
  fun w =>
    (Ok match node_at (disk w) p with Some _ => true | None => false end, w).

Definition is_dir (p : path) : M bool :=
  fun w =>
    (Ok match node_at (disk w) p with Some Dir => true | _ => false end, w).

Definition set_node (p : path) (n : node) : M unit :=
  fun w => (Ok tt, World (<[p := n]> (disk w)) (log w)).

(** [os.mkdir] along the prefixes of [p], from the root down: what
    [Path.mkdir(parents=True, exist_ok=True)] does.  [done] is the prefix
    already walked, [todo] what is left of [p]. *)
Fixpoint mkdir_walk (done todo : path) : M unit :=
  match todo with
  | [] => ret tt
  | c :: rest =>
    let q := done ++ [c] in
    fun w =>
      match disk w !! q with
      | Some Dir => mkdir_walk q rest w
      | Some (File _) => (Raise (PyError "FileExistsError"), w)
      | None => (set_node q Dir ;; mkdir_walk q rest) w
      end
  end.

Definition mkdir_parents (p : path) : M unit := mkdir_walk [] p.

(** [Path.read_text(encoding="utf-8", errors="ignore")]. *)
Definition read_text (p : path) : M str :=
  fun w =>
    match node_at (disk w) p with
    | Some (File b) => (Ok (universal_newlines (decode_ignore b)), w)
    | Some Dir => (Raise (PyError "IsADirectoryError"), w)
    | None => (Raise (PyError "FileNotFoundError"), w)
    end.

(** [Path.open("a")]: the file is created empty when absent. *)
Definition open_append (p : path) : M unit :=
  fun w =>
    match node_at (disk w) p with
    | Some (File _) => (Ok tt, w)
    | Some Dir => (Raise (PyError "IsADirectoryError"), w)
    | None =>
      match node_at (disk w) (parent p) with
      | Some Dir => set_node p (File []) w
      | Some (File _) => (Raise (PyError "NotADirectoryError"), w)
      | None => (Raise (PyError "FileNotFoundError"), w)
      end
    end.

(** [f.write(s)] on a file opened for appending, here on Linux where text
    mode writes LF as it is. *)
Definition write_append (p : path) (s : str) : M unit :=
  fun w =>
    match encode s, disk w !! p with
    | Some b, Some (File old) => set_node p (File (old ++ b)) w
    | None, _ => (Raise (PyError "UnicodeEncodeError"), w)
    | _, _ => (Raise (PyError "ValueError"), w)
    end.

(** [Path.stat().st_size]. *)
Definition stat_size (p : path) : host -> M Z :=
  fun h w =>
    match node_at (disk w) p with
    | Some (File b) => (Ok (Z.of_nat (length b)), w)
    | Some Dir => (Ok (dir_size h), w)
    | None => (Raise (PyError "FileNotFoundError"), w)
    end.

(** *** Processes *)

Definition have_on (h : host) (cmd : string) : M bool :=
  fun w => (Ok (which h cmd w), w).

(** [subprocess.run(cmd, check=check)]. *)
Definition subprocess_run (h : host) (cmd : list string) (check : bool)
  : M Z :=
  fun w =>
    match spawn h cmd w with
    | None =>
      (Raise (PyError "OSError"), World (disk w) (log w ++ [Exec cmd check None]))
    | Some (code, _, d) =>
      let w' := World d (log w ++ [Exec cmd check (Some code)]) in
      if check && negb (code =? 0)
      then (Raise (CalledProcessError code cmd), w')
      else (Ok code, w')
    end.

(** [subprocess.check_output(cmd, text=True)]. *)
Definition check_output (h : host) (cmd : list string) : M str :=
  fun w =>
    match spawn h cmd w with
    | None => (Raise (PyError "OSError"), World (disk w) (log w ++ [Probe cmd None]))
    | Some (code, out, d) =>
      let w' := World d (log w ++ [Probe cmd (Some code)]) in
      if negb (code =? 0) then (Raise (CalledProcessError code cmd), w')
      else match out with
           | Some s => (Ok (universal_newlines s), w')
           | None => (Raise (PyError "UnicodeDecodeError"), w')
           end
    end.

(** [for x in xs: body(x)]. *)
Fixpoint for_each {A} (xs : list A) (body : A -> M unit) : M unit :=
  match xs with
  | [] => ret tt
  | x :: rest => bind (body x) (fun _ => for_each rest body)
  end.

(** The commands of a log, in order. *)
Definition commands (l : list event) : list (list string) :=
  omap (fun e => match e with
                 | Exec c _ _ => Some c
                 | Probe c _ => Some c
                 | Printed _ => None
                 end) l.

(** The text of [CalledProcessError] as [print] shows it. *)
Definition show_cmd (cmd : list string) : string :=
  "[" +:+ String.concat ", " (map (fun a => "'" +:+ a +:+ "'") cmd) +:+ "]".

End Sys.

(** ** install_aikbt.py *)

Module InstallAikbt.
Import Py Sys.

Definition nl : string := String (ascii_of_nat 10) "".

Definition AIK_BT_URL : string :=
  "https://raw.githubusercontent.com/aikaryashala/practice/refs/heads/main/lldb/aik_bt.py".
Definition AIK_RENDERER_URL : string :=
  "https://raw.githubusercontent.com/aikaryashala/practice/refs/heads/main/lldb/aik_renderer.py".

Section Script.
Variable h : host.

Definition run (cmd : list string) (check : bool) : M Z :=
  print (nl +:+ ">>> " +:+ String.concat " " cmd) ;;
  subprocess_run h cmd check.

Definition have_cmd (cmd : string) : M bool := have_on h cmd.

(** The tail of [ensure_line_in_file]: append with newline safety. *)
Definition append_line (file_path : path) (line : str) (existing : list str)
  : M unit :=
  open_append file_path ;;
  sep ← match existing with
        | [] => mret false
        | _ => txt ← read_text file_path; mret (negb (endswith_LF txt))
        end;
  (if sep : bool then write_append file_path [LF] else mret tt) ;;
  write_append file_path (line ++ [LF]) ;;
  print ("OK: Added line to " +:+ show_posix file_path).

Definition ensure_line_in_file (file_path : path) (line : str) : M unit :=
  mkdir_parents (parent file_path) ;;
  ex ← path_exists file_path;
  if ex : bool then
    txt ← read_text file_path;
    let existing := splitlines txt in
    if contains existing line
    then print ("OK: Line already present in " +:+ show_posix file_path)
    else append_line file_path line existing
  else append_line file_path line [].

Definition download_to (url : string) (dest : path) : M unit :=
  mkdir_parents (parent dest) ;;
  c ← have_cmd "curl";
  (if c : bool then mret tt
   else print "ERROR: curl not found. Install it with: sudo apt install -y curl" ;;
        sys_exit 1) ;;
  run ["curl"; "-fsSL"; url; "-o"; show_posix dest] true ;;
  ex ← path_exists dest;
  bad ← (if ex : bool then sz ← stat_size dest h; mret (sz <? 10)
         else mret true);
  if bad : bool then
    print ("ERROR: Download seems failed or file too small: " +:+ show_posix dest) ;;
    sys_exit 1
  else
    sz ← stat_size dest h;
    print ("OK: Downloaded " +:+ show_posix dest +:+ " (" +:+ pretty sz +:+ " bytes)").

Definition is_root : M bool :=
  match euid h with
  | Some u => mret (u =? 0)
  | None => raise (PyError "AttributeError")
  end.

Definition apt_install (packages : list string) : M unit :=
  r ← is_root;
  if r : bool then
    run ["apt"; "update"] true ;;
    run (["apt"; "install"; "-y"] ++ packages) true ;;
    mret tt
  else
    s ← have_cmd "sudo";
    (if s : bool then mret tt
     else print "ERROR: sudo not found. Install sudo as root, or run this script as root." ;;
          sys_exit 1) ;;
    run ["sudo"; "apt"; "update"] true ;;
    run (["sudo"; "apt"; "install"; "-y"] ++ packages) true ;;
    mret tt.

Definition setup_update_alternatives : M unit :=
  u ← have_cmd "update-alternatives";
  if negb u then print "NOTE: update-alternatives not found; skipping."
  else
    let lldb15 := ["usr"; "bin"; "lldb-15"] in
    ex ← path_exists lldb15;
    if negb ex
    then print "NOTE: /usr/bin/lldb-15 not found; skipping update-alternatives step."
    else
      r ← is_root;
      (if r : bool then
         run ["update-alternatives"; "--install"; "/usr/bin/lldb"; "lldb";
              "/usr/bin/lldb-15"; "100"] false
       else
         run ["sudo"; "update-alternatives"; "--install"; "/usr/bin/lldb";
              "lldb"; "/usr/bin/lldb-15"; "100"] false) ;;
      print "OK: update-alternatives attempted (lldb -> lldb-15)".

Definition py_line : str :=
  text "export PYTHONPATH=/usr/lib/llvm-15/lib/python3.10/dist-packages:$PYTHONPATH".

Definition main : M unit :=
  let lldb_dir := home h ++ [".lldb"] in
  let aik_bt_path := lldb_dir ++ ["aik_bt.py"] in
  let aik_renderer_path := lldb_dir ++ ["aik_renderer.py"] in
  let lldbinit_path := home h ++ [".lldbinit"] in
  let bashrc_path := home h ++ [".bashrc"] in
  print "=== AIK BT (LLDB) Installer for Ubuntu ===" ;;
  print (nl +:+ "[1/5] Installing LLDB + Python LLDB bindings (llvm-15)...") ;;
  apt_install ["lldb-15"; "python3-lldb-15"; "curl"] ;;
  print (nl +:+ "[2/5] Downloading aik_bt.py and aik_renderer.py to ~/.lldb/ ...") ;;
  download_to AIK_BT_URL aik_bt_path ;;
  download_to AIK_RENDERER_URL aik_renderer_path ;;
  print (nl +:+ "[3/5] Configuring ~/.lldbinit ...") ;;
  let import_line := text ("command script import " +:+ show_posix aik_bt_path) in
  ensure_line_in_file lldbinit_path import_line ;;
  print (nl +:+ "[4/5] Setting lldb-15 as default (optional) ...") ;;
  setup_update_alternatives ;;
  print (nl +:+ "[5/5] Adding PYTHONPATH to ~/.bashrc ...") ;;
  ensure_line_in_file bashrc_path py_line ;;
  print (nl +:+ "=== DONE ===") ;;
  print "Now run:" ;;
  print "  source ~/.bashrc" ;;
  print "  lldb" ;;
  print (nl +:+ "Inside LLDB you should see:") ;;
  print "  Loaded: aik bt" ;;
  print (nl +:+ "Then try:") ;;
  print "  (lldb) aik bt" ;;
  print "  (lldb) aik bt 5".

(** The [__main__] guard: the exit code of the process, as given to
    [sys.exit], and the world it leaves.  An exception nobody catches ends
    the process with code 1. *)
Definition script (w : world) : Z * world :=
  match main w with
  | (Ok _, w') => (0, w')
  | (Raise (CalledProcessError c _), w') =>
    (c, World (disk w')
              (log w' ++ [Printed (nl +:+ "ERROR: Command failed with exit code "
                                      +:+ pretty c)]))
  | (Raise (SystemExit c), w') => (c, w')
  | (Raise (PyError _), w') => (1, w')
  end.

End Script.
End InstallAikbt.

(** ** setup_tools.py *)

Module SetupTools.
Import Py Sys.

Definition nl : string := String (ascii_of_nat 10) "".

Definition dq : string := String (ascii_of_nat 34) "".

Definition PIP_PACKAGES : list string :=
  ["qrcode[pil]"; "check50"; "style50"; "submit50"].

Definition APT_PACKAGES : list string :=
  ["sudo"; "python3"; "python3-venv"; "python3-pip"; "clang"; "lldb";
   "micro"; "asciinema"; "zip"; "unzip"; "curl"].

Definition BREW_PACKAGES : list string :=
  ["micro"; "asciinema"; "llvm"; "zip"; "unzip"; "curl"].

Definition WINGET_PACKAGES : list (string * option string) :=
  [("Micro Editor", Some "zyedidia.micro");
   ("LLVM (clang/lldb)", Some "LLVM.LLVM");
   ("cURL", Some "cURL.cURL");
   ("zip/unzip", None)].

Section Script.
Variable h : host.

Definition run (cmd : list string) (check : bool) : M Z :=
  print (nl +:+ "==> " +:+ String.concat " " cmd) ;;
  subprocess_run h cmd check.

Definition is_root : bool :=
  match euid h with
  | Some u => u =? 0
  | None => false
  end.

Definition is_linux : bool := String.eqb (lower (system h)) "linux".
Definition is_macos : bool := String.eqb (lower (system h)) "darwin".
Definition is_windows : bool := String.eqb (lower (system h)) "windows".

(** [str] of a path on this system. *)
Definition show (p : path) : string :=
  if is_windows then show_windows p else show_posix p.

Definition choose_venv_path : path :=
  if is_linux && is_root then ["opt"; "course-venv"]
  else home h ++ ["course-venv"].

Definition have (cmd : string) : M bool := have_on h cmd.

(** The probe captures standard error together with standard output. *)
Definition first_line (cmd : list string) : M str :=
  match cmd with
  | [] => raise (PyError "IndexError")
  | c0 :: _ =>
    a ← have c0;
    if negb a then mret (text "not available")
    else
      try_except
        (raw ← check_output h cmd;
         let out := strip raw in
         match out with
         | [] => mret (text "unknown")
         | _ =>
           match splitlines out with
           | l :: _ => mret l
           | [] => raise (PyError "IndexError")
           end
         end)
        (mret (text "unknown"))
  end.

Definition ensure_admin_linux : M (list string) :=
  if is_root then mret []
  else
    s ← have "sudo";
    if s : bool then mret ["sudo"]
    else
      print "❌ sudo is not installed and you are not root." ;;
      print "   First run must be as root (or via provider console):" ;;
      print "     python3 setup_tools.py" ;;
      sys_exit 1.

(** The environment passed to the commands ([DEBIAN_FRONTEND]) is part of
    what [spawn] stands for. *)
Definition install_on_ubuntu : M unit :=
  prefix ← ensure_admin_linux;
  run (prefix ++ ["apt-get"; "update"; "-y"]) true ;;
  run (prefix ++ ["apt-get"; "install"; "-y"] ++ APT_PACKAGES) true ;;
  mret tt.

Definition install_on_macos : M unit :=
  b ← have "brew";
  if negb b then
    print "❌ Homebrew (brew) not found." ;;
    print "   Install Homebrew first, then rerun this script." ;;
    print "   Command (copy/paste in Terminal):" ;;
    print ("   /bin/bash -c " +:+ dq
           +:+ "$(curl -fsSL https://raw.githubusercontent.com/Homebrew/install/HEAD/install.sh)"
           +:+ dq)
  else
    run ["brew"; "update"] true ;;
    run (["brew"; "install"] ++ BREW_PACKAGES) true ;;
    mret tt.

Definition install_on_windows : M unit :=
  g ← have "winget";
  if negb g then
    print "❌ winget not found. Install 'App Installer' from Microsoft Store or use Windows 10/11 with winget enabled."
  else
    for_each WINGET_PACKAGES (fun '(name, pkg_id) =>
      match pkg_id with
      | None => mret tt
      | Some id =>
        run ["winget"; "install"; "--id"; id; "-e";
             "--accept-package-agreements"; "--accept-source-agreements"]
            false ;;
        mret tt
      end) ;;
    print (nl +:+ "ℹ️ asciinema is not commonly available for native Windows.") ;;
    print "   Best option: use WSL (Ubuntu) and install asciinema there.".

Definition ensure_venv (venv_path : path) : M (path * path) :=
  d ← is_dir venv_path;
  (if negb d then run [executable h; "-m"; "venv"; show venv_path] true ;; mret tt
   else mret tt) ;;
  let '(python_bin, pip_bin) :=
    if is_windows
    then (venv_path ++ ["Scripts"; "python.exe"],
          venv_path ++ ["Scripts"; "pip.exe"])
    else (venv_path ++ ["bin"; "python"], venv_path ++ ["bin"; "pip"]) in
  run [show python_bin; "-m"; "pip"; "install"; "-U"; "pip"; "setuptools";
       "wheel"] true ;;
  mret (python_bin, pip_bin).

Definition pip_install_in_venv (pip_bin : path) : M unit :=
  run ([show pip_bin; "install"; "-U"] ++ PIP_PACKAGES) true ;; mret tt.

Definition symlink_cli_tools_linux_shared (venv_path : path) : M unit :=
  if negb is_linux then mret tt
  else if negb (bool_decide (venv_path = ["opt"; "course-venv"])) then mret tt
  else
    prefix ← ensure_admin_linux;
    let link_dir := ["usr"; "local"; "bin"] in
    for_each ["check50"; "style50"; "submit50"] (fun tool =>
      let src := venv_path ++ ["bin"; tool] in
      let dst := link_dir ++ [tool] in
      ex ← path_exists src;
      if ex : bool then run (prefix ++ ["ln"; "-sf"; show src; show dst]) true ;; mret tt
      else print ("⚠️ Tool not found in venv (skipping link): " +:+ show src)).

Definition checks : list (string * list string) :=
  [("python3", ["python3"; "--version"]);
   ("pip3", ["pip3"; "--version"]);
   ("clang", ["clang"; "--version"]);
   ("lldb", ["lldb"; "--version"]);
   ("micro", ["micro"; "--version"]);
   ("asciinema", ["asciinema"; "--version"]);
   ("curl", ["curl"; "--version"]);
   ("zip", ["zip"; "-v"]);
   ("unzip", ["unzip"; "-v"]);
   ("sudo", ["sudo"; "--version"])].

Definition rule : string :=
  "============================================================".

Definition print_versions (venv_python : path) : M unit :=
  print (nl +:+ rule) ;;
  print "✅ Version check" ;;
  print rule ;;
  for_each checks (fun '(name, cmd) =>
    v ← first_line cmd;
    print (name +:+ ": " +:+ to_string v)) ;;
  print (nl +:+ "PIP packages (inside venv):") ;;
  for_each ["qrcode"; "check50"; "style50"; "submit50"] (fun dist =>
    let code :=
      "from importlib.metadata import version" +:+ nl +:+
      "print('" +:+ dist +:+ "=' + version('" +:+ dist +:+ "'))" +:+ nl in
    try_except
      (raw ← check_output h [show venv_python; "-c"; code];
       print (to_string (strip raw)))
      (print (dist +:+ "=not installed"))) ;;
  print (nl +:+ "Done." +:+ nl).

(** Steps 2 to 4 of [main]: the virtual environment, the pip tools, the
    shared links and the version report. *)
Definition provision : M unit :=
  let venv_path := choose_venv_path in
  print (nl +:+ "==> Using venv at: " +:+ show venv_path) ;;
  '(venv_python, venv_pip) ← ensure_venv venv_path;
  pip_install_in_venv venv_pip ;;
  symlink_cli_tools_linux_shared venv_path ;;
  print_versions venv_python.

Definition main : M unit :=
  print ("==> Detected OS: " +:+ system h +:+ " " +:+ release h) ;;
  if is_linux then install_on_ubuntu ;; provision
  else if is_macos then install_on_macos ;; provision
  else if is_windows then install_on_windows ;; provision
  else print "❌ Unsupported OS for automatic system installs.".

(** The [__main__] guard. *)
Definition script (w : world) : Z * world :=
  match main w with
  | (Ok _, w') => (0, w')
  | (Raise (CalledProcessError c cmd), w') =>
    (c, World (disk w')
              (log w' ++ [Printed (nl +:+ "❌ Command failed: Command '"
                                      +:+ show_cmd cmd
                                      +:+ "' returned non-zero exit status "
                                      +:+ pretty c +:+ ".")]))
  | (Raise (SystemExit c), w') => (c, w')
  | (Raise (PyError _), w') => (1, w')
  end.

End Script.
End SetupTools.

(** ** What the properties observe *)

Module Obs.
Import Py Sys.

(** The text a file holds, as [read_text] returns it. *)
Definition file_text (b : bytes) : str := universal_newlines (decode_ignore b).

(** The separator [ensure_line_in_file] writes before the line. *)
Definition separator (old : bytes) : str :=
  match splitlines (file_text old) with
  | [] => []
  | _ => if endswith_LF (file_text old) then [] else [LF]
  end.

(** How often a line occurs among lines. *)
Definition occurrences (line : str) (ls : list str) : nat :=
  length (filter (fun l => l = line) ls).

(** The octets of the regular file at [p], if there is one. *)
Definition content (d : fs) (p : path) : option bytes :=
  match node_at d p with
  | Some (File b) => Some b
  | _ => None
  end.

(** The lines of the file at [p] as [ensure_line_in_file] sees them. *)
Definition lines_at (d : fs) (p : path) : list str :=
  match content d p with
  | Some b => splitlines (file_text b)
  | None => []
  end.

(** A line of text: not empty and free of line boundaries. *)
Definition is_line (line : str) : bool :=
  negb (bool_decide (line = [])) && forallb (fun c => negb (is_linebreak c)) line.

(** Some prefix of [todo] below [done] is a regular file, so that no
    directory can be made there. *)
Fixpoint blocked (d : fs) (done todo : path) : bool :=
  match todo with
  | [] => false
  | c :: rest =>
    match d !! (done ++ [c]) with
    | Some (File _) => true
    | _ => blocked d (done ++ [c]) rest
    end
  end.

(** [p] can hold a regular file: its directories exist or can be made, and
    [p] itself is not a directory. *)
Definition can_hold (d : fs) (p : path) : bool :=
  negb (blocked d [] (parent p))
  && match node_at d p with Some Dir => false | _ => true end.

(** Every directory on the way down to [q] is there. *)
Definition dirs_made (d : fs) (q : path) : Prop :=
  forall k, (0 < k <= length q)%nat -> d !! take k q = Some Dir.

(** The octets of the file after one call of [ensure_line_in_file] with a
    line whose encoding is [bl], [old] being the octets before (none when
    the file was absent). *)
Definition after_run (old : bytes) (line : str) (bl : bytes) : bytes :=
  if contains (splitlines (file_text old)) line then old
  else old ++ separator old ++ bl ++ [LF].

(** What [subprocess.run(cmd, check=check)] gives for an exit code, [None]
    standing for a command that could not be started. *)
Definition outcome (cmd : list string) (check : bool) (code : option Z)
  : result Z :=
  match code with
  | None => Raise (PyError "OSError")
  | Some c =>
    if check && negb (c =? 0) then Raise (CalledProcessError c cmd) else Ok c
  end.

(** The sanity check of [download_to] fails on this disk: nothing at [dest],
    or fewer than 10 octets. *)
Definition too_small (h : host) (d : fs) (dest : path) : bool :=
  match node_at d dest with
  | None => true
  | Some (File b) => Z.of_nat (length b) <? 10
  | Some Dir => dir_size h <? 10
  end.

(** The world after [print(msg)]. *)
Definition say (msg : string) (w : world) : world :=
  World (disk w) (log w ++ [Printed msg]).

(** The first lines [main] of install_aikbt.py prints. *)
Definition banner : string := "=== AIK BT (LLDB) Installer for Ubuntu ===".
Definition step1 : string :=
  InstallAikbt.nl +:+ "[1/5] Installing LLDB + Python LLDB bindings (llvm-15)...".
Definition step2 : string :=
  InstallAikbt.nl +:+ "[2/5] Downloading aik_bt.py and aik_renderer.py to ~/.lldb/ ...".

(** The first line [main] of setup_tools.py prints. *)
Definition detected (h : host) : string :=
  "==> Detected OS: " +:+ system h +:+ " " +:+ release h.

(** [os.path.isdir(p)] on a disk. *)
Definition dir_at (d : fs) (p : path) : bool :=
  match node_at d p with
  | Some Dir => true
  | _ => false
  end.

(** Every command of a log that was run with failure checking exited 0. *)
Definition checked_ok (l : list event) : Prop :=
  forall cmd c, Exec cmd true (Some c) ∈ l -> c = 0.

(** Fail fast: the log only grows; [CalledProcessError] carries the
    non-zero exit code of a command run with failure checking, which is the
    last thing logged, every checked command before it having exited 0; in
    every other outcome every checked command exited 0, and [SystemExit]
    carries 1. *)
Definition fail_fast {A} (w : world) (r : result A) (w' : world) : Prop :=
  exists l, log w' = log w ++ l /\
    match r with
    | Raise (CalledProcessError c cmd) =>
      c <> 0 /\ exists l0, l = l0 ++ [Exec cmd true (Some c)] /\ checked_ok l0
    | Raise (SystemExit c) => c = 1 /\ checked_ok l
    | _ => checked_ok l
    end.

(** What the exit code [c] of a script has to do with its log: where every
    command run with failure checking exited 0 the code is 0 or 1; a command
    run with failure checking that exited with another code gave that code
    to the script, was the last thing run, only the final message coming
    after it, and every checked command before it exited 0. *)
Definition propagates (c : Z) (before after : list event) : Prop :=
  exists l, after = before ++ l
    /\ (checked_ok l -> c = 0 \/ c = 1)
    /\ (forall cmd k, Exec cmd true (Some k) ∈ l -> k <> 0 ->
        c = k /\ exists l0 msg,
          l = l0 ++ [Exec cmd true (Some k); Printed msg] /\ checked_ok l0).

(** Runs commands only without failure checking, and neither exits nor
    raises [CalledProcessError]. *)
Definition ignores_failures {A} (w : world) (r : result A) (w' : world)
  : Prop :=
  exists l, log w' = log w ++ l
    /\ (forall cmd check code, Exec cmd check code ∈ l -> check = false)
    /\ match r with
       | Raise (CalledProcessError _ _) => False
       | Raise (SystemExit _) => False
       | _ => True
       end.

(** Every command added to the log satisfies [P]. *)
Definition runs_only (P : list string -> Prop) (w w' : world) : Prop :=
  exists l, log w' = log w ++ l /\ Forall P (commands l).

(** A computation whose every run satisfies [Q]. *)
Definition always {A} (Q : world -> result A -> world -> Prop) (m : M A)
  : Prop :=
  forall w, Q w (fst (m w)) (snd (m w)).

(** Runs no command through [subprocess.run], and returns. *)
Definition quiet {A} (w : world) (r : result A) (w' : world) : Prop :=
  exists l, log w' = log w ++ l
    /\ (forall cmd check code, Exec cmd check code ∉ l)
    /\ exists a, r = Ok a.

(** Runs no command through [subprocess.run], and does not exit. *)
Definition probing {A} (w : world) (r : result A) (w' : world) : Prop :=
  exists l, log w' = log w ++ l
    /\ (forall cmd check code, Exec cmd check code ∉ l)
    /\ (forall c, r <> Raise (SystemExit c)).

(** Logs nothing, and returns or raises an error that is not an exit. *)
Definition silent {A} (w : world) (r : result A) (w' : world) : Prop :=
  log w' = log w
  /\ match r with
     | Ok _ => True
     | Raise (PyError _) => True
     | Raise _ => False
     end.

(** [m] run [n] times in a row. *)
Fixpoint times (n : nat) (m : M unit) : M unit :=
  match n with
  | O => ret tt
  | S k => bind m (fun _ => times k m)
  end.

(** The commands [m] adds to the log, probes among them, are some of [cs],
    in the order of [cs]. *)
Definition runs_in_order {A} (cs : list (list string)) (m : M A) : Prop :=
  forall w, exists l,
    log (snd (m w)) = log w ++ l /\ sublist (commands l) cs.

(** Between [w] and [w'] every command of [cs] was run with failure
    checking and exited 0. *)
Definition succeeded (cs : list (list string)) (w w' : world) : Prop :=
  exists l, log w' = log w ++ l
    /\ Forall (fun c => Exec c true (Some 0) ∈ l) cs.

(** Whenever [m] returns, every command of [cs] was run by it with failure
    checking and exited 0. *)
Definition on_return {A} (cs : list (list string)) (m : M A) : Prop :=
  forall w a w1, m w = (Ok a, w1) -> succeeded cs w w1.

(** A relation between the world before and after that a computation
    maintains whatever its outcome. *)
Definition preserves {A} (R : world -> world -> Prop) (m : M A) : Prop :=
  forall w r w', m w = (r, w') -> R w w'.

(** The regular file at [p] only grows at its end, and no other node that
    exists is altered. *)
Definition grows_at (p : path) (w w' : world) : Prop :=
  (forall old, content (disk w) p = Some old ->
     exists added, content (disk w') p = Some (old ++ added))
  /\ (forall q n, q <> p -> disk w !! q = Some n -> disk w' !! q = Some n).

End Obs.

(** ** Concrete machines *)

Module Examples.
Import Py Sys.

Definition lldbinit : path := ["home"; "u"; ".lldbinit"].

Definition import_line : str :=
  text "command script import /home/u/.lldb/aik_bt.py".

Definition home_dirs : fs := <[ ["home"; "u"] := Dir ]> (<[ ["home"] := Dir ]> ∅).

(** A home directory without [.lldbinit], and one where it holds [b]. *)
Definition fresh : world := World home_dirs [].
Definition with_file (b : bytes) : world :=
  World (<[ lldbinit := File b ]> home_dirs) [].

(** A file some directories below the home directory, none of them made. *)
Definition deep : path := ["home"; "u"; ".config"; "lldb"; "init"].

(** What the installer's external commands leave on the disk when they do
    their work: the two downloaded scripts and the debugger. *)
Definition provisioned (hm : path) (d : fs) : fs :=
  <[ ["usr"; "bin"; "lldb-15"] := File (text "#!/bin/sh lldb") ]>
  (<[ hm ++ [".lldb"; "aik_renderer.py"] := File (text "import lldb  # r") ]>
  (<[ hm ++ [".lldb"; "aik_bt.py"] := File (text "import lldb  # bt") ]> d)).

(** Every command does its work and exits 0, except that the commands
    named in [failing] exit with the code given there. *)
Definition behave (hm : path) (failing : list (string * Z))
  : list string -> world -> option (Z * option str * fs) :=
  fun cmd w =>
    let code :=
      match cmd with
      | c0 :: _ =>
        match list_find (fun '(n, _) => n = c0) failing with
        | Some (_, (_, k)) => k
        | None => 0
        end
      | [] => 0
      end in
    Some (code, Some (text "tool 1.0"), provisioned hm (disk w)).

(** Ubuntu, run by root, every tool on the path. *)
Definition ubuntu_root (failing : list (string * Z)) : host :=
  Host "Linux" "6.8.0" (Some 0) ["root"] "/usr/bin/python3" 4096
    (fun _ _ => true) (behave ["root"] failing).

(** Ubuntu, run by a user without [sudo] on the path. *)
Definition ubuntu_user_no_sudo : host :=
  Host "Linux" "6.8.0" (Some 1000) ["home"; "u"] "/usr/bin/python3" 4096
    (fun cmd _ => negb (String.eqb cmd "sudo")) (behave ["home"; "u"] []).

(** macOS without Homebrew. *)
Definition macos_no_brew : host :=
  Host "Darwin" "23.4.0" (Some 501) ["Users"; "u"] "/usr/bin/python3" 4096
    (fun cmd _ => negb (String.eqb cmd "brew")) (behave ["Users"; "u"] []).

(** Windows with winget, where installing LLVM fails. *)
Definition windows_winget (failing : list (string * Z)) : host :=
  Host "Windows" "11" None ["C:"; "Users"; "u"] "C:\Python\python.exe" 4096
    (fun _ _ => true) (behave ["C:"; "Users"; "u"] failing).

(** Ubuntu, run by root, where [curl] exits 0 and leaves three octets. *)
Definition short_download : host :=
  Host "Linux" "6.8.0" (Some 0) ["root"] "/usr/bin/python3" 4096
    (fun _ _ => true)
    (fun cmd w =>
       Some (0, Some [],
             <[ ["root"; ".lldb"; "aik_bt.py"] := File (text "404") ]>
               (disk w))).

(** A system that is none of the three setup_tools.py knows. *)
Definition freebsd : host :=
  Host "FreeBSD" "14.1" (Some 0) ["root"] "/usr/local/bin/python3" 512
    (fun _ _ => true) (behave ["root"] []).

Definition empty_world : world := World ∅ [].

(** A string of two lines, and a home directory whose [.lldbinit] is a
    directory. *)
Definition two_lines : str := text "settings set x 1" ++ [LF] ++ text "y".
Definition lldbinit_is_dir : world :=
  World (<[ lldbinit := Dir ]> home_dirs) [].

(** The command [install_on_windows] runs for a package id. *)
Definition winget_install (id : string) : list string :=
  ["winget"; "install"; "--id"; id; "-e"; "--accept-package-agreements";
   "--accept-source-agreements"].

(** A disk where the shared virtual environment exists already. *)
Definition with_venv : world :=
  World (<[ ["opt"; "course-venv"] := Dir ]> (<[ ["opt"] := Dir ]> ∅)) [].

(** Two commands of install_aikbt.py run by root. *)
Definition curl_aik_bt : list string :=
  ["curl"; "-fsSL"; InstallAikbt.AIK_BT_URL; "-o"; "/root/.lldb/aik_bt.py"].

Definition update_alternatives_lldb : list string :=
  ["update-alternatives"; "--install"; "/usr/bin/lldb"; "lldb";
   "/usr/bin/lldb-15"; "100"].

End Examples.

(** ** The commands of the two scripts, in the order of their text *)

Module Commands.
Import Py Sys Examples.

(** What install_aikbt.py puts before a privileged command. *)
Definition aikbt_prefix (h : host) : list string :=
  match euid h with
  | Some u => if u =? 0 then [] else ["sudo"]
  | None => []
  end.

Definition aikbt_commands (h : host) : list (list string) :=
  [aikbt_prefix h ++ ["apt"; "update"];
   aikbt_prefix h ++ ["apt"; "install"; "-y"; "lldb-15"; "python3-lldb-15";
                      "curl"];
   ["curl"; "-fsSL"; InstallAikbt.AIK_BT_URL; "-o";
    show_posix (home h ++ [".lldb"; "aik_bt.py"])];
   ["curl"; "-fsSL"; InstallAikbt.AIK_RENDERER_URL; "-o";
    show_posix (home h ++ [".lldb"; "aik_renderer.py"])];
   aikbt_prefix h ++ update_alternatives_lldb].

(** The commands install_aikbt.py cannot do without. *)
Definition aikbt_required (h : host) : list (list string) :=
  [aikbt_prefix h ++ ["apt"; "update"];
   aikbt_prefix h ++ ["apt"; "install"; "-y"; "lldb-15"; "python3-lldb-15";
                      "curl"];
   ["curl"; "-fsSL"; InstallAikbt.AIK_BT_URL; "-o";
    show_posix (home h ++ [".lldb"; "aik_bt.py"])];
   ["curl"; "-fsSL"; InstallAikbt.AIK_RENDERER_URL; "-o";
    show_posix (home h ++ [".lldb"; "aik_renderer.py"])]].

(** What setup_tools.py puts before a privileged command. *)
Definition setup_prefix (h : host) : list string :=
  if SetupTools.is_root h then [] else ["sudo"].

Definition system_installs (h : host) : list (list string) :=
  if SetupTools.is_linux h then
    [setup_prefix h ++ ["apt-get"; "update"; "-y"];
     setup_prefix h ++ ["apt-get"; "install"; "-y"] ++ SetupTools.APT_PACKAGES]
  else if SetupTools.is_macos h then
    [["brew"; "update"]; ["brew"; "install"] ++ SetupTools.BREW_PACKAGES]
  else if SetupTools.is_windows h then
    map winget_install ["zyedidia.micro"; "LLVM.LLVM"; "cURL.cURL"]
  else [].

(** The interpreter of the virtual environment, and its pip. *)
Definition venv_python (h : host) : path :=
  SetupTools.choose_venv_path h
  ++ (if SetupTools.is_windows h then ["Scripts"; "python.exe"]
      else ["bin"; "python"]).
Definition venv_pip (h : host) : path :=
  SetupTools.choose_venv_path h
  ++ (if SetupTools.is_windows h then ["Scripts"; "pip.exe"]
      else ["bin"; "pip"]).

Definition venv_commands (h : host) : list (list string) :=
  [[executable h; "-m"; "venv";
    SetupTools.show h (SetupTools.choose_venv_path h)];
   [SetupTools.show h (venv_python h); "-m"; "pip"; "install"; "-U"; "pip";
    "setuptools"; "wheel"];
   [SetupTools.show h (venv_pip h); "install"; "-U"]
     ++ SetupTools.PIP_PACKAGES].

Definition link_commands (h : host) : list (list string) :=
  if SetupTools.is_linux h
     && bool_decide (SetupTools.choose_venv_path h = ["opt"; "course-venv"])
  then
    map (fun tool =>
           setup_prefix h
           ++ ["ln"; "-sf";
               SetupTools.show h (SetupTools.choose_venv_path h
                                  ++ ["bin"; tool]);
               SetupTools.show h (["usr"; "local"; "bin"] ++ [tool])])
      ["check50"; "style50"; "submit50"]
  else [].

(** The program [print_versions] gives to the interpreter of the virtual
    environment for a distribution. *)
Definition version_code (dist : string) : string :=
  "from importlib.metadata import version" +:+ SetupTools.nl +:+
  "print('" +:+ dist +:+ "=' + version('" +:+ dist +:+ "'))" +:+ SetupTools.nl.

Definition version_probes (h : host) : list (list string) :=
  map snd SetupTools.checks
  ++ map (fun dist => [SetupTools.show h (venv_python h); "-c";
                       version_code dist])
       ["qrcode"; "check50"; "style50"; "submit50"].

(** The commands setup_tools.py cannot do without on a system it
    knows. *)
Definition setup_required (h : host) : list (list string) :=
  (if SetupTools.is_linux h then
     [setup_prefix h ++ ["apt-get"; "update"; "-y"];
      setup_prefix h ++ ["apt-get"; "install"; "-y"]
        ++ SetupTools.APT_PACKAGES]
   else [])
  ++ [[SetupTools.show h (venv_python h); "-m"; "pip"; "install"; "-U"; "pip";
       "setuptools"; "wheel"];
      [SetupTools.show h (venv_pip h); "install"; "-U"]
        ++ SetupTools.PIP_PACKAGES].

Definition setup_commands (h : host) : list (list string) :=
  if SetupTools.is_linux h || SetupTools.is_macos h || SetupTools.is_windows h
  then system_installs h ++ venv_commands h ++ link_commands h
       ++ version_probes h
  else [].

End Commands.
(** ** Facts about the text primitives *)

Module PyFacts.
Import Py.

Ltac bool_arith :=
  repeat match goal with
  | H : (_ && _)%bool = true |- _ => apply andb_true_iff in H; destruct H
  | H : (_ && _)%bool = false |- _ => apply andb_false_iff in H
  | H : (_ || _)%bool = true |- _ => apply orb_true_iff in H
  | H : (_ || _)%bool = false |- _ => apply orb_false_iff in H; destruct H
  | H : negb _ = true |- _ => apply negb_true_iff in H
  | H : negb _ = false |- _ => apply negb_false_iff in H
  | H : (_ <=? _) = true |- _ => apply Z.leb_le in H
  | H : (_ <=? _) = false |- _ => apply Z.leb_gt in H
  | H : (_ <? _) = true |- _ => apply Z.ltb_lt in H
  | H : (_ <? _) = false |- _ => apply Z.ltb_ge in H
  | H : (_ =? _) = true |- _ => apply Z.eqb_eq in H
  | H : (_ =? _) = false |- _ => apply Z.eqb_neq in H
  end.

Ltac test_true t := replace t with true by (symmetry; first [apply Z.leb_le | apply Z.ltb_lt | apply Z.eqb_eq]; lia).
Ltac test_false t := replace t with false by (symmetry; first [apply Z.leb_gt | apply Z.ltb_ge | apply Z.eqb_neq]; lia).

(** The six-bit groups of a code point, as linear facts. *)
Lemma sextets c :
  exists a r0 r1 q r2 p,
    (c / 64 = a /\ c mod 64 = r0 /\ (c / 64) mod 64 = r1 /\ c / 4096 = q
     /\ (c / 4096) mod 64 = r2 /\ c / 262144 = p)
    /\ c = 64 * a + r0 /\ a = 64 * q + r1 /\ q = 64 * p + r2
    /\ 0 <= r0 < 64 /\ 0 <= r1 < 64 /\ 0 <= r2 < 64.
Proof.
  exists (c / 64), (c mod 64), ((c / 64) mod 64), (c / 4096),
    ((c / 4096) mod 64), (c / 262144).
  assert (c / 4096 = c / 64 / 64) as E1
    by (rewrite Z.div_div by lia; reflexivity).
  assert (c / 262144 = c / 4096 / 64) as E2
    by (rewrite Z.div_div by lia; reflexivity).
  pose proof (Z.div_mod c 64 ltac:(lia)).
  pose proof (Z.div_mod (c / 64) 64 ltac:(lia)).
  pose proof (Z.div_mod (c / 4096) 64 ltac:(lia)).
  pose proof (Z.mod_pos_bound c 64 ltac:(lia)).
  pose proof (Z.mod_pos_bound (c / 64) 64 ltac:(lia)).
  pose proof (Z.mod_pos_bound (c / 4096) 64 ltac:(lia)).
  repeat split; try reflexivity; try tauto.
  - rewrite E1. assumption.
  - rewrite E2. assumption.
Qed.

Ltac with_sextets c :=
  let E1 := fresh in let E2 := fresh in let E3 := fresh in
  let E4 := fresh in let E5 := fresh in let E6 := fresh in
  destruct (sextets c)
    as (?a & ?r0 & ?r1 & ?q & ?r2 & ?p & (E1 & E2 & E3 & E4 & E5 & E6)
        & ? & ? & ? & ? & ? & ?);
  rewrite ?E5, ?E3, ?E6, ?E4, ?E2, ?E1; clear E1 E2 E3 E4 E5 E6.

Lemma decode_cons b0 r0 :
  decode_ignore (b0 :: r0) =
    if (0 <=? b0) && (b0 <? 128) then b0 :: decode_ignore r0
    else if (194 <=? b0) && (b0 <=? 223) then
      match r0 with
      | b1 :: r1 =>
        if is_cont b1
        then ((b0 - 192) * 64 + (b1 - 128)) :: decode_ignore r1
        else decode_ignore r0
      | _ => decode_ignore r0
      end
    else if (224 <=? b0) && (b0 <=? 239) then
      match r0 with
      | b1 :: b2 :: r2 =>
        if second3 b0 b1 && is_cont b2
        then ((b0 - 224) * 4096 + (b1 - 128) * 64 + (b2 - 128))
               :: decode_ignore r2
        else decode_ignore r0
      | _ => decode_ignore r0
      end
    else if (240 <=? b0) && (b0 <=? 244) then
      match r0 with
      | b1 :: b2 :: b3 :: r3 =>
        if second4 b0 b1 && is_cont b2 && is_cont b3
        then ((b0 - 240) * 262144 + (b1 - 128) * 4096
              + (b2 - 128) * 64 + (b3 - 128)) :: decode_ignore r3
        else decode_ignore r0
      | _ => decode_ignore r0
      end
    else decode_ignore r0.
Proof. reflexivity. Qed.

Lemma decode_1 b0 r : 0 <= b0 < 128 ->
  decode_ignore (b0 :: r) = b0 :: decode_ignore r.
Proof.
  intros. rewrite decode_cons.
  test_true (0 <=? b0). test_true (b0 <? 128). reflexivity.
Qed.

Lemma decode_2 b0 b1 r : 194 <= b0 <= 223 -> is_cont b1 = true ->
  decode_ignore (b0 :: b1 :: r)
  = ((b0 - 192) * 64 + (b1 - 128)) :: decode_ignore r.
Proof.
  intros ? Hc. rewrite decode_cons, Hc.
  test_false (b0 <? 128). test_true (194 <=? b0). test_true (b0 <=? 223).
  rewrite andb_false_r. reflexivity.
Qed.

Lemma decode_3 b0 b1 b2 r :
  224 <= b0 <= 239 -> second3 b0 b1 = true -> is_cont b2 = true ->
  decode_ignore (b0 :: b1 :: b2 :: r)
  = ((b0 - 224) * 4096 + (b1 - 128) * 64 + (b2 - 128)) :: decode_ignore r.
Proof.
  intros ? H1 H2. rewrite decode_cons, H1, H2.
  test_false (b0 <? 128). test_false (b0 <=? 223).
  test_true (224 <=? b0). test_true (b0 <=? 239).
  rewrite !andb_false_r. reflexivity.
Qed.

Lemma decode_4 b0 b1 b2 b3 r :
  240 <= b0 <= 244 -> second4 b0 b1 = true -> is_cont b2 = true ->
  is_cont b3 = true ->
  decode_ignore (b0 :: b1 :: b2 :: b3 :: r)
  = ((b0 - 240) * 262144 + (b1 - 128) * 4096 + (b2 - 128) * 64 + (b3 - 128))
      :: decode_ignore r.
Proof.
  intros ? H1 H2 H3. rewrite decode_cons, H1, H2, H3.
  test_false (b0 <? 128). test_false (b0 <=? 223). test_false (b0 <=? 239).
  test_true (240 <=? b0). test_true (b0 <=? 244).
  rewrite !andb_false_r. reflexivity.
Qed.

Lemma is_cont_iff b : is_cont b = true <-> 128 <= b <= 191.
Proof. unfold is_cont. rewrite andb_true_iff, !Z.leb_le. tauto. Qed.

(** Decoding undoes the encoding of one code point, whatever follows. *)
Lemma decode_encode_char c b r :
  encode_char c = Some b -> decode_ignore (b ++ r) = c :: decode_ignore r.
Proof.
  unfold encode_char. intros H.
  destruct (c <? 0) eqn:E0; [discriminate|].
  destruct (c <? 128) eqn:E1.
  { injection H as <-. bool_arith. cbn [app]. apply decode_1. lia. }
  destruct (c <? 2048) eqn:E2.
  { injection H as <-. bool_arith. with_sextets c. cbn [app].
    rewrite decode_2; [f_equal; lia | lia | apply is_cont_iff; lia]. }
  destruct (c <? 65536) eqn:E3.
  { destruct ((55296 <=? c) && (c <=? 57343))%bool eqn:E4; [discriminate|].
    injection H as <-. bool_arith. with_sextets c. cbn [app].
    rewrite decode_3; [f_equal; lia | lia | | apply is_cont_iff; lia].
    unfold second3.
    destruct (224 + q =? 224) eqn:Ea;
      [|destruct (224 + q =? 237) eqn:Eb]; bool_arith;
      rewrite ?andb_true_iff, ?is_cont_iff, ?Z.leb_le; lia. }
  destruct (c <? 1114112) eqn:E5; [|discriminate].
  injection H as <-. bool_arith. with_sextets c. cbn [app].
  rewrite decode_4;
    [f_equal; lia | lia | | apply is_cont_iff; lia | apply is_cont_iff; lia].
  unfold second4.
  destruct (240 + p =? 240) eqn:Ea;
    [|destruct (240 + p =? 244) eqn:Eb]; bool_arith;
    rewrite ?andb_true_iff, ?is_cont_iff, ?Z.leb_le; lia.
Qed.


Lemma second3_cont b0 b1 : second3 b0 b1 = true -> is_cont b1 = true.
Proof.
  unfold second3, is_cont.
  destruct (b0 =? 224); [|destruct (b0 =? 237)]; intros H; bool_arith;
    rewrite ?andb_true_iff, ?Z.leb_le; lia.
Qed.

Lemma second4_cont b0 b1 : second4 b0 b1 = true -> is_cont b1 = true.
Proof.
  unfold second4, is_cont.
  destruct (b0 =? 240); [|destruct (b0 =? 244)]; intros H; bool_arith;
    rewrite ?andb_true_iff, ?Z.leb_le; lia.
Qed.

Lemma second3_not_cont b0 b1 : is_cont b1 = false -> second3 b0 b1 = false.
Proof.
  intros H. destruct (second3 b0 b1) eqn:E; [|reflexivity].
  apply second3_cont in E. congruence.
Qed.

Lemma second4_not_cont b0 b1 : is_cont b1 = false -> second4 b0 b1 = false.
Proof.
  intros H. destruct (second4 b0 b1) eqn:E; [|reflexivity].
  apply second4_cont in E. congruence.
Qed.

(** Dropping malformed octets resynchronises at the next octet that is not
    a continuation: decoding distributes over such a cut. *)
Lemma decode_app_clean e :
  starts_clean e ->
  forall n b, (length b <= n)%nat ->
    decode_ignore (b ++ e) = decode_ignore b ++ decode_ignore e.
Proof.
  intros He. induction n as [|n IH]; intros b Hn.
  { destruct b; [reflexivity | simpl in Hn; lia]. }
  destruct b as [|b0 r0]; [reflexivity|].
  cbn [app]. rewrite (decode_cons b0 (r0 ++ e)), (decode_cons b0 r0).
  cbn [length] in Hn.
  assert (Hr0 : decode_ignore (r0 ++ e) = decode_ignore r0 ++ decode_ignore e)
    by (apply IH; lia).
  destruct ((0 <=? b0) && (b0 <? 128)).
  { rewrite Hr0. reflexivity. }
  destruct ((194 <=? b0) && (b0 <=? 223)).
  { destruct r0 as [|b1 r1].
    - cbn [app]. destruct e as [|e0 e']; [reflexivity|].
      cbn in He. rewrite He. reflexivity.
    - cbn [app]. destruct (is_cont b1); [|exact Hr0].
      cbn [app]. f_equal. apply IH. cbn [length] in Hn. lia. }
  destruct ((224 <=? b0) && (b0 <=? 239)).
  { destruct r0 as [|b1 [|b2 r2]].
    - cbn [app]. destruct e as [|e0 [|e1 e']]; try reflexivity.
      cbn in He. rewrite (second3_not_cont _ _ He). reflexivity.
    - cbn [app]. destruct e as [|e0 e']; [rewrite app_nil_r; reflexivity|].
      cbn in He. rewrite He, andb_false_r. exact Hr0.
    - cbn [app]. destruct (second3 b0 b1 && is_cont b2); [|exact Hr0].
      cbn [app]. f_equal. apply IH. cbn [length] in Hn. lia. }
  destruct ((240 <=? b0) && (b0 <=? 244)).
  { destruct r0 as [|b1 [|b2 [|b3 r3]]].
    - cbn [app]. destruct e as [|e0 [|e1 [|e2 e']]]; try reflexivity.
      cbn in He. rewrite (second4_not_cont _ _ He). reflexivity.
    - cbn [app]. destruct e as [|e0 [|e1 e']];
        [rewrite app_nil_r; reflexivity | |].
      + cbn in He. exact Hr0.
      + cbn in He. rewrite He, andb_false_r. exact Hr0.
    - cbn [app]. destruct e as [|e0 e']; [rewrite app_nil_r; reflexivity|].
      cbn in He. rewrite He, andb_false_r. exact Hr0.
    - cbn [app]. destruct (second4 b0 b1 && is_cont b2 && is_cont b3);
        [|exact Hr0].
      cbn [app]. f_equal. apply IH. cbn [length] in Hn. lia. }
  exact Hr0.
Qed.

Lemma encode_char_clean c b : encode_char c = Some b ->
  exists b0 bt, b = b0 :: bt /\ is_cont b0 = false.
Proof.
  unfold encode_char, is_cont. intros H.
  destruct (c <? 0) eqn:E0; [discriminate|].
  destruct (c <? 128) eqn:E1.
  { injection H as <-. bool_arith. eexists _, _. split; [reflexivity|].
    apply andb_false_iff. left. apply Z.leb_gt. lia. }
  destruct (c <? 2048) eqn:E2.
  { injection H as <-. bool_arith. with_sextets c.
    eexists _, _. split; [reflexivity|].
    apply andb_false_iff. right. apply Z.leb_gt. lia. }
  destruct (c <? 65536) eqn:E3.
  { destruct ((55296 <=? c) && (c <=? 57343))%bool; [discriminate|].
    injection H as <-. bool_arith. with_sextets c.
    eexists _, _. split; [reflexivity|].
    apply andb_false_iff. right. apply Z.leb_gt. lia. }
  destruct (c <? 1114112) eqn:E5; [|discriminate].
  injection H as <-. bool_arith. with_sextets c.
  eexists _, _. split; [reflexivity|].
  apply andb_false_iff. right. apply Z.leb_gt. lia.
Qed.

Lemma encode_clean s b : encode s = Some b -> starts_clean b.
Proof.
  destruct s as [|c t]; cbn [encode].
  - intros [= <-]. exact I.
  - destruct (encode_char c) as [bc|] eqn:Ec; [|discriminate].
    destruct (encode t) as [bt|]; [|discriminate].
    intros [= <-]. destruct (encode_char_clean _ _ Ec) as (b0 & b' & -> & H).
    exact H.
Qed.

(** Decoding undoes encoding. *)
Lemma decode_encode s : forall b, encode s = Some b -> decode_ignore b = s.
Proof.
  induction s as [|c t IH]; cbn [encode]; intros b.
  - intros [= <-]. reflexivity.
  - destruct (encode_char c) as [bc|] eqn:Ec; [|discriminate].
    destruct (encode t) as [bt|]; [|discriminate].
    intros [= <-]. rewrite (decode_encode_char _ _ _ Ec). f_equal.
    apply IH. reflexivity.
Qed.

(** Text appended to any file content decodes to itself after what was
    there. *)
Lemma decode_app_encode old s b :
  encode s = Some b ->
  decode_ignore (old ++ b) = decode_ignore old ++ s.
Proof.
  intros H.
  rewrite (decode_app_clean b (encode_clean _ _ H) (length old) old) by lia.
  rewrite (decode_encode _ _ H). reflexivity.
Qed.

Lemma encode_app s t bs bt :
  encode s = Some bs -> encode t = Some bt -> encode (s ++ t) = Some (bs ++ bt).
Proof.
  revert bs. induction s as [|c s IH]; cbn [encode app]; intros bs.
  - intros [= <-]. tauto.
  - destruct (encode_char c) as [bc|]; [|discriminate].
    destruct (encode s) as [b'|]; [|discriminate].
    intros [= <-] Ht. rewrite (IH b' eq_refl Ht), <- app_assoc. reflexivity.
Qed.

End PyFacts.

Module TextFacts.
Import Py PyFacts.

Lemma un_cons c t :
  universal_newlines (c :: t) =
    if c =? CR then
      LF :: match t with
            | d :: t' => if d =? LF then universal_newlines t'
                         else universal_newlines t
            | [] => []
            end
    else c :: universal_newlines t.
Proof. reflexivity. Qed.

Lemma un_no_cr s : no_cr s -> universal_newlines s = s.
Proof.
  induction 1 as [|c t Hc _ IH]; [reflexivity|].
  rewrite un_cons. apply Z.eqb_neq in Hc. rewrite Hc, IH. reflexivity.
Qed.

(** Translation distributes over a cut that does not split a CR LF pair. *)
Lemma un_app_len t : forall n s, (length s <= n)%nat ->
  (last s = Some CR -> head t = Some LF -> False) ->
  universal_newlines (s ++ t) = universal_newlines s ++ universal_newlines t.
Proof.
  induction n as [|n IH]; intros s Hn Hcut.
  { destruct s; [reflexivity | simpl in Hn; lia]. }
  destruct s as [|c s']; [reflexivity|].
  cbn [length] in Hn. cbn [app]. rewrite !un_cons.
  destruct (c =? CR) eqn:Ec.
  - apply Z.eqb_eq in Ec. subst c.
    destruct s' as [|d s''].
    + cbn [app]. destruct t as [|d t']; [reflexivity|].
      destruct (d =? LF) eqn:Ed; [|reflexivity].
      apply Z.eqb_eq in Ed. subst d. exfalso. apply Hcut; reflexivity.
    + cbn [app]. cbn [length] in Hn. destruct (d =? LF).
      * cbn [app]. f_equal. apply IH; [lia|].
        intros Hl. apply Hcut. destruct s''; [discriminate|exact Hl].
      * cbn [app]. f_equal. apply (IH (d :: s'')); [cbn [length]; lia|].
        intros Hl. apply Hcut. exact Hl.
  - cbn [app]. f_equal. apply IH; [lia|].
    intros Hl. apply Hcut. destruct s'; [discriminate|exact Hl].
Qed.

Lemma un_app s t :
  (last s = Some CR -> head t = Some LF -> False) ->
  universal_newlines (s ++ t) = universal_newlines s ++ universal_newlines t.
Proof. intros. apply (un_app_len t (length s)); [lia|assumption]. Qed.

Lemma un_is_no_cr_len : forall n s, (length s <= n)%nat ->
  no_cr (universal_newlines s).
Proof.
  induction n as [|n IH]; intros s Hn.
  { destruct s; [constructor | simpl in Hn; lia]. }
  destruct s as [|c s']; [constructor|].
  cbn [length] in Hn. rewrite un_cons.
  destruct (c =? CR) eqn:Ec.
  - constructor; [discriminate|].
    destruct s' as [|d s'']; [constructor|]. cbn [length] in Hn.
    destruct (d =? LF); apply IH; cbn [length]; lia.
  - constructor; [apply Z.eqb_neq; exact Ec | apply IH; lia].
Qed.

Lemma un_is_no_cr s : no_cr (universal_newlines s).
Proof. apply (un_is_no_cr_len (length s)). lia. Qed.

Lemma un_nil s : universal_newlines s = [] -> s = [].
Proof.
  destruct s as [|c t]; [reflexivity|]. rewrite un_cons.
  destruct (c =? CR); discriminate.
Qed.


Lemma un_last_cr s : last s = Some CR -> last (universal_newlines s) = Some LF.
Proof.
  intros H. destruct (last_Some s CR) as [[s0 ->] _]; [exact H|].
  rewrite un_app by (intros _ [=]).
  change (universal_newlines [CR]) with [LF]. apply last_snoc.
Qed.

Lemma endswith_LF_snoc s : endswith_LF (s ++ [LF]) = true.
Proof. unfold endswith_LF. rewrite last_snoc. reflexivity. Qed.

Lemma endswith_LF_true s : endswith_LF s = true -> exists s0, s = s0 ++ [LF].
Proof.
  unfold endswith_LF. destruct (last s) as [c|] eqn:E; [|discriminate].
  intros Hc. apply Z.eqb_eq in Hc. subst c.
  apply last_Some in E. exact E.
Qed.

(** *** [splitlines] *)

Lemma splitlines_break c t :
  is_linebreak c = true -> c <> CR -> splitlines (c :: t) = [] :: splitlines t.
Proof.
  intros Hb Hc. cbn [splitlines]. rewrite Hb.
  apply Z.eqb_neq in Hc. rewrite Hc. destruct t; reflexivity.
Qed.

Lemma splitlines_plain c t :
  is_linebreak c = false ->
  splitlines (c :: t) =
    match splitlines t with
    | [] => [[c]]
    | l :: ls => (c :: l) :: ls
    end.
Proof. intros Hb. cbn [splitlines]. rewrite Hb. reflexivity. Qed.

Lemma splitlines_nonempty s : s <> [] -> splitlines s <> [].
Proof.
  destruct s as [|c t]; [congruence|]. intros _. cbn [splitlines].
  destruct (is_linebreak c); [discriminate|].
  destruct (splitlines t); discriminate.
Qed.

Lemma splitlines_nil s : splitlines s = [] -> s = [].
Proof.
  intros H. destruct s as [|c t]; [reflexivity|].
  exfalso. revert H. apply splitlines_nonempty. discriminate.
Qed.

(** One line and its terminator. *)
Lemma splitlines_line u : no_break u -> splitlines (u ++ [LF]) = [u].
Proof.
  induction 1 as [|c t Hc _ IH]; [reflexivity|].
  cbn [app]. rewrite splitlines_plain, IH by exact Hc. reflexivity.
Qed.

(** After a boundary the lines of what follows are simply added. *)
Lemma splitlines_app_break s c t :
  no_cr s -> last s = Some c -> is_linebreak c = true ->
  splitlines (s ++ t) = splitlines s ++ splitlines t.
Proof.
  intros Hs. revert c. induction Hs as [|a s' Ha Hs' IH]; intros c Hl Hb.
  { discriminate. }
  destruct s' as [|a' s''].
  - injection Hl as ->. cbn [app].
    rewrite (splitlines_break c t Hb Ha), (splitlines_break c [] Hb Ha).
    reflexivity.
  - assert (Hl' : last (a' :: s'') = Some c) by exact Hl.
    specialize (IH c Hl' Hb). cbn [app] in IH |- *.
    destruct (is_linebreak a) eqn:Eb.
    + rewrite (splitlines_break a (a' :: s'' ++ t) Eb Ha).
      rewrite (splitlines_break a (a' :: s'') Eb Ha).
      cbn [app]. f_equal. exact IH.
    + rewrite (splitlines_plain a (a' :: s'' ++ t)) by exact Eb.
      rewrite (splitlines_plain a (a' :: s'')) by exact Eb.
      rewrite IH.
      destruct (splitlines (a' :: s'')) as [|l ls] eqn:El; [|reflexivity].
      apply splitlines_nil in El. discriminate.
Qed.

(** A terminator after an unterminated last line adds no line. *)
Lemma splitlines_terminate s c :
  no_cr s -> last s = Some c -> is_linebreak c = false ->
  splitlines (s ++ [LF]) = splitlines s.
Proof.
  intros Hs. revert c. induction Hs as [|a s' Ha Hs' IH]; intros c Hl Hb.
  { discriminate. }
  destruct s' as [|a' s''].
  - injection Hl as ->. cbn [app].
    rewrite (splitlines_plain c [LF]), (splitlines_plain c []) by exact Hb.
    reflexivity.
  - assert (Hl' : last (a' :: s'') = Some c) by exact Hl.
    specialize (IH c Hl' Hb). cbn [app] in IH |- *.
    destruct (is_linebreak a) eqn:Eb.
    + rewrite (splitlines_break a (a' :: s'' ++ [LF]) Eb Ha).
      rewrite (splitlines_break a (a' :: s'') Eb Ha). f_equal. exact IH.
    + rewrite (splitlines_plain a (a' :: s'' ++ [LF])) by exact Eb.
      rewrite (splitlines_plain a (a' :: s'')) by exact Eb.
      rewrite IH. reflexivity.
Qed.

Lemma no_cr_app s t : no_cr s -> no_cr t -> no_cr (s ++ t).
Proof. intros. apply Forall_app; split; assumption. Qed.

Lemma no_break_no_cr u : no_break u -> no_cr u.
Proof.
  unfold no_break, no_cr. intros H. eapply Forall_impl; [exact H|].
  intros c Hc ->. discriminate.
Qed.

End TextFacts.

Module SysFacts.
Import Py Sys.

Ltac run_monad :=
  unfold mbind, M_bind, mret, M_ret, bind, ret, raise, sys_exit, print, emit,
    set_node in *.

Lemma bind_ok {A B} (m : M A) (k : A -> M B) w a w' :
  m w = (Ok a, w') -> (m ≫= k) w = k a w'.
Proof. intros H. run_monad. rewrite H. reflexivity. Qed.

Lemma bind_raise {A B} (m : M A) (k : A -> M B) w e w' :
  m w = (Raise e, w') -> (m ≫= k) w = (Raise e, w').
Proof. intros H. run_monad. rewrite H. reflexivity. Qed.

(** *** [mkdir_walk] *)

Lemma mkdir_walk_cons done c rest w :
  mkdir_walk done (c :: rest) w =
    match disk w !! (done ++ [c]) with
    | Some Dir => mkdir_walk (done ++ [c]) rest w
    | Some (File _) => (Raise (PyError "FileExistsError"), w)
    | None =>
      mkdir_walk (done ++ [c]) rest
        (World (<[done ++ [c] := Dir]> (disk w)) (log w))
    end.
Proof. cbn [mkdir_walk]. run_monad. destruct (disk w !! (done ++ [c])) as [[|]|]; reflexivity. Qed.

(** The walk writes nothing to the log. *)
Lemma mkdir_walk_log todo : forall done w r w',
  mkdir_walk done todo w = (r, w') -> log w' = log w.
Proof.
  induction todo as [|c rest IH]; intros done w r w'.
  - intros [= _ <-]. reflexivity.
  - rewrite mkdir_walk_cons.
    destruct (disk w !! (done ++ [c])) as [[|b]|].
    + apply IH.
    + intros [= _ <-]. reflexivity.
    + intros H. apply IH in H. exact H.
Qed.

(** The walk never touches a node that is there. *)
Lemma mkdir_walk_keeps todo : forall done w r w' q n,
  mkdir_walk done todo w = (r, w') ->
  disk w !! q = Some n -> disk w' !! q = Some n.
Proof.
  induction todo as [|c rest IH]; intros done w r w' q n.
  - intros [= _ <-]. tauto.
  - rewrite mkdir_walk_cons.
    destruct (disk w !! (done ++ [c])) as [[|b]|] eqn:E.
    + apply IH.
    + intros [= _ <-]. tauto.
    + intros H Hq. eapply IH; [exact H|]. cbn [disk].
      rewrite lookup_insert_ne; [exact Hq|]. congruence.
Qed.

(** It only ever adds entries on the way from [done] down. *)
Lemma mkdir_walk_far todo : forall done w r w' q,
  mkdir_walk done todo w = (r, w') ->
  (length done + length todo < length q)%nat ->
  disk w' !! q = disk w !! q.
Proof.
  induction todo as [|c rest IH]; intros done w r w' q.
  - intros [= _ <-]. tauto.
  - rewrite mkdir_walk_cons. cbn [length]. intros H Hlen.
    assert (Hq : done ++ [c] <> q).
    { intros <-. rewrite length_app in Hlen. cbn [length] in Hlen. lia. }
    assert (Hlen' : (length (done ++ [c]) + length rest < length q)%nat).
    { rewrite length_app. cbn [length]. lia. }
    destruct (disk w !! (done ++ [c])) as [[|b]|] eqn:E.
    + eapply IH; eassumption.
    + injection H as _ <-. reflexivity.
    + rewrite (IH _ _ _ _ _ H Hlen'). cbn [disk].
      apply lookup_insert_ne. exact Hq.
Qed.

(** When it succeeds, every prefix walked is a directory. *)
Lemma mkdir_walk_dirs todo : forall done w w' k,
  mkdir_walk done todo w = (Ok tt, w') ->
  (0 < k <= length todo)%nat ->
  disk w' !! (done ++ take k todo) = Some Dir.
Proof.
  induction todo as [|c rest IH]; intros done w w' k.
  - cbn [length]. lia.
  - rewrite mkdir_walk_cons. cbn [length]. intros H Hk.
    destruct k as [|k]; [lia|]. cbn [take].
    replace (done ++ c :: take k rest) with ((done ++ [c]) ++ take k rest)
      by (rewrite <- app_assoc; reflexivity).
    destruct k as [|k].
    + rewrite take_0, app_nil_r.
      destruct (disk w !! (done ++ [c])) as [[|b]|] eqn:E.
      * eapply mkdir_walk_keeps; eassumption.
      * discriminate.
      * eapply mkdir_walk_keeps; [exact H|]. cbn [disk].
        apply lookup_insert_eq.
    + destruct (disk w !! (done ++ [c])) as [[|b]|] eqn:E.
      * eapply IH; [exact H|lia].
      * discriminate.
      * eapply IH; [exact H|lia].
Qed.

(** Where every prefix is a directory already, the walk changes nothing. *)
Lemma mkdir_walk_idem todo : forall done w,
  (forall k, (0 < k <= length todo)%nat ->
     disk w !! (done ++ take k todo) = Some Dir) ->
  mkdir_walk done todo w = (Ok tt, w).
Proof.
  induction todo as [|c rest IH]; intros done w Hd; [reflexivity|].
  rewrite mkdir_walk_cons.
  pose proof (Hd 1%nat ltac:(cbn [length]; lia)) as H1.
  cbn [take] in H1. rewrite take_0 in H1. rewrite H1.
  apply IH. intros k Hk.
  specialize (Hd (S k) ltac:(cbn [length]; lia)). cbn [take] in Hd.
  rewrite <- app_assoc. exact Hd.
Qed.

End SysFacts.

Module EnsureFacts.
Import Py Sys PyFacts TextFacts SysFacts InstallAikbt Obs.

Section Host.
Variable h : host.

Lemma parent_snoc (p : path) : p <> [] -> exists x, p = parent p ++ [x].
Proof.
  intros Hp. destruct (exists_last Hp) as (q & x & ->).
  exists x. unfold parent. rewrite removelast_last. reflexivity.
Qed.

Lemma parent_shorter (p : path) : p <> [] -> (length (parent p) < length p)%nat.
Proof.
  intros Hp. destruct (parent_snoc p Hp) as [x E]. rewrite E at 2.
  rewrite length_app. cbn [length]. lia.
Qed.

(** After the parents are made, the parent of [p] is a directory. *)
Lemma parent_is_dir (p : path) w wm :
  mkdir_parents (parent p) w = (Ok tt, wm) ->
  node_at (disk wm) (parent p) = Some Dir.
Proof.
  unfold mkdir_parents. intros H.
  destruct (parent p) as [|c q] eqn:E; [reflexivity|].
  pose proof (mkdir_walk_dirs _ _ _ _ (length (c :: q)) H
                ltac:(cbn [length]; lia)) as Hd.
  rewrite firstn_all in Hd. exact Hd.
Qed.

Lemma append_line_new p line bl w :
  node_at (disk w) p = None ->
  node_at (disk w) (parent p) = Some Dir ->
  encode line = Some bl ->
  append_line p line [] w
  = (Ok tt, World (<[p := File (bl ++ [LF])]> (disk w))
                  (log w ++ [Printed ("OK: Added line to " +:+ show_posix p)])).
Proof.
  intros Hp Hpar Hl. unfold append_line.
  assert (Hnil : p <> []) by (intros ->; discriminate).
  assert (Hlook : disk w !! p = None) by (destruct p; [congruence|exact Hp]).
  assert (Henc : encode (line ++ [LF]) = Some (bl ++ [LF]))
    by (apply encode_app; [exact Hl|reflexivity]).
  unfold open_append, write_append. run_monad.
  repeat (progress (cbn beta iota zeta delta [disk log];
                    rewrite ?Hp, ?Hpar, ?Henc, ?lookup_insert_eq)).
  rewrite insert_insert_eq. reflexivity.
Qed.

Lemma append_line_old p line bl old w :
  node_at (disk w) p = Some (File old) ->
  encode line = Some bl ->
  append_line p line (splitlines (file_text old)) w
  = (Ok tt, World (<[p := File (old ++ separator old ++ bl ++ [LF])]> (disk w))
                  (log w ++ [Printed ("OK: Added line to " +:+ show_posix p)])).
Proof.
  intros Hp Hl. unfold append_line.
  assert (Hnil : p <> []) by (intros ->; discriminate).
  assert (Hlook : disk w !! p = Some (File old))
    by (destruct p; [congruence|exact Hp]).
  assert (Henc : encode (line ++ [LF]) = Some (bl ++ [LF]))
    by (apply encode_app; [exact Hl|reflexivity]).
  unfold open_append, read_text, write_append, separator. run_monad.
  change (encode [LF]) with (Some [LF]).
  unfold file_text in *. rewrite Hp.
  destruct (splitlines (universal_newlines (decode_ignore old))) as [|l ls].
  { repeat (progress (cbn beta iota zeta delta [disk log negb];
                      rewrite ?Hp, ?Henc, ?Hlook, ?lookup_insert_eq)).
    reflexivity. }
  repeat (progress (cbn beta iota zeta delta [disk log negb];
                    rewrite ?Hp, ?Henc, ?Hlook, ?lookup_insert_eq)).
  destruct (endswith_LF (universal_newlines (decode_ignore old)));
    repeat (progress (cbn beta iota zeta delta [disk log negb];
                      rewrite ?Hp, ?Henc, ?Hlook, ?lookup_insert_eq)).
  - reflexivity.
  - rewrite insert_insert_eq, <- !app_assoc. reflexivity.
Qed.

(** What [ensure_line_in_file] computes once the parents are there. *)
Lemma ensure_line_in_file_eq p line bl w wm :
  mkdir_parents (parent p) w = (Ok tt, wm) ->
  encode line = Some bl ->
  ensure_line_in_file p line w =
    match node_at (disk wm) p with
    | Some Dir => (Raise (PyError "IsADirectoryError"), wm)
    | Some (File old) =>
      if contains (splitlines (file_text old)) line
      then (Ok tt, World (disk wm)
              (log wm ++ [Printed ("OK: Line already present in "
                                   +:+ show_posix p)]))
      else (Ok tt, World (<[p := File (old ++ separator old ++ bl ++ [LF])]>
                            (disk wm))
              (log wm ++ [Printed ("OK: Added line to " +:+ show_posix p)]))
    | None =>
      (Ok tt, World (<[p := File (bl ++ [LF])]> (disk wm))
         (log wm ++ [Printed ("OK: Added line to " +:+ show_posix p)]))
    end.
Proof.
  intros Hm Hl. unfold ensure_line_in_file.
  rewrite (bind_ok _ _ _ _ _ Hm).
  destruct (node_at (disk wm) p) as [[|old]|] eqn:Hp.
  - unfold path_exists, read_text. run_monad.
    repeat (progress (cbn beta iota zeta; rewrite ?Hp)). reflexivity.
  - pose proof (append_line_old p line bl old wm Hp Hl) as Ha.
    unfold path_exists, read_text. run_monad.
    repeat (progress (cbn beta iota zeta; rewrite ?Hp)).
    fold (file_text old).
    destruct (contains (splitlines (file_text old)) line); [reflexivity|].
    exact Ha.
  - pose proof (append_line_new p line bl wm Hp (parent_is_dir _ _ _ Hm) Hl)
      as Ha.
    unfold path_exists. run_monad. rewrite Hp. exact Ha.
Qed.

End Host.
End EnsureFacts.

Module AppendFacts.
Import Py Sys PyFacts TextFacts SysFacts InstallAikbt Obs.

Lemma is_line_spec line :
  is_line line = true -> line <> [] /\ no_break line.
Proof.
  unfold is_line. rewrite andb_true_iff, negb_true_iff, bool_decide_eq_false.
  intros [Hn Hf]. split; [exact Hn|].
  unfold no_break. apply Forall_forall. intros c Hc.
  rewrite forallb_forall in Hf. apply negb_true_iff. apply Hf.
  apply list_elem_of_In. exact Hc.
Qed.

Lemma separator_cases old :
  (separator old = [] /\
     (file_text old = [] \/ endswith_LF (file_text old) = true))
  \/ (separator old = [LF] /\ file_text old <> []
      /\ endswith_LF (file_text old) = false).
Proof.
  unfold separator.
  destruct (splitlines (file_text old)) as [|l ls] eqn:E.
  - left. split; [reflexivity|]. left. apply splitlines_nil. exact E.
  - destruct (endswith_LF (file_text old)) eqn:El.
    + left. split; [reflexivity|]. right. reflexivity.
    + right. split; [reflexivity|]. split; [|reflexivity].
      intros H. rewrite H in E. discriminate.
Qed.

Lemma separator_encode old : encode (separator old) = Some (separator old).
Proof.
  destruct (separator_cases old) as [[-> _]|[-> _]]; reflexivity.
Qed.

(** The text of the file once the separator and the line are appended. *)
Lemma text_after_append old line bl :
  is_line line = true -> encode line = Some bl ->
  file_text (old ++ separator old ++ bl ++ [LF])
  = file_text old ++ separator old ++ line ++ [LF].
Proof.
  intros Hline Hl. destruct (is_line_spec _ Hline) as [Hne Hnb].
  assert (Henc : encode (separator old ++ line ++ [LF])
                 = Some (separator old ++ bl ++ [LF])).
  { apply encode_app; [apply separator_encode|].
    apply encode_app; [exact Hl|reflexivity]. }
  unfold file_text at 1. rewrite (decode_app_encode _ _ _ Henc).
  assert (Hclean : no_cr (separator old ++ line ++ [LF])).
  { apply no_cr_app.
    - destruct (separator_cases old) as [[-> _]|[-> _]];
        repeat constructor; discriminate.
    - apply no_cr_app; [apply no_break_no_cr; exact Hnb|].
      repeat constructor. discriminate. }
  rewrite un_app; [rewrite (un_no_cr _ Hclean); reflexivity|].
  intros Hcr Hhd.
  destruct (separator_cases old) as [[Hs _]|[Hs [_ He]]]; rewrite Hs in Hhd.
  - destruct line as [|c t]; [congruence|]. cbn in Hhd. injection Hhd as ->.
    inversion Hnb as [|? ? Hc _]. discriminate.
  - apply un_last_cr in Hcr. unfold endswith_LF, file_text in He.
    rewrite Hcr in He. discriminate.
Qed.

Lemma occurrences_app line xs ys :
  occurrences line (xs ++ ys) = (occurrences line xs + occurrences line ys)%nat.
Proof. unfold occurrences. rewrite filter_app, length_app. reflexivity. Qed.

Lemma occurrences_self line : occurrences line [line] = 1%nat.
Proof.
  unfold occurrences. rewrite filter_cons_True by reflexivity. reflexivity.
Qed.

Lemma occurrences_other line x : x <> line -> occurrences line [x] = 0%nat.
Proof.
  intros H. unfold occurrences. rewrite filter_cons_False by exact H.
  reflexivity.
Qed.

Lemma occurrences_cons line x xs :
  occurrences line (x :: xs)
  = ((if decide (x = line) then 1 else 0) + occurrences line xs)%nat.
Proof.
  unfold occurrences. rewrite filter_cons.
  destruct (decide (x = line)); reflexivity.
Qed.

Lemma contains_occurrences ls line :
  contains ls line = false <-> occurrences line ls = 0%nat.
Proof.
  unfold contains. rewrite bool_decide_eq_false.
  induction ls as [|x xs IH]; [split; [reflexivity|inversion 2]|].
  rewrite occurrences_cons, not_elem_of_cons.
  destruct (decide (x = line)) as [->|Hx]; split.
  - intros [H _]. congruence.
  - discriminate.
  - intros [_ H]. apply IH in H. lia.
  - intros H. split; [congruence|]. apply IH. lia.
Qed.

(** Appending the line adds exactly one occurrence of it. *)
Lemma lines_after_append old line :
  is_line line = true ->
  occurrences line
    (splitlines (file_text old ++ separator old ++ line ++ [LF]))
  = S (occurrences line (splitlines (file_text old))).
Proof.
  intros Hline. destruct (is_line_spec _ Hline) as [Hne Hnb].
  pose proof (un_is_no_cr (decode_ignore old)) as Hcr.
  fold (file_text old) in Hcr.
  destruct (separator_cases old) as [[-> [Ht|He]]|[-> [Ht He]]]; cbn [app].
  - rewrite Ht. cbn [app]. rewrite (splitlines_line _ Hnb).
    rewrite occurrences_self. reflexivity.
  - destruct (endswith_LF_true _ He) as [s0 Hs0].
    rewrite (splitlines_app_break (file_text old) LF);
      [|exact Hcr|rewrite Hs0; apply last_snoc|reflexivity].
    rewrite (splitlines_line _ Hnb), occurrences_app, occurrences_self. lia.
  - change (file_text old ++ LF :: line ++ [LF])
      with (file_text old ++ [LF] ++ line ++ [LF]).
    rewrite app_assoc.
    rewrite (splitlines_app_break (file_text old ++ [LF]) LF);
      [|apply no_cr_app; [exact Hcr|repeat constructor; discriminate]
       |apply last_snoc|reflexivity].
    rewrite (splitlines_line _ Hnb), occurrences_app, occurrences_self.
    destruct (last (file_text old)) as [c|] eqn:Hl.
    + destruct (is_linebreak c) eqn:Hb.
      * rewrite (splitlines_app_break (file_text old) c) by assumption.
        change (splitlines [LF]) with [@nil Z].
        rewrite occurrences_app, occurrences_other by congruence. lia.
      * rewrite (splitlines_terminate (file_text old) c) by assumption. lia.
    + apply last_None in Hl. congruence.
Qed.

End AppendFacts.

Module RunFacts.
Import Py Sys PyFacts TextFacts SysFacts InstallAikbt Obs EnsureFacts
  AppendFacts.

Lemma blocked_insert todo : forall d done q n,
  (length q <= length done)%nat ->
  blocked (<[q := n]> d) done todo = blocked d done todo.
Proof.
  induction todo as [|c rest IH]; intros d done q n Hq; [reflexivity|].
  cbn [blocked]. rewrite lookup_insert_ne.
  - rewrite IH; [reflexivity|]. rewrite length_app. cbn [length]. lia.
  - intros ->. rewrite length_app in Hq. cbn [length] in Hq. lia.
Qed.

Lemma mkdir_walk_ok todo : forall done w,
  blocked (disk w) done todo = false ->
  exists wm, mkdir_walk done todo w = (Ok tt, wm).
Proof.
  induction todo as [|c rest IH]; intros done w Hb.
  - exists w. reflexivity.
  - rewrite mkdir_walk_cons. cbn [blocked] in Hb.
    destruct (disk w !! (done ++ [c])) as [[|b]|] eqn:E.
    + apply IH. exact Hb.
    + discriminate.
    + apply IH. cbn [disk]. rewrite blocked_insert by lia. exact Hb.
Qed.

Lemma blocked_dirs todo : forall d done,
  (forall k, (0 < k <= length todo)%nat ->
     d !! (done ++ take k todo) = Some Dir) ->
  blocked d done todo = false.
Proof.
  induction todo as [|c rest IH]; intros d done Hd; [reflexivity|].
  cbn [blocked].
  pose proof (Hd 1%nat ltac:(cbn [length]; lia)) as H1.
  cbn [take] in H1. rewrite take_0 in H1. rewrite H1.
  apply IH. intros k Hk.
  specialize (Hd (S k) ltac:(cbn [length]; lia)). cbn [take] in Hd.
  rewrite <- app_assoc. exact Hd.
Qed.

Lemma node_at_far (d d' : fs) (p : path) :
  (p <> [] -> d' !! p = d !! p) -> node_at d' p = node_at d p.
Proof. intros H. destruct p; [reflexivity|]. apply H. discriminate. Qed.

(** Making the parents leaves [p] itself as it was. *)
Lemma mkdir_parents_node p w r wm :
  mkdir_parents (parent p) w = (r, wm) ->
  node_at (disk wm) p = node_at (disk w) p.
Proof.
  intros H. apply node_at_far. intros Hp.
  eapply mkdir_walk_far; [exact H|]. cbn [length].
  apply parent_shorter. exact Hp.
Qed.

Lemma mkdir_parents_dirs q w wm :
  mkdir_parents q w = (Ok tt, wm) -> dirs_made (disk wm) q.
Proof.
  intros H k Hk. exact (mkdir_walk_dirs _ _ _ _ k H Hk).
Qed.

Lemma mkdir_parents_again q w :
  dirs_made (disk w) q -> mkdir_parents q w = (Ok tt, w).
Proof. intros H. apply mkdir_walk_idem. exact H. Qed.

Lemma dirs_made_insert d p n :
  p <> [] -> dirs_made d (parent p) -> dirs_made (<[p := n]> d) (parent p).
Proof.
  intros Hp H k Hk. rewrite lookup_insert_ne; [apply H; exact Hk|].
  intros E. pose proof (parent_shorter p Hp) as Hl.
  rewrite E in Hl at 2. rewrite length_take in Hl. lia.
Qed.

Lemma can_hold_dirs d p :
  dirs_made d (parent p) -> node_at d p <> Some Dir -> can_hold d p = true.
Proof.
  intros Hd Hn. unfold can_hold. rewrite (blocked_dirs (parent p) d []).
  - destruct (node_at d p) as [[|b]|]; [congruence|reflexivity|reflexivity].
  - exact Hd.
Qed.

End RunFacts.

Module EnsureRun.
Import Py Sys PyFacts TextFacts SysFacts InstallAikbt Obs EnsureFacts
  AppendFacts RunFacts.

Lemma content_insert (d : fs) (p : path) b :
  p <> [] -> content (<[p := File b]> d) p = Some b.
Proof.
  intros Hp. unfold content. destruct p; [congruence|].
  cbn [node_at]. rewrite lookup_insert_eq. reflexivity.
Qed.

Lemma can_hold_spec d p :
  can_hold d p = true ->
  blocked d [] (parent p) = false /\ node_at d p <> Some Dir /\ p <> [].
Proof.
  unfold can_hold. rewrite andb_true_iff, negb_true_iff. intros [Hb Hn].
  split; [exact Hb|].
  split; [intros E; rewrite E in Hn; discriminate|].
  intros ->. discriminate.
Qed.

(** One call, on a path that can hold a file, with an encodable line. *)
Lemma ensure_run p line bl w :
  can_hold (disk w) p = true -> encode line = Some bl ->
  exists w1,
    ensure_line_in_file p line w = (Ok tt, w1)
    /\ content (disk w1) p
       = Some (after_run (default [] (content (disk w) p)) line bl)
    /\ dirs_made (disk w1) (parent p)
    /\ (forall q n, q <> p -> disk w !! q = Some n -> disk w1 !! q = Some n).
Proof.
  intros Hc Hl. destruct (can_hold_spec _ _ Hc) as (Hb & Hn & Hp).
  destruct (mkdir_walk_ok _ _ _ Hb) as [wm Hm].
  change (mkdir_walk [] (parent p) w) with (mkdir_parents (parent p) w) in Hm.
  pose proof (mkdir_parents_node _ _ _ _ Hm) as Hnode.
  pose proof (mkdir_parents_dirs _ _ _ Hm) as Hd.
  assert (Hkeep : forall q n, disk w !! q = Some n -> disk wm !! q = Some n)
    by (intros q n; eapply mkdir_walk_keeps; exact Hm).
  rewrite (ensure_line_in_file_eq p line bl w wm Hm Hl), Hnode.
  unfold content, after_run.
  destruct (node_at (disk w) p) as [[|old]|] eqn:E; [congruence| |].
  - cbn [default from_option id].
    destruct (contains (splitlines (file_text old)) line).
    + eexists. split; [reflexivity|]. cbn [disk].
      rewrite Hnode. repeat split; [exact Hd|].
      intros q n _. apply Hkeep.
    + eexists. split; [reflexivity|]. cbn [disk].
      fold (content (<[p:=File (old ++ separator old ++ bl ++ [LF])]> (disk wm)) p).
      rewrite content_insert by exact Hp.
      repeat split; [apply dirs_made_insert; assumption|].
      intros q n Hq Hlook. rewrite lookup_insert_ne by congruence.
      apply Hkeep. exact Hlook.
  - cbn [default from_option id]. change (file_text []) with (@nil Z).
    change (contains (splitlines []) line) with (bool_decide (line ∈ @nil (list Z))).
    rewrite bool_decide_eq_false_2 by inversion 1.
    eexists. split; [reflexivity|]. cbn [disk].
    fold (content (<[p:=File (bl ++ [LF])]> (disk wm)) p).
    rewrite content_insert by exact Hp.
    repeat split; [apply dirs_made_insert; assumption|].
    intros q n Hq Hlook. rewrite lookup_insert_ne by congruence.
    apply Hkeep. exact Hlook.
Qed.

(** A call that finds the line, the directories being there, only prints. *)
Lemma ensure_present_noop p line bl old w :
  dirs_made (disk w) (parent p) -> encode line = Some bl ->
  content (disk w) p = Some old ->
  contains (splitlines (file_text old)) line = true ->
  ensure_line_in_file p line w
  = (Ok tt, World (disk w)
       (log w ++ [Printed ("OK: Line already present in " +:+ show_posix p)])).
Proof.
  intros Hd Hl Hc Hin.
  rewrite (ensure_line_in_file_eq p line bl w w (mkdir_parents_again _ _ Hd) Hl).
  unfold content in Hc.
  destruct (node_at (disk w) p) as [[|b]|]; try discriminate.
  injection Hc as ->. rewrite Hin. reflexivity.
Qed.

End EnsureRun.

Module Frame.
Import Py Sys PyFacts TextFacts SysFacts InstallAikbt Obs EnsureFacts
  AppendFacts RunFacts EnsureRun.

Section Relation.
Variable R : world -> world -> Prop.
Hypothesis R_refl : forall w, R w w.
Hypothesis R_trans : forall a b c, R a b -> R b c -> R a c.

Lemma preserves_ret {A} (a : A) : preserves R (mret a).
Proof. intros w r w' [= _ <-]. apply R_refl. Qed.

Lemma preserves_raise {A} e : preserves R (@raise A e).
Proof. intros w r w' [= _ <-]. apply R_refl. Qed.

Lemma preserves_bind {A B} (m : M A) (k : A -> M B) :
  preserves R m -> (forall a, preserves R (k a)) -> preserves R (m ≫= k).
Proof.
  intros Hm Hk w r w'. unfold mbind, M_bind, bind.
  destruct (m w) as [[a|e] w1] eqn:E.
  - intros H. eapply R_trans; [eapply Hm; exact E|eapply Hk; exact H].
  - intros [= _ <-]. eapply Hm. exact E.
Qed.

Lemma preserves_if {A} (b : bool) (m1 m2 : M A) :
  preserves R m1 -> preserves R m2 -> preserves R (if b then m1 else m2).
Proof. destruct b; tauto. Qed.

Lemma preserves_try {A} (m handler : M A) :
  preserves R m -> preserves R handler -> preserves R (try_except m handler).
Proof.
  intros Hm Hh w r w'. unfold try_except.
  destruct (m w) as [[a|[c|c cmd|n]] w1] eqn:E.
  - intros [= _ <-]. eapply Hm. exact E.
  - intros [= _ <-]. eapply Hm. exact E.
  - intros H. eapply R_trans; [eapply Hm; exact E|eapply Hh; exact H].
  - intros H. eapply R_trans; [eapply Hm; exact E|eapply Hh; exact H].
Qed.

Lemma preserves_for_each {A} (xs : list A) (body : A -> M unit) :
  (forall x, preserves R (body x)) -> preserves R (for_each xs body).
Proof.
  intros Hb. induction xs as [|x rest IH]; cbn [for_each].
  - apply (preserves_ret tt).
  - apply (preserves_bind (body x)); [apply Hb|intros _; exact IH].
Qed.

End Relation.

Lemma grows_at_refl p w : grows_at p w w.
Proof.
  split; [|tauto]. intros old H. exists []. rewrite app_nil_r. exact H.
Qed.

Lemma grows_at_trans p a b c : grows_at p a b -> grows_at p b c -> grows_at p a c.
Proof.
  intros [H1 F1] [H2 F2]. split.
  - intros old Ho. destruct (H1 old Ho) as [x Hx].
    destruct (H2 _ Hx) as [y Hy]. exists (x ++ y).
    rewrite app_assoc. exact Hy.
  - intros q n Hq Hl. apply F2; [exact Hq|]. apply F1; assumption.
Qed.

Lemma grows_at_same_disk p w w' : disk w' = disk w -> grows_at p w w'.
Proof. intros E. unfold grows_at. rewrite E. apply grows_at_refl. Qed.

Lemma content_lookup d p b : content d p = Some b -> d !! p = Some (File b).
Proof.
  unfold content. destruct p as [|c q]; [discriminate|]. cbn [node_at].
  destruct (d !! (c :: q)) as [[|x]|]; congruence.
Qed.

Lemma grows_mkdir_walk p todo done : preserves (grows_at p) (mkdir_walk done todo).
Proof.
  intros w r w' H. split.
  - intros old Ho. exists []. rewrite app_nil_r.
    destruct p as [|c q]; [discriminate|].
    apply content_lookup in Ho.
    pose proof (mkdir_walk_keeps _ _ _ _ _ _ _ H Ho) as Hk.
    unfold content. cbn [node_at]. rewrite Hk. reflexivity.
  - intros q n _. eapply mkdir_walk_keeps. exact H.
Qed.


Lemma grows_print p msg : preserves (grows_at p) (print msg).
Proof. intros w r w' [= _ <-]. apply grows_at_same_disk. reflexivity. Qed.

Lemma grows_path_exists p q : preserves (grows_at p) (path_exists q).
Proof. intros w r w' [= _ <-]. apply grows_at_refl. Qed.

Lemma grows_read_text p q : preserves (grows_at p) (read_text q).
Proof.
  intros w r w'. unfold read_text.
  destruct (node_at (disk w) q) as [[|b]|]; intros [= _ <-];
    apply grows_at_refl.
Qed.

Lemma grows_open_append p : preserves (grows_at p) (open_append p).
Proof.
  intros w r w'. unfold open_append, set_node.
  destruct (node_at (disk w) p) as [[|b]|] eqn:E;
    try (intros [= _ <-]; apply grows_at_refl).
  destruct (node_at (disk w) (parent p)) as [[|b]|];
    try (intros [= _ <-]; apply grows_at_refl).
  intros [= _ <-]. split.
  - unfold content. rewrite E. discriminate.
  - intros q n Hq Hl. cbn [disk]. rewrite lookup_insert_ne by congruence.
    exact Hl.
Qed.

Lemma grows_write_append p s : preserves (grows_at p) (write_append p s).
Proof.
  intros w r w'. unfold write_append, set_node.
  destruct (encode s) as [b|]; [|intros [= _ <-]; apply grows_at_refl].
  destruct (disk w !! p) as [[|old]|] eqn:E;
    try (intros [= _ <-]; apply grows_at_refl).
  intros [= _ <-]. split.
  - intros old' Ho. destruct p as [|c q]; [discriminate|].
    apply content_lookup in Ho. rewrite E in Ho. injection Ho as <-.
    exists b. apply content_insert. discriminate.
  - intros q n Hq Hl. cbn [disk]. rewrite lookup_insert_ne by congruence.
    exact Hl.
Qed.

Ltac grow_with p tac :=
  repeat first
    [ tac
    | apply (preserves_ret (grows_at p) (grows_at_refl p))
    | apply grows_mkdir_walk
    | apply grows_print
    | apply grows_path_exists
    | apply grows_read_text
    | apply grows_open_append
    | apply grows_write_append
    | apply (preserves_if (grows_at p))
    | apply (preserves_bind (grows_at p) (grows_at_trans p))
    | lazymatch goal with |- forall _, preserves _ _ => intro end ].

Lemma grows_append_line p line existing :
  preserves (grows_at p) (append_line p line existing).
Proof. unfold append_line. destruct existing; grow_with p fail. Qed.

(** Whatever the outcome, [ensure_line_in_file] only appends to its file
    and alters no other node that exists. *)
Lemma grows_ensure p line : preserves (grows_at p) (ensure_line_in_file p line).
Proof.
  unfold ensure_line_in_file, mkdir_parents.
  grow_with p ltac:(apply grows_append_line).
Qed.

End Frame.

(** ** Idempotent line insertion *)

Module LineInsertion.
Import Py Sys PyFacts TextFacts SysFacts InstallAikbt Obs EnsureFacts
  AppendFacts RunFacts EnsureRun Frame Examples.

Lemma lines_at_content d p b :
  content d p = Some b -> lines_at d p = splitlines (file_text b).
Proof. unfold lines_at. intros ->. reflexivity. Qed.

Lemma lines_at_default d p :
  lines_at d p = splitlines (file_text (default [] (content d p))).
Proof. unfold lines_at. destruct (content d p); reflexivity. Qed.

Lemma contains_true_occurrences ls line :
  contains ls line = true -> (1 <= occurrences line ls)%nat.
Proof.
  intros H. destruct (occurrences line ls) eqn:E; [|lia].
  apply contains_occurrences in E. congruence.
Qed.

(** After one call with a line of text, the line is among the lines. *)
Lemma after_run_lines old line bl :
  is_line line = true -> encode line = Some bl ->
  occurrences line (splitlines (file_text (after_run old line bl)))
  = Nat.max 1 (occurrences line (splitlines (file_text old))).
Proof.
  intros Hline Hl. unfold after_run.
  destruct (contains (splitlines (file_text old)) line) eqn:E.
  - apply contains_true_occurrences in E. lia.
  - rewrite (text_after_append _ _ _ Hline Hl).
    rewrite (lines_after_append _ _ Hline).
    apply contains_occurrences in E. rewrite E. reflexivity.
Qed.

Lemma after_run_present old line bl :
  is_line line = true -> encode line = Some bl ->
  contains (splitlines (file_text (after_run old line bl))) line = true.
Proof.
  intros Hline Hl.
  destruct (contains (splitlines (file_text (after_run old line bl))) line)
    eqn:E; [reflexivity|].
  apply contains_occurrences in E.
  rewrite (after_run_lines _ _ _ Hline Hl) in E. lia.
Qed.


(** C1 (amended): for a line of text (not empty, free of line boundaries)
    that can be encoded and a path that can hold a file, two calls of
    [ensure_line_in_file] both return; the second leaves the disk as the
    first left it; the file holds what it held before followed by what was
    appended, and every other node that existed is unaltered; the line
    occurs [max 1 n] times where it occurred [n] times before, hence exactly
    once when it occurred at most once; and from an empty or absent file the
    first call leaves exactly the line and its newline. *)
Theorem ensure_line_twice p line bl w :
  is_line line = true -> encode line = Some bl ->
  can_hold (disk w) p = true ->
  exists w1 w2,
    ensure_line_in_file p line w = (Ok tt, w1)
    /\ ensure_line_in_file p line w1 = (Ok tt, w2)
    /\ disk w2 = disk w1
    /\ (exists added,
          content (disk w2) p
          = Some (default [] (content (disk w) p) ++ added))
    /\ (forall q n, q <> p -> disk w !! q = Some n -> disk w2 !! q = Some n)
    /\ occurrences line (lines_at (disk w2) p)
       = Nat.max 1 (occurrences line (lines_at (disk w) p))
    /\ (default [] (content (disk w) p) = [] ->
        content (disk w1) p = Some (bl ++ [LF])).
Proof.
  intros Hline Hl Hc.
  destruct (ensure_run p line bl w Hc Hl) as (w1 & Hrun & Hcont & Hd & Hfr).
  pose proof (after_run_present (default [] (content (disk w) p)) line bl
                Hline Hl) as Hin.
  pose proof (ensure_present_noop p line bl _ w1 Hd Hl Hcont Hin) as Hrun2.
  exists w1. eexists. split; [exact Hrun|]. split; [exact Hrun2|].
  cbn [disk]. split; [reflexivity|]. split; [|split; [exact Hfr|split]].
  - rewrite Hcont. unfold after_run.
    destruct (contains
                (splitlines (file_text (default [] (content (disk w) p))))
                line); eexists; [rewrite app_nil_r|]; reflexivity.
  - rewrite (lines_at_content _ _ _ Hcont), (lines_at_default (disk w)).
    apply after_run_lines; assumption.
  - intros E. rewrite Hcont, E. reflexivity.
Qed.

Lemma ensure_line_twice_witness :
  exists w1 w2,
    ensure_line_in_file lldbinit import_line (with_file []) = (Ok tt, w1)
    /\ ensure_line_in_file lldbinit import_line w1 = (Ok tt, w2)
    /\ disk w2 = disk w1
    /\ (exists added,
          content (disk w2) lldbinit
          = Some (default [] (content (disk (with_file [])) lldbinit)
                  ++ added))
    /\ (forall q n, q <> lldbinit -> disk (with_file []) !! q = Some n ->
        disk w2 !! q = Some n)
    /\ occurrences import_line (lines_at (disk w2) lldbinit)
       = Nat.max 1
           (occurrences import_line (lines_at (disk (with_file [])) lldbinit))
    /\ (default [] (content (disk (with_file [])) lldbinit) = [] ->
        content (disk w1) lldbinit = Some (import_line ++ [LF])).
Proof.
  apply (ensure_line_twice lldbinit import_line import_line (with_file []));
    vm_compute; reflexivity.
Defined.

(** C1 as stated fails where the line is there more than once already:
    nothing is removed, and two calls leave both occurrences. *)
Lemma ensure_line_twice_duplicates :
  let old := text "x" ++ [LF] ++ text "x" ++ [LF] in
  exists w2,
    (ensure_line_in_file lldbinit (text "x") ;;
     ensure_line_in_file lldbinit (text "x")) (with_file old) = (Ok tt, w2)
    /\ content (disk w2) lldbinit = Some old
    /\ occurrences (text "x") (lines_at (disk w2) lldbinit) = 2%nat
    /\ occurrences (text "x") (lines_at (disk w2) lldbinit) <> 1%nat.
Proof.
  eexists. split; [vm_compute; reflexivity|].
  split; [vm_compute; reflexivity|].
  split; [vm_compute; reflexivity|]. vm_compute. discriminate.
Qed.

End LineInsertion.

Module NewlineSafety.
Import Py Sys PyFacts TextFacts SysFacts InstallAikbt Obs EnsureFacts
  AppendFacts RunFacts EnsureRun Frame Examples LineInsertion.

(** A file whose last octet is an ASCII character other than LF and CR reads
    as text that does not end in a newline. *)
Lemma file_text_ascii_end old0 c :
  0 <= c < 128 -> c <> LF -> c <> CR ->
  file_text (old0 ++ [c]) = file_text old0 ++ [c].
Proof.
  intros Hc Hlf Hcr. unfold file_text.
  rewrite (decode_app_clean [c]) with (n := length old0); [| |lia].
  - rewrite (decode_1 c []) by exact Hc. cbn [decode_ignore].
    rewrite un_app.
    + rewrite (un_no_cr [c]); [reflexivity|]. repeat constructor. exact Hcr.
    + intros _ [= E]. congruence.
  - cbn. unfold is_cont. apply andb_false_iff. left. apply Z.leb_gt. lia.
Qed.

Lemma separator_needed old :
  file_text old <> [] -> endswith_LF (file_text old) = false ->
  separator old = [LF].
Proof.
  intros Hne He. destruct (separator_cases old) as [[_ [H|H]]|[H _]];
    [congruence|congruence|exact H].
Qed.

Lemma separator_ascii_end old c :
  last old = Some c -> 0 <= c < 128 -> c <> LF -> c <> CR ->
  separator old = [LF].
Proof.
  intros Hl Hc Hlf Hcr. apply last_Some in Hl. destruct Hl as [old0 ->].
  apply separator_needed; rewrite file_text_ascii_end by assumption.
  - intros E. apply app_eq_nil in E. destruct E. discriminate.
  - unfold endswith_LF. rewrite last_snoc. apply Z.eqb_neq. exact Hlf.
Qed.

(** C2 (amended): a call that does not find the line appends it, and then
    the file ends in a newline; where the text read from the file is not
    empty and does not end in a newline (as with a last octet that is an
    ASCII character other than LF and CR) a newline is written first, so
    that the line starts after it. *)
Theorem ensure_line_appended_newline p line bl w :
  can_hold (disk w) p = true -> encode line = Some bl ->
  contains (lines_at (disk w) p) line = false ->
  exists w1,
    ensure_line_in_file p line w = (Ok tt, w1)
    /\ let old := default [] (content (disk w) p) in
       content (disk w1) p = Some (old ++ separator old ++ bl ++ [LF])
       /\ last (old ++ separator old ++ bl ++ [LF]) = Some LF
       /\ (file_text old <> [] -> endswith_LF (file_text old) = false ->
           separator old = [LF])
       /\ (forall c, last old = Some c -> 0 <= c < 128 -> c <> LF ->
           c <> CR -> separator old = [LF]).
Proof.
  intros Hc Hl Hin.
  destruct (ensure_run p line bl w Hc Hl) as (w1 & Hrun & Hcont & _).
  exists w1. split; [exact Hrun|]. cbn zeta.
  rewrite lines_at_default in Hin. unfold after_run in Hcont.
  rewrite Hin in Hcont. split; [exact Hcont|]. split; [|split].
  - rewrite !app_assoc. apply last_snoc.
  - apply separator_needed.
  - intros c. apply separator_ascii_end.
Qed.

Lemma ensure_line_appended_newline_witness :
  exists w1,
    ensure_line_in_file lldbinit import_line (with_file (text "settings"))
    = (Ok tt, w1)
    /\ let old := default [] (content (disk (with_file (text "settings")))
                                lldbinit) in
       content (disk w1) lldbinit
       = Some (old ++ separator old ++ import_line ++ [LF])
       /\ last (old ++ separator old ++ import_line ++ [LF]) = Some LF
       /\ (file_text old <> [] -> endswith_LF (file_text old) = false ->
           separator old = [LF])
       /\ (forall c, last old = Some c -> 0 <= c < 128 -> c <> LF ->
           c <> CR -> separator old = [LF]).
Proof.
  apply (ensure_line_appended_newline lldbinit import_line import_line
           (with_file (text "settings"))); vm_compute; reflexivity.
Defined.

(** C2 as stated fails where the line is the unterminated last line of the
    file: the call finds it and writes nothing, and the file still ends
    without a newline. *)
Lemma ensure_line_present_no_newline :
  exists w1,
    ensure_line_in_file lldbinit (text "abc") (with_file (text "abc"))
    = (Ok tt, w1)
    /\ content (disk w1) lldbinit = Some (text "abc")
    /\ last (text "abc") <> Some LF.
Proof.
  eexists. split; [vm_compute; reflexivity|].
  split; [vm_compute; reflexivity|]. vm_compute. discriminate.
Qed.

(** C8: whatever the outcome of a call, the file holds what it held before
    followed by what was appended and no other node that existed is altered;
    and on a path that can hold a file, with an encodable line, the call
    returns and leaves a regular file at the path below directories all
    made. *)
Theorem ensure_line_only_appends p line w :
  (forall r w1, ensure_line_in_file p line w = (r, w1) -> grows_at p w w1)
  /\ (forall bl, can_hold (disk w) p = true -> encode line = Some bl ->
      exists w1 b,
        ensure_line_in_file p line w = (Ok tt, w1)
        /\ content (disk w1) p = Some b
        /\ dirs_made (disk w1) (parent p)).
Proof.
  split.
  - intros r w1 H. exact (grows_ensure p line w r w1 H).
  - intros bl Hc Hl.
    destruct (ensure_run p line bl w Hc Hl) as (w1 & Hrun & Hcont & Hd & _).
    exists w1. eexists. split; [exact Hrun|]. split; [exact Hcont|exact Hd].
Qed.

Lemma ensure_line_only_appends_witness :
  exists w1 b,
    ensure_line_in_file deep import_line fresh = (Ok tt, w1)
    /\ content (disk w1) deep = Some b
    /\ dirs_made (disk w1) (parent deep).
Proof.
  apply (proj2 (ensure_line_only_appends deep import_line fresh) import_line);
    vm_compute; reflexivity.
Defined.

End NewlineSafety.

(** ** Running external commands *)

Module ProcFacts.
Import Py Sys SysFacts Obs.

Lemma commands_app l1 l2 : commands (l1 ++ l2) = commands l1 ++ commands l2.
Proof. unfold commands. apply omap_app. Qed.

Lemma subprocess_run_eq h cmd check w :
  exists code d,
    subprocess_run h cmd check w
    = (outcome cmd check code, World d (log w ++ [Exec cmd check code]))
    /\ match code with
       | None => spawn h cmd w = None /\ d = disk w
       | Some c => exists out, spawn h cmd w = Some (c, out, d)
       end.
Proof.
  unfold subprocess_run, outcome.
  destruct (spawn h cmd w) as [[[c out] d]|].
  - exists (Some c), d. split; [|exists out; reflexivity].
    destruct (check && negb (c =? 0)); reflexivity.
  - exists None, (disk w). split; [reflexivity|]. split; reflexivity.
Qed.

Lemma bind_inv {A B} (m : M A) (k : A -> M B) w r w' :
  (m ≫= k) w = (r, w') ->
  (exists a w1, m w = (Ok a, w1) /\ k a w1 = (r, w'))
  \/ (exists e, m w = (Raise e, w') /\ r = Raise e).
Proof.
  unfold mbind, M_bind, bind. destruct (m w) as [[a|e] w1].
  - intros H. left. exists a, w1. split; [reflexivity|exact H].
  - intros [= <- <-]. right. exists e. split; reflexivity.
Qed.

(** Two commands run in sequence with failure checking: the second is run
    only when the first has returned. *)
Section TwoChecked.
Variable run : list string -> bool -> M Z.
Hypothesis run_log : forall cmd check w, exists code d msg,
  run cmd check w
  = (outcome cmd check code,
     World d (log w ++ [Printed msg; Exec cmd check code])).

Lemma two_checked c1 c2 w :
  exists k, (1 <= k <= 2)%nat /\
    commands (log (snd ((run c1 true ;; run c2 true ;; mret tt) w)))
    = commands (log w) ++ take k [c1; c2].
Proof.
  unfold mbind, M_bind, bind, mret, M_ret, ret.
  destruct (run_log c1 true w) as (code1 & d1 & m1 & ->).
  destruct (outcome c1 true code1) as [a|e].
  - destruct (run_log c2 true (World d1 (log w ++ [Printed m1; Exec c1 true code1])))
      as (code2 & d2 & m2 & ->).
    exists 2%nat. split; [lia|].
    destruct (outcome c2 true code2); cbn [snd log];
      rewrite !commands_app; cbn; rewrite <- app_assoc; reflexivity.
  - exists 1%nat. split; [lia|]. cbn [snd log].
    rewrite commands_app. reflexivity.
Qed.

End TwoChecked.

End ProcFacts.

(** ** Privilege-aware command execution *)

Module Privilege.
Import Py Sys SysFacts Obs ProcFacts.

Lemma setup_run_log h cmd check w : exists code d msg,
  SetupTools.run h cmd check w
  = (outcome cmd check code,
     World d (log w ++ [Printed msg; Exec cmd check code])).
Proof.
  unfold SetupTools.run, mbind, M_bind, bind, print, emit.
  match goal with |- context [subprocess_run h cmd check ?w1] =>
    destruct (subprocess_run_eq h cmd check w1) as (code & d & -> & _) end.
  exists code, d. eexists. cbn [log]. rewrite <- app_assoc. reflexivity.
Qed.

Lemma aikbt_run_log h cmd check w : exists code d msg,
  InstallAikbt.run h cmd check w
  = (outcome cmd check code,
     World d (log w ++ [Printed msg; Exec cmd check code])).
Proof.
  unfold InstallAikbt.run, mbind, M_bind, bind, print, emit.
  match goal with |- context [subprocess_run h cmd check ?w1] =>
    destruct (subprocess_run_eq h cmd check w1) as (code & d & -> & _) end.
  exists code, d. eexists. cbn [log]. rewrite <- app_assoc. reflexivity.
Qed.

Lemma ensure_admin_linux_eq h w :
  SetupTools.ensure_admin_linux h w =
    if SetupTools.is_root h then (Ok [], w)
    else if which h "sudo" w then (Ok ["sudo"], w)
    else (Raise (SystemExit 1),
          World (disk w)
            (log w ++
             [Printed "❌ sudo is not installed and you are not root.";
              Printed "   First run must be as root (or via provider console):";
              Printed "     python3 setup_tools.py"])).
Proof.
  unfold SetupTools.ensure_admin_linux.
  destruct (SetupTools.is_root h); [reflexivity|].
  unfold SetupTools.have, have_on, mbind, M_bind, bind.
  destruct (which h "sudo" w); [reflexivity|].
  unfold print, emit, sys_exit, raise. cbn [disk log].
  rewrite <- !app_assoc. reflexivity.
Qed.


Lemma install_on_ubuntu_commands h w :
  if SetupTools.is_root h || which h "sudo" w then
    exists k, (1 <= k <= 2)%nat /\
      commands (log (snd (SetupTools.install_on_ubuntu h w)))
      = commands (log w)
        ++ take k (map (app (if SetupTools.is_root h then [] else ["sudo"]))
                     [["apt-get"; "update"; "-y"];
                      ["apt-get"; "install"; "-y"] ++ SetupTools.APT_PACKAGES])
  else
    fst (SetupTools.install_on_ubuntu h w) = Raise (SystemExit 1)
    /\ commands (log (snd (SetupTools.install_on_ubuntu h w)))
       = commands (log w).
Proof.
  assert (E : SetupTools.install_on_ubuntu h w =
    match SetupTools.ensure_admin_linux h w with
    | (Ok prefix, w1) =>
      (SetupTools.run h (prefix ++ ["apt-get"; "update"; "-y"]) true ;;
       SetupTools.run h (prefix ++ ["apt-get"; "install"; "-y"]
                                ++ SetupTools.APT_PACKAGES) true ;;
       mret tt) w1
    | (Raise e, w1) => (Raise e, w1)
    end) by reflexivity.
  rewrite E, ensure_admin_linux_eq. clear E.
  destruct (SetupTools.is_root h); cbn [orb].
  - apply (two_checked (SetupTools.run h) (setup_run_log h)).
  - destruct (which h "sudo" w).
    + apply (two_checked (SetupTools.run h) (setup_run_log h)).
    + cbn [fst snd log]. split; [reflexivity|].
      rewrite commands_app. cbn. apply app_nil_r.
Qed.

Lemma apt_install_commands h packages w :
  match euid h with
  | None =>
    InstallAikbt.apt_install h packages w
    = (Raise (PyError "AttributeError"), w)
  | Some u =>
    if (u =? 0) || which h "sudo" w then
      exists k, (1 <= k <= 2)%nat /\
        commands (log (snd (InstallAikbt.apt_install h packages w)))
        = commands (log w)
          ++ take k (map (app (if u =? 0 then [] else ["sudo"]))
                       [["apt"; "update"];
                        ["apt"; "install"; "-y"] ++ packages])
    else
      InstallAikbt.apt_install h packages w
      = (Raise (SystemExit 1),
         World (disk w)
           (log w ++
            [Printed "ERROR: sudo not found. Install sudo as root, or run this script as root."]))
  end.
Proof.
  destruct (euid h) as [u|] eqn:Eu.
  - assert (E : InstallAikbt.apt_install h packages w =
      if u =? 0 then
        (InstallAikbt.run h ["apt"; "update"] true ;;
         InstallAikbt.run h (["apt"; "install"; "-y"] ++ packages) true ;;
         mret tt) w
      else if which h "sudo" w then
        (InstallAikbt.run h ["sudo"; "apt"; "update"] true ;;
         InstallAikbt.run h (["sudo"; "apt"; "install"; "-y"] ++ packages)
           true ;;
         mret tt) w
      else (Raise (SystemExit 1),
            World (disk w)
              (log w ++
               [Printed "ERROR: sudo not found. Install sudo as root, or run this script as root."]))).
    { unfold InstallAikbt.apt_install, InstallAikbt.is_root.
      rewrite Eu. unfold InstallAikbt.have_cmd, have_on.
      unfold mbind, M_bind, bind, mret, M_ret, ret.
      destruct (u =? 0); [reflexivity|].
      destruct (which h "sudo" w); reflexivity. }
    rewrite E. clear E. destruct (u =? 0); cbn [orb].
    + apply (two_checked (InstallAikbt.run h) (aikbt_run_log h)).
    + destruct (which h "sudo" w); [|reflexivity].
      apply (two_checked (InstallAikbt.run h) (aikbt_run_log h)).
  - unfold InstallAikbt.apt_install, InstallAikbt.is_root.
    rewrite Eu. reflexivity.
Qed.

End Privilege.

(** ** Failing fast *)

Module FailFast.
Import Py Sys SysFacts Obs ProcFacts.

Lemma checked_ok_nil : checked_ok [].
Proof. intros cmd c H. inversion H. Qed.

Lemma checked_ok_app l1 l2 :
  checked_ok l1 -> checked_ok l2 -> checked_ok (l1 ++ l2).
Proof.
  intros H1 H2 cmd c Hin. apply elem_of_app in Hin.
  destruct Hin; [eapply H1|eapply H2]; eassumption.
Qed.

Lemma checked_ok_no_exec l :
  (forall cmd check code, Exec cmd check code ∉ l) -> checked_ok l.
Proof. intros H cmd c Hin. exfalso. eapply H. exact Hin. Qed.

Lemma checked_ok_one e :
  (forall cmd c, e = Exec cmd true (Some c) -> c = 0) -> checked_ok [e].
Proof.
  intros H cmd c Hin. apply list_elem_of_singleton in Hin.
  apply (H cmd). symmetry. exact Hin.
Qed.

Lemma fail_fast_ret {A} (a : A) : always fail_fast (mret a).
Proof.
  intros w. exists []. rewrite app_nil_r. split; [reflexivity|].
  apply checked_ok_nil.
Qed.

Lemma fail_fast_bind {A B} (m : M A) (k : A -> M B) :
  always fail_fast m -> (forall a, always fail_fast (k a)) ->
  always fail_fast (m ≫= k).
Proof.
  intros Hm Hk w. specialize (Hm w). unfold mbind, M_bind, bind.
  destruct (m w) as [[a|e] w1]; cbn [fst snd] in *; [|exact Hm].
  destruct Hm as (l1 & E1 & H1). specialize (Hk a w1).
  destruct (k a w1) as [r w2]. cbn [fst snd] in *.
  destruct Hk as (l2 & E2 & H2).
  exists (l1 ++ l2). split; [rewrite E2, E1, app_assoc; reflexivity|].
  destruct r as [b|[c|c cmd|n]].
  - apply checked_ok_app; assumption.
  - destruct H2 as [-> H2]. split; [reflexivity|].
    apply checked_ok_app; assumption.
  - destruct H2 as (Hc & l0 & -> & H0). split; [exact Hc|].
    exists (l1 ++ l0). split; [rewrite app_assoc; reflexivity|].
    apply checked_ok_app; assumption.
  - apply checked_ok_app; assumption.
Qed.

Lemma fail_fast_if {A} (b : bool) (m1 m2 : M A) :
  always fail_fast m1 -> always fail_fast m2 ->
  always fail_fast (if b then m1 else m2).
Proof. destruct b; tauto. Qed.

Lemma fail_fast_for_each {A} (xs : list A) (body : A -> M unit) :
  (forall x, always fail_fast (body x)) -> always fail_fast (for_each xs body).
Proof.
  intros Hb. induction xs as [|x rest IH]; cbn [for_each].
  - apply (fail_fast_ret tt).
  - apply (fail_fast_bind (body x)); [apply Hb|intros _; exact IH].
Qed.

Lemma fail_fast_quiet {A} (m : M A) : always quiet m -> always fail_fast m.
Proof.
  intros H w. destruct (H w) as (l & E & Hl & a & Hr).
  exists l. split; [exact E|]. rewrite Hr. apply checked_ok_no_exec. exact Hl.
Qed.

Lemma fail_fast_silent {A} (m : M A) : always silent m -> always fail_fast m.
Proof.
  intros H w. destruct (H w) as (E & Hr).
  exists []. rewrite app_nil_r. split; [exact E|].
  destruct (fst (m w)) as [a|[c|c cmd|n]]; try contradiction;
    apply checked_ok_nil.
Qed.

Lemma fail_fast_exit {A} : always fail_fast (@sys_exit A 1).
Proof.
  intros w. exists []. rewrite app_nil_r. split; [reflexivity|].
  split; [reflexivity|apply checked_ok_nil].
Qed.

Lemma fail_fast_raise_error {A} n : always fail_fast (@raise A (PyError n)).
Proof.
  intros w. exists []. rewrite app_nil_r. split; [reflexivity|].
  apply checked_ok_nil.
Qed.

Lemma fail_fast_print msg : always fail_fast (print msg).
Proof.
  intros w. exists [Printed msg]. split; [reflexivity|].
  apply checked_ok_one. discriminate.
Qed.

(** [subprocess.run] itself fails fast, checked or not. *)
Lemma fail_fast_subprocess_run h cmd check :
  always fail_fast (subprocess_run h cmd check).
Proof.
  intros w. destruct (subprocess_run_eq h cmd check w) as (code & d & -> & _).
  cbn [fst snd log]. exists [Exec cmd check code]. split; [reflexivity|].
  unfold outcome. destruct code as [c|].
  - destruct check; cbn [andb].
    + destruct (c =? 0) eqn:Ec; cbn [negb].
      * apply checked_ok_one. intros cmd' c' [= _ <-].
        apply Z.eqb_eq. exact Ec.
      * split; [apply Z.eqb_neq; exact Ec|].
        exists []. split; [reflexivity|apply checked_ok_nil].
    + apply checked_ok_one. discriminate.
  - apply checked_ok_one. discriminate.
Qed.

End FailFast.

Module Probing.
Import Py Sys SysFacts Obs ProcFacts FailFast.

Lemma no_exec_nil cmd check code : Exec cmd check code ∉ @nil event.
Proof. inversion 1. Qed.

Lemma no_exec_app (l1 l2 : list event) :
  (forall cmd check code, Exec cmd check code ∉ l1) ->
  (forall cmd check code, Exec cmd check code ∉ l2) ->
  forall cmd check code, Exec cmd check code ∉ l1 ++ l2.
Proof.
  intros H1 H2 cmd check code Hin. apply elem_of_app in Hin.
  destruct Hin; [eapply H1|eapply H2]; eassumption.
Qed.

Lemma probing_ret {A} (a : A) : always probing (mret a).
Proof.
  intros w. exists []. rewrite app_nil_r. split; [reflexivity|].
  split; [apply no_exec_nil|discriminate].
Qed.

Lemma probing_raise_error {A} n : always probing (@raise A (PyError n)).
Proof.
  intros w. exists []. rewrite app_nil_r. split; [reflexivity|].
  split; [apply no_exec_nil|discriminate].
Qed.

Lemma probing_print msg : always probing (print msg).
Proof.
  intros w. exists [Printed msg]. split; [reflexivity|].
  split; [|discriminate].
  intros cmd check code Hin. apply list_elem_of_singleton in Hin.
  discriminate.
Qed.

Lemma probing_bind {A B} (m : M A) (k : A -> M B) :
  always probing m -> (forall a, always probing (k a)) ->
  always probing (m ≫= k).
Proof.
  intros Hm Hk w. specialize (Hm w). unfold mbind, M_bind, bind.
  destruct (m w) as [[a|e] w1]; cbn [fst snd] in *.
  2:{ destruct Hm as (l1 & E1 & H1 & Hr). exists l1.
      split; [exact E1|]. split; [exact H1|].
      intros c [= ->]. exact (Hr c eq_refl). }
  destruct Hm as (l1 & E1 & H1 & _). specialize (Hk a w1).
  destruct (k a w1) as [r w2]. cbn [fst snd] in *.
  destruct Hk as (l2 & E2 & H2 & Hr).
  exists (l1 ++ l2). split; [rewrite E2, E1, app_assoc; reflexivity|].
  split; [apply no_exec_app; assumption|exact Hr].
Qed.

Lemma probing_check_output h cmd : always probing (check_output h cmd).
Proof.
  intros w. unfold check_output.
  destruct (spawn h cmd w) as [[[c out] d]|]; cbn [fst snd log].
  - exists [Probe cmd (Some c)].
    assert (Hn : forall cmd' check code,
               Exec cmd' check code ∉ [Probe cmd (Some c)]).
    { intros cmd' check code Hin. apply list_elem_of_singleton in Hin.
      discriminate. }
    destruct (negb (c =? 0)); [|destruct out]; cbn [fst snd log];
      (split; [reflexivity|]); (split; [exact Hn|discriminate]).
  - exists [Probe cmd None]. split; [reflexivity|]. split; [|discriminate].
    intros cmd' check code Hin. apply list_elem_of_singleton in Hin.
    discriminate.
Qed.

(** [try ... except Exception] around probing code, with a handler that
    returns, returns. *)
Lemma quiet_try {A} (m handler : M A) :
  always probing m -> always quiet handler ->
  always quiet (try_except m handler).
Proof.
  intros Hm Hh w. specialize (Hm w). unfold try_except.
  destruct (m w) as [[a|[c|c cmd|n]] w1]; cbn [fst snd] in *;
    destruct Hm as (l1 & E1 & H1 & Hr).
  - exists l1. split; [exact E1|]. split; [exact H1|]. exists a. reflexivity.
  - exfalso. exact (Hr c eq_refl).
  - specialize (Hh w1). destruct (handler w1) as [r w2]. cbn [fst snd] in *.
    destruct Hh as (l2 & E2 & H2 & Ha). exists (l1 ++ l2).
    split; [rewrite E2, E1, app_assoc; reflexivity|].
    split; [apply no_exec_app; assumption|exact Ha].
  - specialize (Hh w1). destruct (handler w1) as [r w2]. cbn [fst snd] in *.
    destruct Hh as (l2 & E2 & H2 & Ha). exists (l1 ++ l2).
    split; [rewrite E2, E1, app_assoc; reflexivity|].
    split; [apply no_exec_app; assumption|exact Ha].
Qed.

Lemma quiet_ret {A} (a : A) : always quiet (mret a).
Proof.
  intros w. exists []. rewrite app_nil_r. split; [reflexivity|].
  split; [apply no_exec_nil|]. exists a. reflexivity.
Qed.

Lemma quiet_print msg : always quiet (print msg).
Proof.
  intros w. exists [Printed msg]. split; [reflexivity|].
  split; [|exists tt; reflexivity].
  intros cmd check code Hin. apply list_elem_of_singleton in Hin.
  discriminate.
Qed.

Lemma quiet_bind {A B} (m : M A) (k : A -> M B) :
  always quiet m -> (forall a, always quiet (k a)) -> always quiet (m ≫= k).
Proof.
  intros Hm Hk w. specialize (Hm w). unfold mbind, M_bind, bind.
  destruct (m w) as [r1 w1]. cbn [fst snd] in *.
  destruct Hm as (l1 & E1 & H1 & a & ->).
  specialize (Hk a w1). destruct (k a w1) as [r w2]. cbn [fst snd] in *.
  destruct Hk as (l2 & E2 & H2 & Hr).
  exists (l1 ++ l2). split; [rewrite E2, E1, app_assoc; reflexivity|].
  split; [apply no_exec_app; assumption|exact Hr].
Qed.

Lemma quiet_have h cmd : always quiet (have_on h cmd).
Proof.
  intros w. exists []. rewrite app_nil_r. split; [reflexivity|].
  split; [apply no_exec_nil|]. eexists. reflexivity.
Qed.

End Probing.

Module ScriptsFailFast.
Import Py Sys SysFacts Obs ProcFacts FailFast Probing.

Lemma silent_have h cmd : always silent (have_on h cmd).
Proof. intros w. split; [reflexivity|exact I]. Qed.

Lemma silent_path_exists p : always silent (path_exists p).
Proof. intros w. split; [reflexivity|exact I]. Qed.

Lemma silent_is_dir p : always silent (is_dir p).
Proof. intros w. split; [reflexivity|exact I]. Qed.

Lemma silent_read_text p : always silent (read_text p).
Proof.
  intros w. unfold read_text.
  destruct (node_at (disk w) p) as [[|b]|]; split; try reflexivity; exact I.
Qed.

Lemma silent_open_append p : always silent (open_append p).
Proof.
  intros w. unfold open_append, set_node.
  destruct (node_at (disk w) p) as [[|b]|];
    [split; [reflexivity|exact I]..|].
  destruct (node_at (disk w) (parent p)) as [[|b]|];
    split; try reflexivity; exact I.
Qed.

Lemma silent_write_append p s : always silent (write_append p s).
Proof.
  intros w. unfold write_append, set_node.
  destruct (encode s); [|split; [reflexivity|exact I]].
  destruct (disk w !! p) as [[|b]|]; split; try reflexivity; exact I.
Qed.

Lemma silent_stat_size p h : always silent (stat_size p h).
Proof.
  intros w. unfold stat_size.
  destruct (node_at (disk w) p) as [[|b]|]; split; try reflexivity; exact I.
Qed.

Lemma silent_mkdir_walk todo : forall done, always silent (mkdir_walk done todo).
Proof.
  induction todo as [|c rest IH]; intros done w.
  - split; [reflexivity|exact I].
  - rewrite mkdir_walk_cons.
    destruct (disk w !! (done ++ [c])) as [[|b]|].
    + apply IH.
    + split; [reflexivity|exact I].
    + destruct (IH (done ++ [c])
                  (World (<[done ++ [c] := Dir]> (disk w)) (log w)))
        as [E H].
      split; [exact E|exact H].
Qed.

Lemma silent_aikbt_is_root h : always silent (InstallAikbt.is_root h).
Proof.
  intros w. unfold InstallAikbt.is_root.
  destruct (euid h); split; try reflexivity; exact I.
Qed.

Ltac ff_prim :=
  lazymatch goal with
  | |- always _ (mret _) => apply fail_fast_ret
  | |- always _ (print _) => apply fail_fast_print
  | |- always _ (sys_exit _) => apply fail_fast_exit
  | |- always _ (raise (PyError _)) => apply fail_fast_raise_error
  | |- always _ (subprocess_run _ _ _) => apply fail_fast_subprocess_run
  | |- always _ (for_each _ _) => apply fail_fast_for_each
  | |- always _ (have_on _ _) => apply fail_fast_silent; apply silent_have
  | |- always _ (path_exists _) =>
    apply fail_fast_silent; apply silent_path_exists
  | |- always _ (is_dir _) => apply fail_fast_silent; apply silent_is_dir
  | |- always _ (read_text _) => apply fail_fast_silent; apply silent_read_text
  | |- always _ (open_append _) =>
    apply fail_fast_silent; apply silent_open_append
  | |- always _ (write_append _ _) =>
    apply fail_fast_silent; apply silent_write_append
  | |- always _ (stat_size _ _) => apply fail_fast_silent; apply silent_stat_size
  | |- always _ (mkdir_walk _ _) =>
    apply fail_fast_silent; apply silent_mkdir_walk
  | |- always _ (InstallAikbt.is_root _) =>
    apply fail_fast_silent; apply silent_aikbt_is_root
  | |- always _ (mbind _ _) => apply fail_fast_bind
  | |- always _ (match ?x with [] => _ | _ :: _ => _ end) => destruct x
  | |- always _ (match ?x with Some _ => _ | None => _ end) => destruct x
  | |- always _ (if _ then _ else _) => apply fail_fast_if
  | |- always _ (let '(_, _) := ?x in _) => destruct x
  | |- forall _ : _, always _ _ => intro
  end.

Ltac ff_with tac := repeat first [ tac | ff_prim ].
Ltac ff := ff_with fail.

Lemma ff_aikbt_run h cmd check : always fail_fast (InstallAikbt.run h cmd check).
Proof. unfold InstallAikbt.run. ff. Qed.

Lemma ff_ensure_line p line :
  always fail_fast (InstallAikbt.ensure_line_in_file p line).
Proof.
  unfold InstallAikbt.ensure_line_in_file, InstallAikbt.append_line,
    mkdir_parents. ff.
Qed.

Lemma ff_download_to h url dest :
  always fail_fast (InstallAikbt.download_to h url dest).
Proof.
  unfold InstallAikbt.download_to, InstallAikbt.have_cmd, mkdir_parents.
  ff_with ltac:(apply ff_aikbt_run).
Qed.


Lemma ff_apt_install h packages :
  always fail_fast (InstallAikbt.apt_install h packages).
Proof.
  unfold InstallAikbt.apt_install, InstallAikbt.have_cmd.
  ff_with ltac:(apply ff_aikbt_run).
Qed.

Lemma ff_setup_update_alternatives h :
  always fail_fast (InstallAikbt.setup_update_alternatives h).
Proof.
  unfold InstallAikbt.setup_update_alternatives, InstallAikbt.have_cmd.
  ff_with ltac:(apply ff_aikbt_run).
Qed.

Lemma ff_aikbt_main h : always fail_fast (InstallAikbt.main h).
Proof.
  unfold InstallAikbt.main. cbv zeta.
  ff_with ltac:(idtac; lazymatch goal with
    | |- always _ (InstallAikbt.apt_install _ _) => apply ff_apt_install
    | |- always _ (InstallAikbt.download_to _ _ _) => apply ff_download_to
    | |- always _ (InstallAikbt.ensure_line_in_file _ _) =>
      apply ff_ensure_line
    | |- always _ (InstallAikbt.setup_update_alternatives _) =>
      apply ff_setup_update_alternatives
    end).
Qed.

Lemma ff_setup_run h cmd check : always fail_fast (SetupTools.run h cmd check).
Proof. unfold SetupTools.run. ff. Qed.

(** [first_line] on a command with an executable name returns, and runs
    nothing through [subprocess.run]. *)
Lemma quiet_first_line h c0 rest :
  always quiet (SetupTools.first_line h (c0 :: rest)).
Proof.
  unfold SetupTools.first_line, SetupTools.have.
  apply quiet_bind; [apply quiet_have|]. intros a.
  destruct (negb a); [apply quiet_ret|].
  apply quiet_try; [|apply quiet_ret].
  apply probing_bind; [apply probing_check_output|]. intros raw.
  destruct (strip raw); [apply probing_ret|].
  destruct (splitlines _); [apply probing_raise_error|apply probing_ret].
Qed.

Lemma ff_first_line h cmd : always fail_fast (SetupTools.first_line h cmd).
Proof.
  destruct cmd as [|c0 rest].
  - apply fail_fast_raise_error.
  - apply fail_fast_quiet. apply quiet_first_line.
Qed.

Lemma ff_ensure_admin_linux h :
  always fail_fast (SetupTools.ensure_admin_linux h).
Proof. unfold SetupTools.ensure_admin_linux, SetupTools.have. ff. Qed.

Lemma ff_install_on_ubuntu h : always fail_fast (SetupTools.install_on_ubuntu h).
Proof.
  unfold SetupTools.install_on_ubuntu.
  ff_with ltac:(idtac; lazymatch goal with
    | |- always _ (SetupTools.ensure_admin_linux _) =>
      apply ff_ensure_admin_linux
    | |- always _ (SetupTools.run _ _ _) => apply ff_setup_run
    end).
Qed.

Lemma ff_install_on_macos h : always fail_fast (SetupTools.install_on_macos h).
Proof.
  unfold SetupTools.install_on_macos, SetupTools.have.
  ff_with ltac:(idtac; lazymatch goal with
    | |- always _ (SetupTools.run _ _ _) => apply ff_setup_run
    end).
Qed.

Lemma ff_install_on_windows h : always fail_fast (SetupTools.install_on_windows h).
Proof.
  unfold SetupTools.install_on_windows, SetupTools.have.
  ff_with ltac:(idtac; lazymatch goal with
    | |- always _ (SetupTools.run _ _ _) => apply ff_setup_run
    end).
Qed.

Lemma ff_ensure_venv h venv_path :
  always fail_fast (SetupTools.ensure_venv h venv_path).
Proof.
  unfold SetupTools.ensure_venv.
  ff_with ltac:(idtac; lazymatch goal with
    | |- always _ (SetupTools.run _ _ _) => apply ff_setup_run
    end).
Qed.

Lemma ff_pip_install_in_venv h pip_bin :
  always fail_fast (SetupTools.pip_install_in_venv h pip_bin).
Proof.
  unfold SetupTools.pip_install_in_venv.
  ff_with ltac:(idtac; lazymatch goal with
    | |- always _ (SetupTools.run _ _ _) => apply ff_setup_run
    end).
Qed.

Lemma ff_symlink h venv_path :
  always fail_fast (SetupTools.symlink_cli_tools_linux_shared h venv_path).
Proof.
  unfold SetupTools.symlink_cli_tools_linux_shared.
  ff_with ltac:(idtac; lazymatch goal with
    | |- always _ (SetupTools.run _ _ _) => apply ff_setup_run
    | |- always _ (SetupTools.ensure_admin_linux _) =>
      apply ff_ensure_admin_linux
    end).
Qed.

Lemma ff_print_versions h venv_python :
  always fail_fast (SetupTools.print_versions h venv_python).
Proof.
  unfold SetupTools.print_versions.
  ff_with ltac:(idtac; lazymatch goal with
    | |- always _ (SetupTools.first_line _ _) => apply ff_first_line
    | |- always _ (try_except _ _) =>
      apply fail_fast_quiet; apply quiet_try;
      [ apply probing_bind; [apply probing_check_output|];
        intros raw; apply probing_print
      | apply quiet_print ]
    end).
Qed.

Lemma ff_provision h : always fail_fast (SetupTools.provision h).
Proof.
  unfold SetupTools.provision. cbv zeta.
  ff_with ltac:(idtac; lazymatch goal with
    | |- always _ (SetupTools.ensure_venv _ _) => apply ff_ensure_venv
    | |- always _ (SetupTools.pip_install_in_venv _ _) =>
      apply ff_pip_install_in_venv
    | |- always _ (SetupTools.symlink_cli_tools_linux_shared _ _) =>
      apply ff_symlink
    | |- always _ (SetupTools.print_versions _ _) => apply ff_print_versions
    end).
Qed.

Lemma ff_setup_main h : always fail_fast (SetupTools.main h).
Proof.
  unfold SetupTools.main.
  ff_with ltac:(idtac; lazymatch goal with
    | |- always _ (SetupTools.install_on_ubuntu _) => apply ff_install_on_ubuntu
    | |- always _ (SetupTools.install_on_macos _) => apply ff_install_on_macos
    | |- always _ (SetupTools.install_on_windows _) =>
      apply ff_install_on_windows
    | |- always _ (SetupTools.provision _) => apply ff_provision
    end).
Qed.

End ScriptsFailFast.

(** ** Exit codes *)

Module ExitCodes.
Import Py Sys SysFacts Obs ProcFacts FailFast Probing ScriptsFailFast Examples.

Lemma propagates_ok c before l :
  checked_ok l -> c = 0 \/ c = 1 -> propagates c before (before ++ l).
Proof.
  intros Hl Hc. exists l. split; [reflexivity|]. split; [tauto|].
  intros cmd k Hin Hk. exfalso. apply Hk. exact (Hl cmd k Hin).
Qed.

Lemma propagates_failure c cmd msg before l0 :
  c <> 0 -> checked_ok l0 ->
  propagates c before
    ((before ++ l0 ++ [Exec cmd true (Some c)]) ++ [Printed msg]).
Proof.
  intros Hc Hl0. exists (l0 ++ [Exec cmd true (Some c); Printed msg]).
  split; [rewrite <- !app_assoc; reflexivity|].
  assert (Hin : Exec cmd true (Some c)
                ∈ l0 ++ [Exec cmd true (Some c); Printed msg]).
  { apply elem_of_app. right. left. }
  split.
  - intros Hok. exfalso. apply Hc. exact (Hok cmd c Hin).
  - intros cmd' k Hin' Hk. apply elem_of_app in Hin'.
    destruct Hin' as [Hin'|Hin'].
    + exfalso. apply Hk. exact (Hl0 cmd' k Hin').
    + apply elem_of_cons in Hin'. destruct Hin' as [E|Hin'].
      * injection E as -> ->. split; [reflexivity|].
        exists l0, msg. split; [reflexivity|exact Hl0].
      * apply list_elem_of_singleton in Hin'. discriminate.
Qed.

Lemma aikbt_script_propagates h w :
  propagates (fst (InstallAikbt.script h w)) (log w)
    (log (snd (InstallAikbt.script h w)))
  /\ (fst (InstallAikbt.main h w) = Ok tt -> fst (InstallAikbt.script h w) = 0).
Proof.
  pose proof (ff_aikbt_main h w) as H. unfold InstallAikbt.script.
  destruct (InstallAikbt.main h w) as [[[]|[c|c cmd|n]] w'];
    cbn [fst snd log] in *; destruct H as (l & -> & H);
    (split; [|try discriminate; try reflexivity]).
  - apply propagates_ok; [exact H|left; reflexivity].
  - destruct H as [-> H]. apply propagates_ok; [exact H|right; reflexivity].
  - destruct H as (Hc & l0 & -> & H0). apply propagates_failure; assumption.
  - apply propagates_ok; [exact H|right; reflexivity].
Qed.

Lemma setup_script_propagates h w :
  propagates (fst (SetupTools.script h w)) (log w)
    (log (snd (SetupTools.script h w)))
  /\ (fst (SetupTools.main h w) = Ok tt -> fst (SetupTools.script h w) = 0).
Proof.
  pose proof (ff_setup_main h w) as H. unfold SetupTools.script.
  destruct (SetupTools.main h w) as [[[]|[c|c cmd|n]] w'];
    cbn [fst snd log] in *; destruct H as (l & -> & H);
    (split; [|try discriminate; try reflexivity]).
  - apply propagates_ok; [exact H|left; reflexivity].
  - destruct H as [-> H]. apply propagates_ok; [exact H|right; reflexivity].
  - destruct H as (Hc & l0 & -> & H0). apply propagates_failure; assumption.
  - apply propagates_ok; [exact H|right; reflexivity].
Qed.


(** C5 (amended): for each script the log only grows and the exit code is 0
    when [main] returns; where every command run with failure checking
    exited 0 the exit code is 0 or 1 (1 after a missing precondition or an
    error nobody catches); and a command run with failure checking that
    exits with another code is the last command run and gives its code,
    unchanged, to the script.  Commands run without failure checking and the
    version probes do not count. *)
Theorem exit_code_propagation h w :
  (propagates (fst (InstallAikbt.script h w)) (log w)
     (log (snd (InstallAikbt.script h w)))
   /\ (fst (InstallAikbt.main h w) = Ok tt ->
       fst (InstallAikbt.script h w) = 0))
  /\ (propagates (fst (SetupTools.script h w)) (log w)
        (log (snd (SetupTools.script h w)))
      /\ (fst (SetupTools.main h w) = Ok tt ->
          fst (SetupTools.script h w) = 0)).
Proof.
  split; [apply aikbt_script_propagates|apply setup_script_propagates].
Qed.

Lemma exit_code_propagation_witness :
  Exec curl_aik_bt true (Some 22)
    ∈ log (snd (InstallAikbt.script (ubuntu_root [("curl", 22)]) empty_world))
  /\ 22 <> 0
  /\ fst (InstallAikbt.script (ubuntu_root [("curl", 22)]) empty_world) = 22.
Proof.
  destruct (exit_code_propagation (ubuntu_root [("curl", 22)]) empty_world)
    as [[(l & E & _ & H) _] _].
  assert (Hin : Exec curl_aik_bt true (Some 22)
                ∈ log (snd (InstallAikbt.script (ubuntu_root [("curl", 22)])
                              empty_world))).
  { vm_compute. repeat first [apply list_elem_of_here|apply list_elem_of_further]. }
  split; [exact Hin|]. split; [discriminate|].
  rewrite E in Hin. cbn [log empty_world app] in Hin.
  exact (proj1 (H curl_aik_bt 22 Hin ltac:(discriminate))).
Defined.

(** C5 as stated fails for a command run without failure checking: here
    [update-alternatives] is the first, and only, command to exit non-zero,
    with code 2, and the script exits with code 0. *)
Lemma update_alternatives_failure_exit_0 :
  let run := InstallAikbt.script (ubuntu_root [("update-alternatives", 2)])
               empty_world in
  Exec update_alternatives_lldb false (Some 2) ∈ log (snd run)
  /\ (forall cmd check k, Exec cmd check (Some k) ∈ log (snd run) ->
      k <> 0 -> cmd = update_alternatives_lldb /\ k = 2)
  /\ fst run = 0
  /\ fst run <> 2.
Proof.
  cbv zeta. split; [|split; [|split]].
  - vm_compute. repeat first [apply list_elem_of_here|apply list_elem_of_further].
  - intros cmd check k. vm_compute.
    intros Hin Hk. repeat (apply elem_of_cons in Hin;
      destruct Hin as [Hin|Hin];
      [first [discriminate Hin
             | injection Hin as -> -> ->; first [tauto|split; reflexivity]]|]).
    inversion Hin.
  - vm_compute. reflexivity.
  - vm_compute. discriminate.
Qed.

End ExitCodes.

(** ** Missing preconditions *)

Module Preconditions.
Import Py Sys SysFacts Obs ProcFacts FailFast Probing ScriptsFailFast Examples.

Lemma print_then {A} msg (m : M A) w : (print msg ;; m) w = m (say msg w).
Proof. reflexivity. Qed.

(** What [download_to] computes once the parents of [dest] are there. *)
Lemma download_to_eq h url dest w wm :
  mkdir_parents (parent dest) w = (Ok tt, wm) ->
  let cmd := ["curl"; "-fsSL"; url; "-o"; show_posix dest] in
  let w1 := say (InstallAikbt.nl +:+ ">>> " +:+ String.concat " " cmd) wm in
  InstallAikbt.download_to h url dest w =
    if which h "curl" wm then
      match spawn h cmd w1 with
      | None =>
        (Raise (PyError "OSError"),
         World (disk wm) (log w1 ++ [Exec cmd true None]))
      | Some (code, _, d) =>
        let w2 := World d (log w1 ++ [Exec cmd true (Some code)]) in
        if code =? 0 then
          if too_small h d dest then
            (Raise (SystemExit 1),
             World d (log w2 ++
               [Printed ("ERROR: Download seems failed or file too small: "
                         +:+ show_posix dest)]))
          else
            (Ok tt,
             World d (log w2 ++
               [Printed ("OK: Downloaded " +:+ show_posix dest +:+ " ("
                         +:+ pretty (match node_at d dest with
                                     | Some (File b) => Z.of_nat (length b)
                                     | _ => dir_size h
                                     end)
                         +:+ " bytes)")]))
        else (Raise (CalledProcessError code cmd), w2)
      end
    else
      (Raise (SystemExit 1),
       World (disk wm)
         (log wm ++
          [Printed "ERROR: curl not found. Install it with: sudo apt install -y curl"])).
Proof.
  intros Hm cmd w1. unfold InstallAikbt.download_to.
  rewrite (bind_ok _ _ _ _ _ Hm).
  unfold InstallAikbt.have_cmd, have_on.
  unfold mbind at 1. unfold M_bind at 1. unfold bind at 1.
  destruct (which h "curl" wm); [|reflexivity].
  unfold mbind at 1. unfold M_bind at 1. unfold bind at 1.
  unfold mret at 1. unfold M_ret at 1. unfold ret at 1.
  unfold mbind at 1. unfold M_bind at 1. unfold bind at 1.
  unfold InstallAikbt.run. rewrite print_then. fold cmd. fold w1.
  unfold subprocess_run.
  destruct (spawn h cmd w1) as [[[code out] d]|]; [|reflexivity].
  cbv zeta. cbn [andb]. destruct (code =? 0); cbn [negb]; [|reflexivity].
  unfold path_exists, stat_size, too_small, mbind, M_bind, bind, mret, M_ret,
    ret, print, emit, sys_exit, raise. cbn [disk log].
  destruct (node_at d dest) as [[|b]|] eqn:En;
    repeat (progress (cbn beta iota zeta delta [disk log]; rewrite ?En)).
  - destruct (dir_size h <? 10);
      repeat (progress (cbn beta iota zeta delta [disk log]; rewrite ?En));
      reflexivity.
  - destruct (Z.of_nat (length b) <? 10);
      repeat (progress (cbn beta iota zeta delta [disk log]; rewrite ?En));
      reflexivity.
  - reflexivity.
Qed.


(** [main] of install_aikbt.py up to its first download. *)
Lemma aikbt_main_at_download h w0 wa :
  InstallAikbt.apt_install h ["lldb-15"; "python3-lldb-15"; "curl"]
    (say step1 (say banner w0)) = (Ok tt, wa) ->
  exists rest,
    InstallAikbt.main h w0
    = (InstallAikbt.download_to h InstallAikbt.AIK_BT_URL
         (home h ++ [".lldb"] ++ ["aik_bt.py"]) ≫= rest) (say step2 wa).
Proof.
  intros Ha. unfold InstallAikbt.main. cbv zeta.
  rewrite !print_then. fold banner step1.
  rewrite (bind_ok _ _ _ _ _ Ha). rewrite print_then. fold step2.
  rewrite <- app_assoc. eexists. reflexivity.
Qed.

Lemma aikbt_script_exit h w0 c w' :
  InstallAikbt.main h w0 = (Raise (SystemExit c), w') ->
  InstallAikbt.script h w0 = (c, w').
Proof. intros H. unfold InstallAikbt.script. rewrite H. reflexivity. Qed.

Lemma aikbt_script_failed h w0 c cmd w' :
  InstallAikbt.main h w0 = (Raise (CalledProcessError c cmd), w') ->
  InstallAikbt.script h w0
  = (c, say (InstallAikbt.nl +:+ "ERROR: Command failed with exit code "
             +:+ pretty c) w').
Proof. intros H. unfold InstallAikbt.script. rewrite H. reflexivity. Qed.

(** A download that fails its sanity check, or whose [curl] fails, raises;
    what would come after it is not run. *)
Lemma download_then h url dest w wm code out d (rest : unit -> M unit) :
  let cmd := ["curl"; "-fsSL"; url; "-o"; show_posix dest] in
  let w1 := say (InstallAikbt.nl +:+ ">>> " +:+ String.concat " " cmd) wm in
  mkdir_parents (parent dest) w = (Ok tt, wm) ->
  which h "curl" wm = true ->
  spawn h cmd w1 = Some (code, out, d) ->
  too_small h d dest = true ->
  (InstallAikbt.download_to h url dest ≫= rest) w
  = if code =? 0 then
      (Raise (SystemExit 1),
       World d (log w1 ++ [Exec cmd true (Some 0);
                Printed ("ERROR: Download seems failed or file too small: "
                         +:+ show_posix dest)]))
    else
      (Raise (CalledProcessError code cmd),
       World d (log w1 ++ [Exec cmd true (Some code)])).
Proof.
  intros cmd w1 Hm Hc Hs Ht.
  pose proof (download_to_eq h url dest w wm Hm) as E. cbv zeta in E.
  fold cmd in E. fold w1 in E. rewrite Hc, Hs, Ht in E. cbv zeta in E.
  destruct (code =? 0) eqn:Ec.
  - apply Z.eqb_eq in Ec. subst code.
    rewrite (bind_raise _ _ _ _ _ E). cbn [log]. rewrite <- app_assoc.
    reflexivity.
  - rewrite (bind_raise _ _ _ _ _ E). reflexivity.
Qed.

(** The same for the first download of the script, seen from outside. *)
Lemma aikbt_script_bad_download h w0 wa wm code out d :
  let dest := home h ++ [".lldb"] ++ ["aik_bt.py"] in
  let cmd := ["curl"; "-fsSL"; InstallAikbt.AIK_BT_URL; "-o";
              show_posix dest] in
  let w1 := say (InstallAikbt.nl +:+ ">>> " +:+ String.concat " " cmd) wm in
  InstallAikbt.apt_install h ["lldb-15"; "python3-lldb-15"; "curl"]
    (say step1 (say banner w0)) = (Ok tt, wa) ->
  mkdir_parents (parent dest) (say step2 wa) = (Ok tt, wm) ->
  which h "curl" wm = true ->
  spawn h cmd w1 = Some (code, out, d) ->
  too_small h d dest = true ->
  fst (InstallAikbt.script h w0) = (if code =? 0 then 1 else code)
  /\ fst (InstallAikbt.script h w0) <> 0
  /\ disk (snd (InstallAikbt.script h w0)) = d
  /\ exists msg,
       log (snd (InstallAikbt.script h w0))
       = log w1 ++ [Exec cmd true (Some code); Printed msg].
Proof.
  intros dest cmd w1 Ha Hm Hc Hs Ht.
  destruct (aikbt_main_at_download h w0 wa Ha) as [rest Hmain].
  fold dest in Hmain.
  pose proof (download_then h InstallAikbt.AIK_BT_URL dest (say step2 wa) wm
                code out d rest Hm Hc Hs Ht) as E.
  cbv zeta in E. fold cmd in E. fold w1 in E. rewrite <- Hmain in E.
  destruct (code =? 0) eqn:Ec.
  - rewrite (aikbt_script_exit _ _ _ _ E). cbn [fst snd disk log].
    split; [reflexivity|]. split; [discriminate|]. split; [reflexivity|].
    apply Z.eqb_eq in Ec. subst code. eexists. reflexivity.
  - rewrite (aikbt_script_failed _ _ _ _ _ E). cbn [fst snd disk log say].
    split; [reflexivity|]. split; [apply Z.eqb_neq; exact Ec|].
    split; [reflexivity|]. eexists. rewrite <- app_assoc. reflexivity.
Qed.

(** C6: when [curl] has run and the destination is not there or holds
    fewer than 10 octets, [download_to] raises, whatever would come after it
    is not run, and the script exits with a code that is not 0 after a
    diagnostic: code 1 from the sanity check when curl exited 0, curl's own
    code otherwise. *)
Theorem download_sanity_check h :
  (forall url dest w wm code out d (rest : unit -> M unit),
     let cmd := ["curl"; "-fsSL"; url; "-o"; show_posix dest] in
     let w1 := say (InstallAikbt.nl +:+ ">>> " +:+ String.concat " " cmd) wm in
     mkdir_parents (parent dest) w = (Ok tt, wm) ->
     which h "curl" wm = true ->
     spawn h cmd w1 = Some (code, out, d) ->
     too_small h d dest = true ->
     (InstallAikbt.download_to h url dest ≫= rest) w
     = if code =? 0 then
         (Raise (SystemExit 1),
          World d (log w1 ++ [Exec cmd true (Some 0);
                   Printed ("ERROR: Download seems failed or file too small: "
                            +:+ show_posix dest)]))
       else
         (Raise (CalledProcessError code cmd),
          World d (log w1 ++ [Exec cmd true (Some code)])))
  /\ (forall w0 wa wm code out d,
        let dest := home h ++ [".lldb"] ++ ["aik_bt.py"] in
        let cmd := ["curl"; "-fsSL"; InstallAikbt.AIK_BT_URL; "-o";
                    show_posix dest] in
        let w1 := say (InstallAikbt.nl +:+ ">>> " +:+ String.concat " " cmd)
                    wm in
        InstallAikbt.apt_install h ["lldb-15"; "python3-lldb-15"; "curl"]
          (say step1 (say banner w0)) = (Ok tt, wa) ->
        mkdir_parents (parent dest) (say step2 wa) = (Ok tt, wm) ->
        which h "curl" wm = true ->
        spawn h cmd w1 = Some (code, out, d) ->
        too_small h d dest = true ->
        fst (InstallAikbt.script h w0) = (if code =? 0 then 1 else code)
        /\ fst (InstallAikbt.script h w0) <> 0
        /\ disk (snd (InstallAikbt.script h w0)) = d
        /\ exists msg,
             log (snd (InstallAikbt.script h w0))
             = log w1 ++ [Exec cmd true (Some code); Printed msg]).
Proof.
  split.
  - intros url dest w wm code out d rest cmd w1 Hm Hc Hs Ht.
    exact (download_then h url dest w wm code out d rest Hm Hc Hs Ht).
  - intros w0 wa wm code out d dest cmd w1 Ha Hm Hc Hs Ht.
    exact (aikbt_script_bad_download h w0 wa wm code out d Ha Hm Hc Hs Ht).
Qed.

Lemma download_sanity_check_witness :
  fst (InstallAikbt.script short_download empty_world) = 1
  /\ fst (InstallAikbt.script short_download empty_world) <> 0
  /\ commands (log (snd (InstallAikbt.script short_download empty_world)))
     = [["apt"; "update"];
        ["apt"; "install"; "-y"; "lldb-15"; "python3-lldb-15"; "curl"];
        curl_aik_bt].
Proof.
  destruct (proj2 (download_sanity_check short_download) empty_world
              (snd (InstallAikbt.apt_install short_download
                      ["lldb-15"; "python3-lldb-15"; "curl"]
                      (say step1 (say banner empty_world))))
              (snd (mkdir_parents ["root"; ".lldb"]
                      (say step2
                         (snd (InstallAikbt.apt_install short_download
                                 ["lldb-15"; "python3-lldb-15"; "curl"]
                                 (say step1 (say banner empty_world)))))))
              0 (Some [])
              (<[ ["root"; ".lldb"; "aik_bt.py"] := File (text "404") ]>
                 (<[ ["root"; ".lldb"] := Dir ]> (<[ ["root"] := Dir ]> ∅))))
    as (H1 & H2 & _ & msg & H4); try (vm_compute; reflexivity).
  split; [exact H1|]. split; [exact H2|]. vm_compute. reflexivity.
Defined.

End Preconditions.

Module Stops.
Import Py Sys SysFacts Obs ProcFacts FailFast Probing ScriptsFailFast Examples
  Privilege Preconditions.

Lemma macos_not_linux h :
  SetupTools.is_macos h = true -> SetupTools.is_linux h = false.
Proof.
  unfold SetupTools.is_macos, SetupTools.is_linux. intros H.
  apply String.eqb_eq in H. rewrite H. reflexivity.
Qed.

Lemma windows_not_linux_macos h :
  SetupTools.is_windows h = true ->
  SetupTools.is_linux h = false /\ SetupTools.is_macos h = false.
Proof.
  unfold SetupTools.is_windows, SetupTools.is_macos, SetupTools.is_linux.
  intros H. apply String.eqb_eq in H. rewrite H. split; reflexivity.
Qed.

(** setup_tools.py on Linux, not root, without sudo. *)
Lemma setup_script_no_sudo h w :
  SetupTools.is_linux h = true -> SetupTools.is_root h = false ->
  which h "sudo" (say (detected h) w) = false ->
  SetupTools.script h w
  = (1, say "     python3 setup_tools.py"
          (say "   First run must be as root (or via provider console):"
             (say "❌ sudo is not installed and you are not root."
                (say (detected h) w)))).
Proof.
  intros Hl Hr Hs.
  assert (E : SetupTools.main h w
              = (SetupTools.install_on_ubuntu h ;; SetupTools.provision h)
                  (say (detected h) w)).
  { unfold SetupTools.main. rewrite print_then, Hl. reflexivity. }
  unfold SetupTools.script. rewrite E.
  erewrite bind_raise.
  2:{ unfold SetupTools.install_on_ubuntu. apply bind_raise.
      rewrite ensure_admin_linux_eq, Hr, Hs. reflexivity. }
  unfold say. cbn [disk log]. rewrite <- !app_assoc. reflexivity.
Qed.


(** install_aikbt.py, not root, without sudo. *)
Lemma aikbt_script_no_sudo h w u :
  euid h = Some u -> (u =? 0) = false ->
  which h "sudo" (say step1 (say banner w)) = false ->
  InstallAikbt.script h w
  = (1, say "ERROR: sudo not found. Install sudo as root, or run this script as root."
          (say step1 (say banner w))).
Proof.
  intros Hu H0 Hs.
  pose proof (apt_install_commands h ["lldb-15"; "python3-lldb-15"; "curl"]
                (say step1 (say banner w))) as E.
  rewrite Hu, H0, Hs in E. cbn [orb] in E.
  unfold InstallAikbt.script, InstallAikbt.main. cbv zeta.
  rewrite !print_then. fold banner step1.
  rewrite (bind_raise _ _ _ _ _ E). reflexivity.
Qed.

(** install_aikbt.py without curl when the download is reached. *)
Lemma aikbt_script_no_curl h w0 wa wm :
  InstallAikbt.apt_install h ["lldb-15"; "python3-lldb-15"; "curl"]
    (say step1 (say banner w0)) = (Ok tt, wa) ->
  mkdir_parents (parent (home h ++ [".lldb"] ++ ["aik_bt.py"])) (say step2 wa)
  = (Ok tt, wm) ->
  which h "curl" wm = false ->
  InstallAikbt.script h w0
  = (1, say "ERROR: curl not found. Install it with: sudo apt install -y curl"
          wm).
Proof.
  intros Ha Hm Hc.
  destruct (aikbt_main_at_download h w0 wa Ha) as [rest Hmain].
  pose proof (download_to_eq h InstallAikbt.AIK_BT_URL _ _ _ Hm) as E.
  cbv zeta in E. rewrite Hc in E.
  rewrite (bind_raise _ _ _ _ _ E) in Hmain.
  apply aikbt_script_exit. exact Hmain.
Qed.

(** Without Homebrew, [main] of setup_tools.py prints and goes on to the
    virtual environment. *)
Lemma setup_main_no_brew h w :
  SetupTools.is_macos h = true ->
  which h "brew" (say (detected h) w) = false ->
  SetupTools.main h w
  = SetupTools.provision h
      (say ("   /bin/bash -c " +:+ SetupTools.dq
            +:+ "$(curl -fsSL https://raw.githubusercontent.com/Homebrew/install/HEAD/install.sh)"
            +:+ SetupTools.dq)
         (say "   Command (copy/paste in Terminal):"
            (say "   Install Homebrew first, then rerun this script."
               (say "❌ Homebrew (brew) not found."
                  (say (detected h) w))))).
Proof.
  intros Hm Hb. unfold SetupTools.main.
  rewrite print_then, (macos_not_linux h Hm), Hm.
  erewrite bind_ok; [reflexivity|].
  unfold SetupTools.install_on_macos, SetupTools.have, have_on.
  unfold mbind at 1. unfold M_bind at 1. unfold bind at 1.
  fold (detected h). rewrite Hb. cbn [negb]. reflexivity.
Qed.

(** Without winget, likewise. *)
Lemma setup_main_no_winget h w :
  SetupTools.is_windows h = true ->
  which h "winget" (say (detected h) w) = false ->
  SetupTools.main h w
  = SetupTools.provision h
      (say "❌ winget not found. Install 'App Installer' from Microsoft Store or use Windows 10/11 with winget enabled."
         (say (detected h) w)).
Proof.
  intros Hw Hg. destruct (windows_not_linux_macos h Hw) as [Hl Hm].
  unfold SetupTools.main. rewrite print_then, Hl, Hm, Hw.
  erewrite bind_ok; [reflexivity|].
  unfold SetupTools.install_on_windows, SetupTools.have, have_on.
  unfold mbind at 1. unfold M_bind at 1. unfold bind at 1.
  fold (detected h). rewrite Hg. cbn [negb]. reflexivity.
Qed.


(** C4 (amended): a missing [sudo] (for a user who is not root), a missing
    [curl] and a download that [curl] reported done but that is absent or
    shorter than 10 octets each end the script at once, with exit code 1
    after a diagnostic and nothing run afterwards.  A missing Homebrew or
    winget does not: the diagnostic is printed, the system packages are
    skipped, and [main] goes on to provision the virtual environment. *)
Theorem missing_preconditions h :
  (forall w,
     SetupTools.is_linux h = true -> SetupTools.is_root h = false ->
     which h "sudo" (say (detected h) w) = false ->
     SetupTools.script h w
     = (1, say "     python3 setup_tools.py"
             (say "   First run must be as root (or via provider console):"
                (say "❌ sudo is not installed and you are not root."
                   (say (detected h) w)))))
  /\ (forall w u,
        euid h = Some u -> (u =? 0) = false ->
        which h "sudo" (say step1 (say banner w)) = false ->
        InstallAikbt.script h w
        = (1, say "ERROR: sudo not found. Install sudo as root, or run this script as root."
                (say step1 (say banner w))))
  /\ (forall w0 wa wm,
        InstallAikbt.apt_install h ["lldb-15"; "python3-lldb-15"; "curl"]
          (say step1 (say banner w0)) = (Ok tt, wa) ->
        mkdir_parents (parent (home h ++ [".lldb"] ++ ["aik_bt.py"]))
          (say step2 wa) = (Ok tt, wm) ->
        which h "curl" wm = false ->
        InstallAikbt.script h w0
        = (1, say "ERROR: curl not found. Install it with: sudo apt install -y curl"
                wm))
  /\ (forall w0 wa wm out d,
        let dest := home h ++ [".lldb"] ++ ["aik_bt.py"] in
        let cmd := ["curl"; "-fsSL"; InstallAikbt.AIK_BT_URL; "-o";
                    show_posix dest] in
        let w1 := say (InstallAikbt.nl +:+ ">>> " +:+ String.concat " " cmd)
                    wm in
        InstallAikbt.apt_install h ["lldb-15"; "python3-lldb-15"; "curl"]
          (say step1 (say banner w0)) = (Ok tt, wa) ->
        mkdir_parents (parent dest) (say step2 wa) = (Ok tt, wm) ->
        which h "curl" wm = true ->
        spawn h cmd w1 = Some (0, out, d) ->
        too_small h d dest = true ->
        fst (InstallAikbt.script h w0) = 1
        /\ disk (snd (InstallAikbt.script h w0)) = d
        /\ exists msg,
             log (snd (InstallAikbt.script h w0))
             = log w1 ++ [Exec cmd true (Some 0); Printed msg])
  /\ (forall w,
        SetupTools.is_macos h = true ->
        which h "brew" (say (detected h) w) = false ->
        SetupTools.main h w
        = SetupTools.provision h
            (say ("   /bin/bash -c " +:+ SetupTools.dq
                  +:+ "$(curl -fsSL https://raw.githubusercontent.com/Homebrew/install/HEAD/install.sh)"
                  +:+ SetupTools.dq)
               (say "   Command (copy/paste in Terminal):"
                  (say "   Install Homebrew first, then rerun this script."
                     (say "❌ Homebrew (brew) not found."
                        (say (detected h) w))))))
  /\ (forall w,
        SetupTools.is_windows h = true ->
        which h "winget" (say (detected h) w) = false ->
        SetupTools.main h w
        = SetupTools.provision h
            (say "❌ winget not found. Install 'App Installer' from Microsoft Store or use Windows 10/11 with winget enabled."
               (say (detected h) w))).
Proof.
  split; [intros; apply setup_script_no_sudo; assumption|].
  split; [intros; eapply aikbt_script_no_sudo; eassumption|].
  split; [intros; eapply aikbt_script_no_curl; eassumption|].
  split; [|split; [intros; apply setup_main_no_brew; assumption
                  |intros; apply setup_main_no_winget; assumption]].
  intros w0 wa wm out d dest cmd w1 Ha Hm Hc Hs Ht.
  destruct (aikbt_script_bad_download h w0 wa wm 0 out d Ha Hm Hc Hs Ht)
    as (H1 & _ & H3 & H4).
  split; [exact H1|]. split; [exact H3|exact H4].
Qed.

Lemma missing_preconditions_witness :
  SetupTools.script ubuntu_user_no_sudo empty_world
  = (1, say "     python3 setup_tools.py"
          (say "   First run must be as root (or via provider console):"
             (say "❌ sudo is not installed and you are not root."
                (say (detected ubuntu_user_no_sudo) empty_world))))
  /\ InstallAikbt.script ubuntu_user_no_sudo empty_world
     = (1, say "ERROR: sudo not found. Install sudo as root, or run this script as root."
             (say step1 (say banner empty_world))).
Proof.
  split.
  - apply (proj1 (missing_preconditions ubuntu_user_no_sudo) empty_world);
      vm_compute; reflexivity.
  - apply (proj1 (proj2 (missing_preconditions ubuntu_user_no_sudo))
             empty_world 1000); vm_compute; reflexivity.
Defined.

(** C4 as stated fails for the package manager: on macOS without Homebrew
    the script prints its diagnostic, goes on to make the virtual
    environment and install into it, and exits with code 0. *)
Lemma no_brew_script_goes_on :
  which macos_no_brew "brew" (say (detected macos_no_brew) empty_world) = false
  /\ fst (SetupTools.script macos_no_brew empty_world) = 0
  /\ Printed "❌ Homebrew (brew) not found."
       ∈ log (snd (SetupTools.script macos_no_brew empty_world))
  /\ take 3 (commands (log (snd (SetupTools.script macos_no_brew empty_world))))
     = [["/usr/bin/python3"; "-m"; "venv"; "/Users/u/course-venv"];
        ["/Users/u/course-venv/bin/python"; "-m"; "pip"; "install"; "-U";
         "pip"; "setuptools"; "wheel"];
        ["/Users/u/course-venv/bin/pip"; "install"; "-U"; "qrcode[pil]";
         "check50"; "style50"; "submit50"]].
Proof.
  split; [vm_compute; reflexivity|]. split; [vm_compute; reflexivity|].
  split; [|vm_compute; reflexivity].
  vm_compute. repeat first [apply list_elem_of_here|apply list_elem_of_further].
Qed.

End Stops.

(** ** Version reporting *)

Module Versions.
Import Py Sys SysFacts Obs ProcFacts FailFast Probing ScriptsFailFast Examples.

Lemma first_line_eq h c0 rest w :
  let cmd := c0 :: rest in
  SetupTools.first_line h cmd w =
    if which h c0 w then
      match spawn h cmd w with
      | Some (code, out, d) =>
        (Ok (match out with
             | Some o =>
               if code =? 0 then
                 match splitlines (strip (universal_newlines o)) with
                 | l :: _ => l
                 | [] => text "unknown"
                 end
               else text "unknown"
             | None => text "unknown"
             end),
         World d (log w ++ [Probe cmd (Some code)]))
      | None =>
        (Ok (text "unknown"), World (disk w) (log w ++ [Probe cmd None]))
      end
    else (Ok (text "not available"), w).
Proof.
  intros cmd. subst cmd.
  unfold SetupTools.first_line, SetupTools.have, have_on.
  unfold mbind at 1. unfold M_bind at 1. unfold bind at 1.
  destruct (which h c0 w); cbn [negb]; [|reflexivity].
  unfold try_except, check_output, mbind, M_bind, bind, mret, M_ret, ret,
    raise.
  destruct (spawn h (c0 :: rest) w) as [[[code out] d]|]; [|reflexivity].
  destruct (code =? 0); cbn [negb].
  - destruct out as [o|]; [|reflexivity].
    destruct (strip (universal_newlines o)) as [|x xs] eqn:Es; [reflexivity|].
    destruct (splitlines (x :: xs)) as [|l ls] eqn:El; [|reflexivity].
    apply TextFacts.splitlines_nil in El. discriminate.
  - destruct out; reflexivity.
Qed.

Lemma quiet_for_each {A} (xs : list A) (body : A -> M unit) :
  Forall (fun x => always quiet (body x)) xs -> always quiet (for_each xs body).
Proof.
  induction 1 as [|x rest Hx _ IH]; cbn [for_each].
  - apply (quiet_ret tt).
  - apply (quiet_bind (body x)); [exact Hx|intros _; exact IH].
Qed.

(** The version report returns, whatever the tools answer. *)
Lemma quiet_print_versions h venv_python :
  always quiet (SetupTools.print_versions h venv_python).
Proof.
  unfold SetupTools.print_versions.
  repeat (apply quiet_bind; [apply quiet_print|intros _]).
  apply quiet_bind.
  { apply quiet_for_each. unfold SetupTools.checks.
    repeat (constructor;
            [apply quiet_bind;
             [apply quiet_first_line|intros v; apply quiet_print]|]).
    constructor. }
  intros _. apply quiet_bind; [apply quiet_print|intros _].
  apply quiet_bind; [|intros _; apply quiet_print].
  apply quiet_for_each.
  repeat (constructor;
          [apply quiet_try;
           [apply probing_bind; [apply probing_check_output|];
            intros raw; apply probing_print
           |apply quiet_print]|]).
  constructor.
Qed.

(** C10 (amended): [first_line] of a command list that is not empty
    returns: ["not available"] when the executable is not on the path,
    ["unknown"] when the command cannot be started, exits non-zero, gives
    output that does not decode, or gives nothing but white space, and
    otherwise the first line of the output stripped of surrounding white
    space; and the version report itself always returns. *)
Theorem first_line_total h c0 rest w venv_python :
  (let cmd := c0 :: rest in
   SetupTools.first_line h cmd w =
     if which h c0 w then
       match spawn h cmd w with
       | Some (code, out, d) =>
         (Ok (match out with
              | Some o =>
                if code =? 0 then
                  match splitlines (strip (universal_newlines o)) with
                  | l :: _ => l
                  | [] => text "unknown"
                  end
                else text "unknown"
              | None => text "unknown"
              end),
          World d (log w ++ [Probe cmd (Some code)]))
       | None =>
         (Ok (text "unknown"), World (disk w) (log w ++ [Probe cmd None]))
       end
     else (Ok (text "not available"), w))
  /\ fst (SetupTools.print_versions h venv_python w) = Ok tt.
Proof.
  split; [apply first_line_eq|].
  destruct (quiet_print_versions h venv_python w) as (l & _ & _ & [] & E).
  exact E.
Qed.

(** C10 as stated fails on the empty command list, where [cmd[0]] raises
    before anything is tried, and on output that is only white space, which
    is not empty but reads as ["unknown"]. *)
Lemma first_line_empty_command :
  fst (SetupTools.first_line (ubuntu_root []) [] empty_world)
  = Raise (PyError "IndexError")
  /\ (let blank : host :=
        Host "Linux" "6.8.0" (Some 0) ["root"] "/usr/bin/python3" 4096
          (fun _ _ => true)
          (fun _ w => Some (0, Some (text "  "), disk w)) in
      fst (SetupTools.first_line blank ["lldb"; "--version"] empty_world)
      = Ok (text "unknown")).
Proof. split; vm_compute; reflexivity. Qed.

End Versions.

(** ** The virtual environment *)

Module Venv.
Import Py Sys SysFacts Obs ProcFacts FailFast Probing ScriptsFailFast Examples
  Privilege.

Lemma outcome_ok cmd code a :
  outcome cmd true code = Ok a -> code = Some 0 /\ a = 0.
Proof.
  unfold outcome. destruct code as [c|]; [|discriminate]. cbn [andb].
  destruct (c =? 0) eqn:E; cbn [negb]; [|discriminate].
  apply Z.eqb_eq in E. subst c. intros [= <-]. split; reflexivity.
Qed.

(** C7: [ensure_venv] runs the creation command first exactly when there is
    no directory at the path, then upgrades pip inside the environment; the
    creation command is not run where the directory exists; whenever it
    returns, it returns the interpreter and pip paths inside that
    directory, and it returns whenever the commands it runs exit 0. *)
Theorem ensure_venv_creates_once h venv_path w :
  let python_bin :=
    venv_path ++ (if SetupTools.is_windows h then ["Scripts"; "python.exe"]
                  else ["bin"; "python"]) in
  let pip_bin :=
    venv_path ++ (if SetupTools.is_windows h then ["Scripts"; "pip.exe"]
                  else ["bin"; "pip"]) in
  let create := [executable h; "-m"; "venv"; SetupTools.show h venv_path] in
  let upgrade := [SetupTools.show h python_bin; "-m"; "pip"; "install"; "-U";
                  "pip"; "setuptools"; "wheel"] in
  let r := SetupTools.ensure_venv h venv_path w in
  exists l,
    log (snd r) = log w ++ l
    /\ (exists k, (1 <= k)%nat /\
          commands l = take k (if dir_at (disk w) venv_path then [upgrade]
                               else [create; upgrade]))
    /\ (create ∈ commands l <-> dir_at (disk w) venv_path = false)
    /\ (forall x, fst r = Ok x -> x = (python_bin, pip_bin))
    /\ ((forall cmd check, Exec cmd check None ∉ l) -> checked_ok l ->
        fst r = Ok (python_bin, pip_bin)).
Proof.
  cbv zeta.
  set (python_bin := venv_path ++ (if SetupTools.is_windows h
                                   then ["Scripts"; "python.exe"]
                                   else ["bin"; "python"])).
  set (pip_bin := venv_path ++ (if SetupTools.is_windows h
                                then ["Scripts"; "pip.exe"]
                                else ["bin"; "pip"])).
  set (create := [executable h; "-m"; "venv"; SetupTools.show h venv_path]).
  set (upgrade := [SetupTools.show h python_bin; "-m"; "pip"; "install"; "-U";
                   "pip"; "setuptools"; "wheel"]).
  assert (Hne : create <> upgrade) by discriminate.
  assert (E : SetupTools.ensure_venv h venv_path w =
    ((if negb (dir_at (disk w) venv_path)
      then SetupTools.run h create true ;; mret tt else mret tt) ;;
     SetupTools.run h upgrade true ;; mret (python_bin, pip_bin)) w).
  { unfold SetupTools.ensure_venv, is_dir, dir_at, python_bin, pip_bin,
      create, upgrade.
    unfold mbind at 1. unfold M_bind at 1. unfold bind at 1.
    destruct (SetupTools.is_windows h); reflexivity. }
  rewrite E. clear E.
  unfold mbind, M_bind, bind, mret, M_ret, ret.
  destruct (dir_at (disk w) venv_path); cbn [negb].
  - destruct (setup_run_log h upgrade true w) as (code & d & msg & ->).
    exists [Printed msg; Exec upgrade true code].
    assert (Hc : create ∈ commands [Printed msg; Exec upgrade true code]
                 <-> true = false).
    { split; [|discriminate]. cbn. intros Hin.
      apply list_elem_of_singleton in Hin. congruence. }
    destruct (outcome upgrade true code) as [a|e] eqn:Eo; cbn [fst snd log];
      (split; [reflexivity|]);
      (split; [exists 1%nat; split; [lia|reflexivity]|]);
      (split; [exact Hc|]).
    + split; [intros x [= <-]; reflexivity|reflexivity].
    + split; [discriminate|]. intros Hs Hok. exfalso.
      unfold outcome in Eo. destruct code as [c|].
      * cbn [andb] in Eo. destruct (c =? 0) eqn:Ec; [discriminate|].
        apply Z.eqb_neq in Ec. apply Ec. apply (Hok upgrade c).
        apply list_elem_of_further. apply list_elem_of_here.
      * apply (Hs upgrade true). apply list_elem_of_further.
        apply list_elem_of_here.
  - destruct (setup_run_log h create true w) as (code1 & d1 & msg1 & ->).
    destruct (outcome create true code1) as [a1|e1] eqn:Eo1.
    + match goal with |- context [SetupTools.run h upgrade true ?w1] =>
        destruct (setup_run_log h upgrade true w1) as (code & d & msg & ->) end.
      exists [Printed msg1; Exec create true code1;
              Printed msg; Exec upgrade true code].
      destruct (outcome upgrade true code) as [a|e] eqn:Eo; cbn [fst snd log];
        (split; [rewrite <- app_assoc; reflexivity|]);
        (split; [exists 2%nat; split; [lia|reflexivity]|]);
        (split; [split; [reflexivity|intros _; cbn; apply list_elem_of_here]|]).
      * split; [intros x [= <-]; reflexivity|reflexivity].
      * split; [discriminate|]. intros Hs Hok. exfalso.
        unfold outcome in Eo. destruct code as [c|].
        -- cbn [andb] in Eo. destruct (c =? 0) eqn:Ec; [discriminate|].
           apply Z.eqb_neq in Ec. apply Ec. apply (Hok upgrade c).
           do 3 apply list_elem_of_further. apply list_elem_of_here.
        -- apply (Hs upgrade true). do 3 apply list_elem_of_further.
           apply list_elem_of_here.
    + exists [Printed msg1; Exec create true code1]. cbn [fst snd log].
      split; [reflexivity|]. split; [exists 1%nat; split; [lia|reflexivity]|].
      split; [split; [reflexivity|intros _; cbn; apply list_elem_of_here]|].
      split; [discriminate|]. intros Hs Hok. exfalso.
      unfold outcome in Eo1. destruct code1 as [c|].
      * cbn [andb] in Eo1. destruct (c =? 0) eqn:Ec; [discriminate|].
        apply Z.eqb_neq in Ec. apply Ec. apply (Hok create c).
        apply list_elem_of_further. apply list_elem_of_here.
      * apply (Hs create true). apply list_elem_of_further.
        apply list_elem_of_here.
Qed.


Lemma ensure_venv_creates_once_witness :
  fst (SetupTools.ensure_venv (ubuntu_root []) ["opt"; "course-venv"] with_venv)
  = Ok (["opt"; "course-venv"; "bin"; "python"],
        ["opt"; "course-venv"; "bin"; "pip"]).
Proof.
  destruct (ensure_venv_creates_once (ubuntu_root []) ["opt"; "course-venv"]
              with_venv) as (l & E & _ & _ & _ & H).
  vm_compute in E. subst l. apply H.
  - intros cmd check Hin.
    repeat (apply elem_of_cons in Hin; destruct Hin as [Hin|Hin];
            [discriminate Hin|]).
    inversion Hin.
  - intros cmd c Hin.
    repeat (apply elem_of_cons in Hin; destruct Hin as [Hin|Hin];
            [first [discriminate Hin|injection Hin as _ <-; reflexivity]|]).
    inversion Hin.
Defined.

End Venv.

(** ** Commands run without failure checking *)

Module Unchecked.
Import Py Sys SysFacts Obs ProcFacts FailFast Probing ScriptsFailFast Examples
  Privilege.

Lemma unchecked_outcome cmd code :
  outcome cmd false code
  = match code with
    | Some c => Ok c
    | None => Raise (PyError "OSError")
    end.
Proof. destruct code; reflexivity. Qed.

Lemma setup_update_alternatives_eq h w :
  InstallAikbt.setup_update_alternatives h w =
    if which h "update-alternatives" w then
      match node_at (disk w) ["usr"; "bin"; "lldb-15"] with
      | Some _ =>
        match euid h with
        | Some u =>
          (InstallAikbt.run h
             ((if u =? 0 then [] else ["sudo"]) ++ update_alternatives_lldb)
             false ;;
           print "OK: update-alternatives attempted (lldb -> lldb-15)") w
        | None => (Raise (PyError "AttributeError"), w)
        end
      | None =>
        (Ok tt,
         say "NOTE: /usr/bin/lldb-15 not found; skipping update-alternatives step."
           w)
      end
    else (Ok tt, say "NOTE: update-alternatives not found; skipping." w).
Proof.
  unfold InstallAikbt.setup_update_alternatives, InstallAikbt.have_cmd,
    have_on, InstallAikbt.is_root, path_exists.
  unfold mbind at 1. unfold M_bind at 1. unfold bind at 1.
  destruct (which h "update-alternatives" w); cbn [negb]; [|reflexivity].
  unfold mbind at 1. unfold M_bind at 1. unfold bind at 1.
  destruct (node_at (disk w) ["usr"; "bin"; "lldb-15"]); cbn [negb];
    [|reflexivity].
  destruct (euid h) as [u|]; [|reflexivity].
  unfold mbind at 1. unfold M_bind at 1. unfold bind at 1.
  unfold mret at 1. unfold M_ret at 1. unfold ret at 1.
  destruct (u =? 0); reflexivity.
Qed.

End Unchecked.

Module UncheckedRuns.
Import Py Sys SysFacts Obs ProcFacts FailFast Probing ScriptsFailFast Examples
  Privilege Unchecked.

Lemma unchecked_nil : forall cmd check code,
  Exec cmd check code ∈ @nil event -> check = false.
Proof. intros cmd check code H. inversion H. Qed.

Lemma unchecked_app (l1 l2 : list event) :
  (forall cmd check code, Exec cmd check code ∈ l1 -> check = false) ->
  (forall cmd check code, Exec cmd check code ∈ l2 -> check = false) ->
  forall cmd check code, Exec cmd check code ∈ l1 ++ l2 -> check = false.
Proof.
  intros H1 H2 cmd check code Hin. apply elem_of_app in Hin.
  destruct Hin; [eapply H1|eapply H2]; eassumption.
Qed.

Lemma ignores_ret {A} (a : A) : always ignores_failures (mret a).
Proof.
  intros w. exists []. rewrite app_nil_r. split; [reflexivity|].
  split; [apply unchecked_nil|exact I].
Qed.

Lemma ignores_print msg : always ignores_failures (print msg).
Proof.
  intros w. exists [Printed msg]. split; [reflexivity|]. split; [|exact I].
  intros cmd check code Hin. apply list_elem_of_singleton in Hin.
  discriminate.
Qed.

Lemma ignores_silent {A} (m : M A) :
  always silent m -> always ignores_failures m.
Proof.
  intros H w. destruct (H w) as (E & Hr).
  exists []. rewrite app_nil_r. split; [exact E|].
  split; [apply unchecked_nil|].
  destruct (fst (m w)) as [a|[c|c cmd|n]]; try contradiction; exact I.
Qed.

Lemma ignores_bind {A B} (m : M A) (k : A -> M B) :
  always ignores_failures m -> (forall a, always ignores_failures (k a)) ->
  always ignores_failures (m ≫= k).
Proof.
  intros Hm Hk w. specialize (Hm w). unfold mbind, M_bind, bind.
  destruct (m w) as [[a|e] w1]; cbn [fst snd] in *.
  - destruct Hm as (l1 & E1 & H1 & _). specialize (Hk a w1).
    destruct (k a w1) as [r w2]. cbn [fst snd] in *.
    destruct Hk as (l2 & E2 & H2 & Hr).
    exists (l1 ++ l2). split; [rewrite E2, E1, app_assoc; reflexivity|].
    split; [apply unchecked_app; assumption|exact Hr].
  - destruct Hm as (l1 & E1 & H1 & Hr). exists l1.
    split; [exact E1|]. split; [exact H1|].
    destruct e; try contradiction; exact I.
Qed.

Lemma ignores_for_each {A} (xs : list A) (body : A -> M unit) :
  (forall x, always ignores_failures (body x)) ->
  always ignores_failures (for_each xs body).
Proof.
  intros Hb. induction xs as [|x rest IH]; cbn [for_each].
  - apply (ignores_ret tt).
  - apply (ignores_bind (body x)); [apply Hb|intros _; exact IH].
Qed.

Lemma ignores_run_unchecked h cmd :
  always ignores_failures (subprocess_run h cmd false).
Proof.
  intros w. destruct (subprocess_run_eq h cmd false w) as (code & d & -> & _).
  cbn [fst snd log]. exists [Exec cmd false code]. split; [reflexivity|].
  split.
  - intros cmd' check code' Hin. apply list_elem_of_singleton in Hin.
    injection Hin as _ -> _. reflexivity.
  - rewrite unchecked_outcome. destruct code; exact I.
Qed.

Ltac ignore_step :=
  lazymatch goal with
  | |- always _ (mret _) => apply ignores_ret
  | |- always _ (print _) => apply ignores_print
  | |- always _ (subprocess_run _ _ false) => apply ignores_run_unchecked
  | |- always _ (for_each _ _) => apply ignores_for_each
  | |- always _ (have_on _ _) => apply ignores_silent; apply silent_have
  | |- always _ (path_exists _) => apply ignores_silent; apply silent_path_exists
  | |- always _ (InstallAikbt.is_root _) =>
    apply ignores_silent; apply silent_aikbt_is_root
  | |- always _ (mbind _ _) => apply ignores_bind
  | |- always _ (match ?x with Some _ => _ | None => _ end) => destruct x
  | |- always _ (let '(_, _) := ?x in _) => destruct x
  | |- always _ (if ?b then _ else _) => destruct b
  | |- forall _ : _, always _ _ => intro
  end.

Lemma ignores_setup_update_alternatives h :
  always ignores_failures (InstallAikbt.setup_update_alternatives h).
Proof.
  unfold InstallAikbt.setup_update_alternatives, InstallAikbt.have_cmd,
    InstallAikbt.run.
  repeat ignore_step.
Qed.

Lemma ignores_install_on_windows h :
  always ignores_failures (SetupTools.install_on_windows h).
Proof.
  unfold SetupTools.install_on_windows, SetupTools.have, SetupTools.run.
  repeat ignore_step.
Qed.


Lemma last_event_eq (l l' : list event) before :
  before ++ l = before ++ l' -> l = l'.
Proof. apply app_inv_head. Qed.

Lemma update_alternatives_proceeds h w l cmd k :
  log (snd (InstallAikbt.setup_update_alternatives h w)) = log w ++ l ->
  Exec cmd false (Some k) ∈ l ->
  fst (InstallAikbt.setup_update_alternatives h w) = Ok tt
  /\ last l
     = Some (Printed "OK: update-alternatives attempted (lldb -> lldb-15)").
Proof.
  rewrite setup_update_alternatives_eq.
  destruct (which h "update-alternatives" w).
  2:{ cbn [fst snd log say]. intros E Hin. apply app_inv_head in E. subst l.
      apply list_elem_of_singleton in Hin. discriminate. }
  destruct (node_at (disk w) ["usr"; "bin"; "lldb-15"]).
  2:{ cbn [fst snd log say]. intros E Hin. apply app_inv_head in E. subst l.
      apply list_elem_of_singleton in Hin. discriminate. }
  destruct (euid h) as [u|].
  2:{ cbn [fst snd]. intros E Hin. rewrite <- (app_nil_r (log w)) in E at 1.
      apply app_inv_head in E. subst l. inversion Hin. }
  unfold mbind, M_bind, bind.
  destruct (aikbt_run_log h ((if u =? 0 then [] else ["sudo"])
                             ++ update_alternatives_lldb) false w)
    as (code & d & msg & ->).
  rewrite unchecked_outcome. destruct code as [c|]; cbn [fst snd log print emit].
  - intros E Hin. rewrite <- app_assoc in E. apply app_inv_head in E.
    subst l. split; reflexivity.
  - intros E Hin. apply app_inv_head in E. subst l.
    apply elem_of_cons in Hin. destruct Hin as [Hin|Hin]; [discriminate|].
    apply list_elem_of_singleton in Hin. discriminate.
Qed.

Lemma setup_run_unchecked h cmd (k after : M unit) w :
  exists code d msg,
    (((SetupTools.run h cmd false ;; mret tt) ;; k) ;; after) w
    = match code with
      | Some c =>
        (k ;; after) (World d (log w ++ [Printed msg; Exec cmd false (Some c)]))
      | None =>
        (Raise (PyError "OSError"),
         World d (log w ++ [Printed msg; Exec cmd false None]))
      end.
Proof.
  destruct (setup_run_log h cmd false w) as (code & d & msg & E).
  exists code, d, msg. unfold mbind, M_bind, bind, mret, M_ret, ret.
  rewrite E, unchecked_outcome. destruct code; reflexivity.
Qed.

Lemma install_on_windows_proceeds h w l :
  log (snd (SetupTools.install_on_windows h w)) = log w ++ l ->
  which h "winget" w = true ->
  (forall cmd check, Exec cmd check None ∉ l) ->
  fst (SetupTools.install_on_windows h w) = Ok tt
  /\ commands l
     = map winget_install ["zyedidia.micro"; "LLVM.LLVM"; "cURL.cURL"]
  /\ last l
     = Some (Printed "   Best option: use WSL (Ubuntu) and install asciinema there.").
Proof.
  intros E Hw Hs.
  set (notes :=
    print (SetupTools.nl +:+ "ℹ️ asciinema is not commonly available for native Windows.") ;;
    print "   Best option: use WSL (Ubuntu) and install asciinema there.").
  set (k3 := (mret tt ;; mret tt) : M unit).
  set (k2 := ((SetupTools.run h (winget_install "cURL.cURL") false ;; mret tt)
              ;; k3) : M unit).
  set (k1 := ((SetupTools.run h (winget_install "LLVM.LLVM") false ;; mret tt)
              ;; k2) : M unit).
  assert (Eq : SetupTools.install_on_windows h w =
    (((SetupTools.run h (winget_install "zyedidia.micro") false ;; mret tt)
      ;; k1) ;; notes) w).
  { unfold SetupTools.install_on_windows, SetupTools.have, have_on.
    unfold mbind at 1. unfold M_bind at 1. unfold bind at 1.
    rewrite Hw. reflexivity. }
  rewrite Eq in E |- *. clear Eq.
  destruct (setup_run_unchecked h (winget_install "zyedidia.micro") k1 notes w)
    as (c1 & d1 & m1 & E1).
  rewrite E1 in E |- *. clear E1. destruct c1 as [c1|].
  2:{ exfalso. cbn [snd log] in E. apply app_inv_head in E. subst l.
      apply (Hs (winget_install "zyedidia.micro") false).
      apply list_elem_of_further. apply list_elem_of_here. }
  unfold k1 in E |- *.
  match type of E with context [mbind _ _ ?w1] =>
    destruct (setup_run_unchecked h (winget_install "LLVM.LLVM") k2 notes w1)
      as (c2 & d2 & m2 & E2) end.
  rewrite E2 in E |- *. clear E2. destruct c2 as [c2|].
  2:{ exfalso. cbn [snd log] in E. rewrite <- app_assoc in E.
      apply app_inv_head in E. subst l.
      apply (Hs (winget_install "LLVM.LLVM") false).
      do 3 apply list_elem_of_further. apply list_elem_of_here. }
  unfold k2 in E |- *.
  match type of E with context [mbind _ _ ?w1] =>
    destruct (setup_run_unchecked h (winget_install "cURL.cURL") k3 notes w1)
      as (c3 & d3 & m3 & E3) end.
  rewrite E3 in E |- *. clear E3. destruct c3 as [c3|].
  2:{ exfalso. cbn [snd log] in E. rewrite <- !app_assoc in E.
      apply app_inv_head in E. subst l.
      apply (Hs (winget_install "cURL.cURL") false).
      do 5 apply list_elem_of_further. apply list_elem_of_here. }
  unfold k3, notes in E |- *.
  unfold mbind, M_bind, bind, mret, M_ret, ret, print, emit in E |- *.
  cbn [fst snd log disk] in E |- *.
  rewrite <- !app_assoc in E. apply app_inv_head in E. subst l.
  split; [reflexivity|]. split; reflexivity.
Qed.

(** C9: [update-alternatives] in install_aikbt.py and every [winget install]
    in setup_tools.py are run without failure checking: the functions that
    run them raise neither [CalledProcessError] nor [SystemExit]; once
    [update-alternatives] has run, with whatever exit code, the function
    prints its last message and returns; and with winget present and every
    command started, all three installs are run, whatever their exit codes,
    and the function prints its notes and returns. *)
Theorem unchecked_failures_ignored h w :
  (ignores_failures w (fst (InstallAikbt.setup_update_alternatives h w))
     (snd (InstallAikbt.setup_update_alternatives h w))
   /\ forall l cmd k,
        log (snd (InstallAikbt.setup_update_alternatives h w)) = log w ++ l ->
        Exec cmd false (Some k) ∈ l ->
        fst (InstallAikbt.setup_update_alternatives h w) = Ok tt
        /\ last l
           = Some (Printed "OK: update-alternatives attempted (lldb -> lldb-15)"))
  /\ (ignores_failures w (fst (SetupTools.install_on_windows h w))
        (snd (SetupTools.install_on_windows h w))
      /\ forall l,
           log (snd (SetupTools.install_on_windows h w)) = log w ++ l ->
           which h "winget" w = true ->
           (forall cmd check, Exec cmd check None ∉ l) ->
           fst (SetupTools.install_on_windows h w) = Ok tt
           /\ commands l
              = map winget_install ["zyedidia.micro"; "LLVM.LLVM"; "cURL.cURL"]
           /\ last l
              = Some (Printed "   Best option: use WSL (Ubuntu) and install asciinema there.")).
Proof.
  split; split.
  - apply ignores_setup_update_alternatives.
  - apply update_alternatives_proceeds.
  - apply ignores_install_on_windows.
  - apply install_on_windows_proceeds.
Qed.


Lemma unchecked_failures_ignored_witness :
  Exec (winget_install "LLVM.LLVM") false (Some 5)
    ∈ log (snd (SetupTools.install_on_windows
                  (windows_winget [("winget", 5)]) empty_world))
  /\ fst (SetupTools.install_on_windows
            (windows_winget [("winget", 5)]) empty_world) = Ok tt
  /\ fst (SetupTools.script (windows_winget [("winget", 5)]) empty_world) = 0.
Proof.
  split; [|split].
  - vm_compute.
    repeat first [apply list_elem_of_here|apply list_elem_of_further].
  - refine (proj1 (proj2 (proj2 (unchecked_failures_ignored
                                   (windows_winget [("winget", 5)])
                                   empty_world))
                     (log (snd (SetupTools.install_on_windows
                                  (windows_winget [("winget", 5)])
                                  empty_world)))
                     eq_refl eq_refl _)).
    intros cmd check. vm_compute. intros Hin.
    repeat (apply elem_of_cons in Hin; destruct Hin as [Hin|Hin];
            [discriminate Hin|]).
    inversion Hin.
  - vm_compute. reflexivity.
Defined.

End UncheckedRuns.

(** ** Every privileged command *)

Module PrivilegedCommands.
Import Py Sys SysFacts Obs ProcFacts Frame Examples Privilege Unchecked.

Lemma runs_only_refl P w : runs_only P w w.
Proof. exists []. rewrite app_nil_r. split; [reflexivity|constructor]. Qed.

Lemma runs_only_trans P a b c :
  runs_only P a b -> runs_only P b c -> runs_only P a c.
Proof.
  intros (l1 & E1 & H1) (l2 & E2 & H2). exists (l1 ++ l2).
  split; [rewrite E2, E1, app_assoc; reflexivity|].
  rewrite commands_app. apply Forall_app. split; assumption.
Qed.

Lemma runs_only_print P msg : preserves (runs_only P) (print msg).
Proof.
  intros w r w' [= _ <-]. exists [Printed msg].
  split; [reflexivity|constructor].
Qed.

Lemma runs_only_path_exists P p : preserves (runs_only P) (path_exists p).
Proof. intros w r w' [= _ <-]. apply runs_only_refl. Qed.

Lemma runs_only_setup_run (P : list string -> Prop) h cmd check :
  P cmd -> preserves (runs_only P) (SetupTools.run h cmd check).
Proof.
  intros Hp w r w'.
  destruct (setup_run_log h cmd check w) as (code & d & msg & ->).
  intros [= _ <-]. exists [Printed msg; Exec cmd check code].
  split; [reflexivity|]. repeat constructor. exact Hp.
Qed.

Lemma runs_only_aikbt_run (P : list string -> Prop) h cmd check :
  P cmd -> preserves (runs_only P) (InstallAikbt.run h cmd check).
Proof.
  intros Hp w r w'.
  destruct (aikbt_run_log h cmd check w) as (code & d & msg & ->).
  intros [= _ <-]. exists [Printed msg; Exec cmd check code].
  split; [reflexivity|]. repeat constructor. exact Hp.
Qed.

(** The links of [symlink_cli_tools_linux_shared], given the prefix. *)
Lemma runs_only_links h venv_path prefix :
  preserves (runs_only (fun c => exists src dst,
                          c = prefix ++ ["ln"; "-sf"; src; dst]))
    (for_each ["check50"; "style50"; "submit50"] (fun tool =>
       let src := venv_path ++ ["bin"; tool] in
       let dst := ["usr"; "local"; "bin"] ++ [tool] in
       ex ← path_exists src;
       if ex : bool
       then SetupTools.run h (prefix ++ ["ln"; "-sf"; SetupTools.show h src;
                                         SetupTools.show h dst]) true ;;
            mret tt
       else print ("⚠️ Tool not found in venv (skipping link): "
                   +:+ SetupTools.show h src))).
Proof.
  apply preserves_for_each; try apply runs_only_refl;
    try apply runs_only_trans.
  intros tool. cbv zeta.
  apply preserves_bind; try apply runs_only_trans;
    [apply runs_only_path_exists|].
  intros ex. destruct ex.
  - apply preserves_bind; try apply runs_only_trans.
    + apply runs_only_setup_run. eexists _, _. reflexivity.
    + intros _. apply preserves_ret. apply runs_only_refl.
  - apply runs_only_print.
Qed.

Lemma symlink_commands h venv_path w :
  let r := SetupTools.symlink_cli_tools_linux_shared h venv_path w in
  if SetupTools.is_root h || which h "sudo" w then
    runs_only (fun c => exists src dst,
                 c = (if SetupTools.is_root h then [] else ["sudo"])
                     ++ ["ln"; "-sf"; src; dst]) w (snd r)
  else
    commands (log (snd r)) = commands (log w)
    /\ (SetupTools.is_linux h = true -> venv_path = ["opt"; "course-venv"] ->
        fst r = Raise (SystemExit 1)).
Proof.
  cbv zeta.
  assert (E : SetupTools.symlink_cli_tools_linux_shared h venv_path w =
    if negb (SetupTools.is_linux h) then (Ok tt, w)
    else if negb (bool_decide (venv_path = ["opt"; "course-venv"]))
    then (Ok tt, w)
    else
      match SetupTools.ensure_admin_linux h w with
      | (Ok prefix, w1) =>
        for_each ["check50"; "style50"; "submit50"] (fun tool =>
          let src := venv_path ++ ["bin"; tool] in
          let dst := ["usr"; "local"; "bin"] ++ [tool] in
          ex ← path_exists src;
          if ex : bool
          then SetupTools.run h (prefix ++ ["ln"; "-sf"; SetupTools.show h src;
                                            SetupTools.show h dst]) true ;;
               mret tt
          else print ("⚠️ Tool not found in venv (skipping link): "
                      +:+ SetupTools.show h src)) w1
      | (Raise e, w1) => (Raise e, w1)
      end).
  { unfold SetupTools.symlink_cli_tools_linux_shared.
    destruct (SetupTools.is_linux h); [|reflexivity].
    destruct (bool_decide (venv_path = ["opt"; "course-venv"])); reflexivity. }
  rewrite E. clear E. rewrite ensure_admin_linux_eq.
  destruct (SetupTools.is_linux h); cbn [negb].
  2:{ destruct (SetupTools.is_root h || which h "sudo" w).
      - apply runs_only_refl.
      - split; [reflexivity|discriminate]. }
  destruct (bool_decide (venv_path = ["opt"; "course-venv"])) eqn:Ev;
    cbn [negb].
  2:{ apply bool_decide_eq_false in Ev.
      destruct (SetupTools.is_root h || which h "sudo" w).
      - apply runs_only_refl.
      - split; [reflexivity|]. intros _ E. contradiction. }
  destruct (SetupTools.is_root h); cbn [orb].
  - destruct (for_each _ _ w) as [r w'] eqn:E. cbn [snd].
    exact (runs_only_links h venv_path [] w r w' E).
  - destruct (which h "sudo" w).
    + destruct (for_each _ _ w) as [r w'] eqn:E. cbn [snd].
      exact (runs_only_links h venv_path ["sudo"] w r w' E).
    + cbn [fst snd log]. split; [|reflexivity].
      rewrite commands_app. cbn. apply app_nil_r.
Qed.

Lemma update_alternatives_commands h w :
  match euid h with
  | Some u =>
    runs_only (fun c => c = (if u =? 0 then [] else ["sudo"])
                            ++ update_alternatives_lldb)
      w (snd (InstallAikbt.setup_update_alternatives h w))
  | None =>
    commands (log (snd (InstallAikbt.setup_update_alternatives h w)))
    = commands (log w)
  end.
Proof.
  rewrite setup_update_alternatives_eq.
  destruct (euid h) as [u|].
  - destruct (which h "update-alternatives" w);
      [|exists [Printed "NOTE: update-alternatives not found; skipping."];
        split; [reflexivity|constructor]].
    destruct (node_at (disk w) ["usr"; "bin"; "lldb-15"]);
      [|eexists [Printed _]; split; [reflexivity|constructor]].
    match goal with |- context [mbind ?k ?m w] =>
      destruct (mbind k m w) as [r w'] eqn:E end.
    cbn [snd]. revert E.
    apply preserves_bind; try apply runs_only_trans.
    + apply runs_only_aikbt_run. reflexivity.
    + intros _. apply runs_only_print.
  - destruct (which h "update-alternatives" w);
      [|cbn [snd log say]; rewrite commands_app; cbn; apply app_nil_r].
    destruct (node_at (disk w) ["usr"; "bin"; "lldb-15"]);
      [reflexivity
      |cbn [snd log say]; rewrite commands_app; cbn; apply app_nil_r].
Qed.

(** C3: a privileged command is run as it is by the superuser, with exactly
    one [sudo] in front by another user who has [sudo] on the path, and not at
    all by another user who has not: then the process exits with code 1
    after a diagnostic.  This holds of [ensure_admin_linux] and the commands
    of [install_on_ubuntu] in setup_tools.py and of [apt_install] in
    install_aikbt.py; the links made by [symlink_cli_tools_linux_shared]
    and the [update-alternatives] command carry the same prefix. *)
Theorem privilege_aware_execution h w :
  SetupTools.ensure_admin_linux h w
  = (if SetupTools.is_root h then (Ok [], w)
     else if which h "sudo" w then (Ok ["sudo"], w)
     else (Raise (SystemExit 1),
           World (disk w)
             (log w ++
              [Printed "❌ sudo is not installed and you are not root.";
               Printed "   First run must be as root (or via provider console):";
               Printed "     python3 setup_tools.py"])))
  /\ (if SetupTools.is_root h || which h "sudo" w then
        exists k, (1 <= k <= 2)%nat /\
          commands (log (snd (SetupTools.install_on_ubuntu h w)))
          = commands (log w)
            ++ take k (map (app (if SetupTools.is_root h then [] else ["sudo"]))
                         [["apt-get"; "update"; "-y"];
                          ["apt-get"; "install"; "-y"]
                            ++ SetupTools.APT_PACKAGES])
      else
        fst (SetupTools.install_on_ubuntu h w) = Raise (SystemExit 1)
        /\ commands (log (snd (SetupTools.install_on_ubuntu h w)))
           = commands (log w))
  /\ (forall packages,
        match euid h with
        | None =>
          InstallAikbt.apt_install h packages w
          = (Raise (PyError "AttributeError"), w)
        | Some u =>
          if (u =? 0) || which h "sudo" w then
            exists k, (1 <= k <= 2)%nat /\
              commands (log (snd (InstallAikbt.apt_install h packages w)))
              = commands (log w)
                ++ take k (map (app (if u =? 0 then [] else ["sudo"]))
                             [["apt"; "update"];
                              ["apt"; "install"; "-y"] ++ packages])
          else
            InstallAikbt.apt_install h packages w
            = (Raise (SystemExit 1),
               World (disk w)
                 (log w ++
                  [Printed "ERROR: sudo not found. Install sudo as root, or run this script as root."]))
        end)
  /\ (forall venv_path,
        let r := SetupTools.symlink_cli_tools_linux_shared h venv_path w in
        if SetupTools.is_root h || which h "sudo" w then
          runs_only (fun c => exists src dst,
                       c = (if SetupTools.is_root h then [] else ["sudo"])
                           ++ ["ln"; "-sf"; src; dst]) w (snd r)
        else
          commands (log (snd r)) = commands (log w)
          /\ (SetupTools.is_linux h = true ->
              venv_path = ["opt"; "course-venv"] ->
              fst r = Raise (SystemExit 1)))
  /\ match euid h with
     | Some u =>
       runs_only (fun c => c = (if u =? 0 then [] else ["sudo"])
                               ++ update_alternatives_lldb)
         w (snd (InstallAikbt.setup_update_alternatives h w))
     | None =>
       commands (log (snd (InstallAikbt.setup_update_alternatives h w)))
       = commands (log w)
     end.
Proof.
  split; [apply ensure_admin_linux_eq|].
  split; [apply install_on_ubuntu_commands|].
  split; [intros packages; apply apt_install_commands|].
  split; [intros venv_path; apply symlink_commands|].
  apply update_alternatives_commands.
Qed.

Lemma privilege_aware_execution_witness :
  fst (SetupTools.symlink_cli_tools_linux_shared ubuntu_user_no_sudo
         ["opt"; "course-venv"] empty_world)
  = Raise (SystemExit 1).
Proof.
  apply (proj1 (proj2 (proj2 (proj2 (privilege_aware_execution
                                       ubuntu_user_no_sudo empty_world))))
           ["opt"; "course-venv"]); reflexivity.
Defined.



End PrivilegedCommands.

(** ** More on line insertion *)

Module MoreLines.
Import Py Sys PyFacts TextFacts SysFacts InstallAikbt Obs EnsureFacts
  AppendFacts RunFacts EnsureRun Frame Examples LineInsertion.

(** No line of [splitlines] holds a line boundary. *)
Lemma splitlines_no_break_len : forall n s, (length s <= n)%nat ->
  Forall no_break (splitlines s).
Proof.
  induction n as [|n IH]; intros s Hn.
  { destruct s; [constructor|simpl in Hn; lia]. }
  destruct s as [|c t]; [constructor|]. cbn [length] in Hn.
  cbn [splitlines]. destruct (is_linebreak c) eqn:Eb.
  - constructor; [constructor|].
    destruct t as [|d t']; [constructor|]. cbn [length] in Hn.
    destruct ((c =? CR) && (d =? LF)); apply IH; cbn [length]; lia.
  - pose proof (IH t ltac:(lia)) as Ht.
    destruct (splitlines t) as [|l ls].
    + constructor; [|constructor]. constructor; [exact Eb|constructor].
    + inversion Ht as [|? ? Hl Hls]. subst. constructor; [|exact Hls].
      constructor; [exact Eb|exact Hl].
Qed.

Lemma splitlines_no_break s : Forall no_break (splitlines s).
Proof. apply (splitlines_no_break_len (length s)). lia. Qed.

(** A string that holds a line boundary is no line of any text. *)
Lemma broken_line_absent s line :
  existsb is_linebreak line = true -> contains (splitlines s) line = false.
Proof.
  intros Hb. unfold contains. apply bool_decide_eq_false. intros Hin.
  pose proof (splitlines_no_break s) as H. rewrite Forall_forall in H.
  specialize (H line Hin). apply existsb_exists in Hb.
  destruct Hb as (c & Hc & Hbc). unfold no_break in H.
  rewrite Forall_forall in H. apply list_elem_of_In in Hc.
  rewrite (H c Hc) in Hbc. discriminate.
Qed.

(** The lines of the text once the line is appended: the old lines, at most
    one empty line, the new line. *)
Lemma lines_after_append_shape old line :
  is_line line = true ->
  exists mid,
    splitlines (file_text old ++ separator old ++ line ++ [LF])
    = splitlines (file_text old) ++ mid ++ [line]
    /\ (mid = [] \/ mid = [[]]).
Proof.
  intros Hline. destruct (is_line_spec _ Hline) as [Hne Hnb].
  pose proof (un_is_no_cr (decode_ignore old)) as Hcr.
  fold (file_text old) in Hcr.
  destruct (separator_cases old) as [[-> [Ht|He]]|[-> [Ht He]]]; cbn [app].
  - exists []. rewrite Ht. cbn [app]. rewrite (splitlines_line _ Hnb).
    split; [reflexivity|left; reflexivity].
  - exists []. destruct (endswith_LF_true _ He) as [s0 Hs0].
    rewrite (splitlines_app_break (file_text old) LF);
      [|exact Hcr|rewrite Hs0; apply last_snoc|reflexivity].
    rewrite (splitlines_line _ Hnb). split; [reflexivity|left; reflexivity].
  - change (file_text old ++ LF :: line ++ [LF])
      with (file_text old ++ [LF] ++ line ++ [LF]).
    rewrite app_assoc.
    rewrite (splitlines_app_break (file_text old ++ [LF]) LF);
      [|apply no_cr_app; [exact Hcr|repeat constructor; discriminate]
       |apply last_snoc|reflexivity].
    rewrite (splitlines_line _ Hnb).
    destruct (last (file_text old)) as [c|] eqn:Hl.
    + destruct (is_linebreak c) eqn:Hb.
      * exists [[]].
        rewrite (splitlines_app_break (file_text old) c) by assumption.
        change (splitlines [LF]) with [@nil Z]. rewrite <- app_assoc.
        split; [reflexivity|right; reflexivity].
      * exists [].
        rewrite (splitlines_terminate (file_text old) c) by assumption.
        split; [reflexivity|left; reflexivity].
    + apply last_None in Hl. congruence.
Qed.


Lemma ensure_run_log p line bl w wm :
  mkdir_parents (parent p) w = (Ok tt, wm) -> encode line = Some bl ->
  node_at (disk w) p <> Some Dir ->
  contains (lines_at (disk w) p) line = false ->
  log (snd (ensure_line_in_file p line w))
  = log w ++ [Printed ("OK: Added line to " +:+ show_posix p)].
Proof.
  intros Hm Hl Hn Hin.
  rewrite (ensure_line_in_file_eq p line bl w wm Hm Hl).
  pose proof (mkdir_parents_node _ _ _ _ Hm) as Hnode.
  pose proof (mkdir_walk_log _ _ _ _ _ Hm) as Hlog.
  unfold lines_at, content in Hin. rewrite Hnode.
  destruct (node_at (disk w) p) as [[|old]|]; [congruence| |].
  - rewrite Hin. cbn [snd log]. rewrite Hlog. reflexivity.
  - cbn [snd log]. rewrite Hlog. reflexivity.
Qed.

(** X1: a call that appends a line of text keeps the lines read from the
    file in their order and puts the new line last, after at most one empty
    line; it prints one message. *)
Theorem appended_line_is_last p line bl w :
  is_line line = true -> encode line = Some bl ->
  can_hold (disk w) p = true ->
  contains (lines_at (disk w) p) line = false ->
  exists w1 mid,
    ensure_line_in_file p line w = (Ok tt, w1)
    /\ lines_at (disk w1) p = lines_at (disk w) p ++ mid ++ [line]
    /\ (mid = [] \/ mid = [[]])
    /\ log w1 = log w ++ [Printed ("OK: Added line to " +:+ show_posix p)].
Proof.
  intros Hline Hl Hc Hin.
  destruct (ensure_run p line bl w Hc Hl) as (w1 & Hrun & Hcont & _).
  destruct (can_hold_spec _ _ Hc) as (Hb & Hn & Hp).
  destruct (mkdir_walk_ok _ _ _ Hb) as [wm Hm].
  pose proof (ensure_run_log p line bl w wm Hm Hl Hn Hin) as Hlog.
  rewrite Hrun in Hlog. cbn [snd] in Hlog.
  rewrite lines_at_default in Hin. unfold after_run in Hcont.
  rewrite Hin in Hcont.
  destruct (lines_after_append_shape (default [] (content (disk w) p)) line
              Hline) as (mid & Hs & Hmid).
  exists w1, mid. split; [exact Hrun|]. split; [|split; [exact Hmid|exact Hlog]].
  unfold lines_at at 1. rewrite Hcont.
  rewrite (text_after_append _ _ _ Hline Hl), Hs.
  rewrite <- lines_at_default. reflexivity.
Qed.

Lemma appended_line_is_last_witness :
  exists w1 mid,
    ensure_line_in_file lldbinit import_line (with_file (text "settings"))
    = (Ok tt, w1)
    /\ lines_at (disk w1) lldbinit
       = lines_at (disk (with_file (text "settings"))) lldbinit
         ++ mid ++ [import_line]
    /\ (mid = [] \/ mid = [[]])
    /\ log w1
       = log (with_file (text "settings"))
         ++ [Printed ("OK: Added line to " +:+ show_posix lldbinit)].
Proof.
  apply (appended_line_is_last lldbinit import_line import_line
           (with_file (text "settings"))); vm_compute; reflexivity.
Defined.

(** X2: a string that holds a line boundary is never found among the lines
    of the file, so every call appends it again. *)
Theorem multiline_always_appends p line bl w :
  existsb is_linebreak line = true -> encode line = Some bl ->
  can_hold (disk w) p = true ->
  exists w1,
    ensure_line_in_file p line w = (Ok tt, w1)
    /\ content (disk w1) p
       = Some (default [] (content (disk w) p)
               ++ separator (default [] (content (disk w) p)) ++ bl ++ [LF])
    /\ can_hold (disk w1) p = true.
Proof.
  intros Hb Hl Hc.
  destruct (ensure_run p line bl w Hc Hl) as (w1 & Hrun & Hcont & Hd & _).
  exists w1. split; [exact Hrun|]. unfold after_run in Hcont.
  rewrite (broken_line_absent _ _ Hb) in Hcont. split; [exact Hcont|].
  apply can_hold_dirs; [exact Hd|]. unfold content in Hcont.
  destruct (node_at (disk w1) p) as [[|b]|]; discriminate.
Qed.

Lemma multiline_always_appends_witness :
  exists w2,
    (ensure_line_in_file lldbinit two_lines ;;
     ensure_line_in_file lldbinit two_lines) fresh = (Ok tt, w2)
    /\ content (disk w2) lldbinit
       = Some (two_lines ++ [LF] ++ two_lines ++ [LF]).
Proof.
  destruct (multiline_always_appends lldbinit two_lines two_lines fresh)
    as (w1 & H1 & C1 & Hc1); try (vm_compute; reflexivity).
  destruct (multiline_always_appends lldbinit two_lines two_lines w1)
    as (w2 & H2 & C2 & _); [reflexivity|reflexivity|exact Hc1|].
  exists w2. split.
  - rewrite (bind_ok _ _ _ _ _ H1). exact H2.
  - rewrite C2, C1. vm_compute. reflexivity.
Defined.

End MoreLines.

Module Reruns.
Import Py Sys PyFacts TextFacts SysFacts InstallAikbt Obs EnsureFacts
  AppendFacts RunFacts EnsureRun Frame Examples LineInsertion MoreLines.

Lemma mkdir_walk_blocked todo : forall done w,
  blocked (disk w) done todo = true ->
  exists w1, mkdir_walk done todo w = (Raise (PyError "FileExistsError"), w1).
Proof.
  induction todo as [|c rest IH]; intros done w Hb; [discriminate|].
  rewrite mkdir_walk_cons. cbn [blocked] in Hb.
  destruct (disk w !! (done ++ [c])) as [[|b]|] eqn:E.
  - apply IH. exact Hb.
  - exists w. reflexivity.
  - apply IH. cbn [disk]. rewrite blocked_insert by lia. exact Hb.
Qed.

(** X3: where the path cannot hold a file (one of its directories is a
    regular file, or the path is a directory) the call raises an error,
    prints nothing and leaves every node that exists, and the path itself,
    as they were. *)
Theorem ensure_line_needs_place p line w :
  can_hold (disk w) p = false ->
  exists name w1,
    ensure_line_in_file p line w = (Raise (PyError name), w1)
    /\ log w1 = log w
    /\ node_at (disk w1) p = node_at (disk w) p
    /\ (forall q n, disk w !! q = Some n -> disk w1 !! q = Some n).
Proof.
  intros Hc. unfold can_hold in Hc. apply andb_false_iff in Hc.
  destruct (blocked (disk w) [] (parent p)) eqn:Hb.
  - destruct (mkdir_walk_blocked _ _ _ Hb) as [w1 Hm].
    change (mkdir_walk [] (parent p) w) with (mkdir_parents (parent p) w) in Hm.
    exists "FileExistsError", w1. unfold ensure_line_in_file.
    rewrite (bind_raise _ _ _ _ _ Hm). split; [reflexivity|].
    split; [exact (mkdir_walk_log _ _ _ _ _ Hm)|].
    split; [exact (mkdir_parents_node _ _ _ _ Hm)|].
    intros q n. exact (mkdir_walk_keeps _ _ _ _ _ q n Hm).
  - destruct Hc as [Hc|Hc]; [discriminate|].
    destruct (mkdir_walk_ok _ _ _ Hb) as [wm Hm].
    change (mkdir_walk [] (parent p) w) with (mkdir_parents (parent p) w) in Hm.
    pose proof (mkdir_parents_node _ _ _ _ Hm) as Hnode.
    destruct (node_at (disk w) p) as [[|b]|] eqn:E; try discriminate.
    exists "IsADirectoryError", wm. unfold ensure_line_in_file.
    rewrite (bind_ok _ _ _ _ _ Hm).
    split.
    { unfold path_exists, read_text. run_monad.
      repeat (progress (cbn beta iota zeta; rewrite ?Hnode)). reflexivity. }
    split; [exact (mkdir_walk_log _ _ _ _ _ Hm)|].
    split; [exact Hnode|].
    intros q n. exact (mkdir_walk_keeps _ _ _ _ _ q n Hm).
Qed.

Lemma ensure_line_needs_place_witness :
  exists name w1,
    ensure_line_in_file lldbinit import_line lldbinit_is_dir
    = (Raise (PyError name), w1)
    /\ log w1 = log lldbinit_is_dir
    /\ node_at (disk w1) lldbinit = node_at (disk lldbinit_is_dir) lldbinit
    /\ (forall q n, disk lldbinit_is_dir !! q = Some n ->
        disk w1 !! q = Some n).
Proof.
  apply (ensure_line_needs_place lldbinit import_line lldbinit_is_dir).
  vm_compute. reflexivity.
Defined.

Lemma present_times p line bl old : forall n w,
  dirs_made (disk w) (parent p) -> encode line = Some bl ->
  content (disk w) p = Some old ->
  contains (splitlines (file_text old)) line = true ->
  exists wn,
    times n (ensure_line_in_file p line) w = (Ok tt, wn)
    /\ disk wn = disk w.
Proof.
  induction n as [|n IH]; intros w Hd Hl Hc Hin.
  - exists w. split; reflexivity.
  - pose proof (ensure_present_noop p line bl old w Hd Hl Hc Hin) as H1.
    destruct (IH (World (disk w)
                    (log w ++ [Printed ("OK: Line already present in "
                                        +:+ show_posix p)])) Hd Hl Hc Hin)
      as (wn & Hn & Hdisk).
    exists wn. cbn [times]. unfold bind. rewrite H1. split; assumption.
Qed.

(** X4: any number of calls, one at least, with the same line of text leave
    the disk as the first call left it. *)
Theorem ensure_line_rerun p line bl w n :
  is_line line = true -> encode line = Some bl ->
  can_hold (disk w) p = true ->
  exists w1 wn,
    ensure_line_in_file p line w = (Ok tt, w1)
    /\ times (S n) (ensure_line_in_file p line) w = (Ok tt, wn)
    /\ disk wn = disk w1.
Proof.
  intros Hline Hl Hc.
  destruct (ensure_run p line bl w Hc Hl) as (w1 & Hrun & Hcont & Hd & _).
  pose proof (after_run_present (default [] (content (disk w) p)) line bl
                Hline Hl) as Hin.
  destruct (present_times p line bl _ n w1 Hd Hl Hcont Hin) as (wn & Hn & Hdisk).
  exists w1, wn. split; [exact Hrun|]. split; [|exact Hdisk].
  cbn [times]. unfold bind. rewrite Hrun. exact Hn.
Qed.

Lemma ensure_line_rerun_witness :
  exists w1 wn,
    ensure_line_in_file lldbinit import_line (with_file (text "settings"))
    = (Ok tt, w1)
    /\ times 5 (ensure_line_in_file lldbinit import_line)
         (with_file (text "settings")) = (Ok tt, wn)
    /\ disk wn = disk w1.
Proof.
  apply (ensure_line_rerun lldbinit import_line import_line
           (with_file (text "settings")) 4); vm_compute; reflexivity.
Defined.

End Reruns.

(** ** More on the commands of install_aikbt.py *)

Module MoreCommands.
Import Py Sys SysFacts Obs ProcFacts Examples Privilege Preconditions
  Unchecked.

(** X5: once the directory of the destination is there, [download_to]
    returns exactly when [curl] is on the path, exits 0 and leaves at the
    destination something of 10 octets at least. *)
Theorem download_returns_iff h url dest w wm :
  mkdir_parents (parent dest) w = (Ok tt, wm) ->
  let cmd := ["curl"; "-fsSL"; url; "-o"; show_posix dest] in
  let w1 := say (InstallAikbt.nl +:+ ">>> " +:+ String.concat " " cmd) wm in
  fst (InstallAikbt.download_to h url dest w) = Ok tt
  <-> which h "curl" wm = true
      /\ exists out d, spawn h cmd w1 = Some (0, out, d)
                       /\ too_small h d dest = false.
Proof.
  intros Hm cmd w1.
  pose proof (download_to_eq h url dest w wm Hm) as E. cbv zeta in E.
  fold cmd in E. fold w1 in E. rewrite E. clear E.
  destruct (which h "curl" wm).
  2:{ split; [discriminate|]. intros [H _]. discriminate. }
  destruct (spawn h cmd w1) as [[[code out] d]|].
  2:{ split; [discriminate|]. intros [_ (o & d & H & _)]. discriminate. }
  cbv zeta. destruct (code =? 0) eqn:Ec.
  - apply Z.eqb_eq in Ec. subst code.
    destruct (too_small h d dest) eqn:Et.
    + split; [discriminate|]. intros [_ (o & d' & [= <- <-] & H)]. congruence.
    + split; [|reflexivity]. intros _. split; [reflexivity|].
      exists out, d. split; [reflexivity|exact Et].
  - split; [discriminate|]. intros [_ (o & d' & [= -> _ _] & _)].
    discriminate.
Qed.

Lemma download_returns_iff_witness :
  fst (InstallAikbt.download_to (ubuntu_root []) InstallAikbt.AIK_BT_URL
         ["root"; ".lldb"; "aik_bt.py"] empty_world) = Ok tt.
Proof.
  assert (Hm : mkdir_parents (parent ["root"; ".lldb"; "aik_bt.py"])
                 empty_world
               = (Ok tt, World (<[ ["root"; ".lldb"] := Dir ]>
                                  (<[ ["root"] := Dir ]> ∅)) []))
    by (vm_compute; reflexivity).
  apply (proj2 (download_returns_iff (ubuntu_root []) InstallAikbt.AIK_BT_URL
                  ["root"; ".lldb"; "aik_bt.py"] empty_world _ Hm)).
  split; [vm_compute; reflexivity|].
  exists (Some (text "tool 1.0")),
    (provisioned ["root"]
       (<[ ["root"; ".lldb"] := Dir ]> (<[ ["root"] := Dir ]> ∅))).
  split.
  - reflexivity.
  - vm_compute. reflexivity.
Defined.

(** Two commands run in sequence with failure checking: the second is run
    exactly when the first exited 0. *)
Section Sequenced.
Variable run : list string -> bool -> M Z.
Hypothesis run_log : forall cmd check w, exists code d msg,
  run cmd check w
  = (outcome cmd check code,
     World d (log w ++ [Printed msg; Exec cmd check code])).

Lemma second_after_first c1 c2 w :
  c1 <> c2 ->
  exists l,
    log (snd ((run c1 true ;; run c2 true ;; mret tt) w)) = log w ++ l
    /\ (c2 ∈ commands l <-> Exec c1 true (Some 0) ∈ l).
Proof.
  intros Hne. unfold mbind, M_bind, bind, mret, M_ret, ret.
  destruct (run_log c1 true w) as (code1 & d1 & m1 & ->).
  unfold outcome at 1. destruct code1 as [k|].
  - cbn [andb]. destruct (k =? 0) eqn:Ek; cbn [negb].
    + apply Z.eqb_eq in Ek. subst k.
      destruct (run_log c2 true
                  (World d1 (log w ++ [Printed m1; Exec c1 true (Some 0)])))
        as (code2 & d2 & m2 & ->).
      exists [Printed m1; Exec c1 true (Some 0); Printed m2;
              Exec c2 true code2].
      split.
      { destruct (outcome c2 true code2); cbn [snd log];
          rewrite <- app_assoc; reflexivity. }
      split; intros _.
      * apply list_elem_of_further. apply list_elem_of_here.
      * cbn. apply list_elem_of_further. apply list_elem_of_here.
    + exists [Printed m1; Exec c1 true (Some k)]. split; [reflexivity|].
      apply Z.eqb_neq in Ek. split.
      * cbn. intros Hin. apply list_elem_of_singleton in Hin. congruence.
      * intros Hin. apply elem_of_cons in Hin.
        destruct Hin as [Hin|Hin]; [discriminate|].
        apply list_elem_of_singleton in Hin. congruence.
  - exists [Printed m1; Exec c1 true None]. split; [reflexivity|]. split.
    + cbn. intros Hin. apply list_elem_of_singleton in Hin. congruence.
    + intros Hin. apply elem_of_cons in Hin.
      destruct Hin as [Hin|Hin]; [discriminate|].
      apply list_elem_of_singleton in Hin. discriminate.
Qed.

End Sequenced.

(** X6: [apt_install], run by the superuser or by a user with [sudo] on
    the path, runs the install command exactly when the update command
    exited 0. *)
Theorem apt_install_after_update h u packages w :
  euid h = Some u ->
  (u =? 0) || which h "sudo" w = true ->
  let prefix := if u =? 0 then [] else ["sudo"] in
  exists l,
    log (snd (InstallAikbt.apt_install h packages w)) = log w ++ l
    /\ (prefix ++ ["apt"; "install"; "-y"] ++ packages ∈ commands l
        <-> Exec (prefix ++ ["apt"; "update"]) true (Some 0) ∈ l).
Proof.
  intros Hu Hs prefix.
  assert (E : InstallAikbt.apt_install h packages w
              = (InstallAikbt.run h (prefix ++ ["apt"; "update"]) true ;;
                 InstallAikbt.run h
                   (prefix ++ ["apt"; "install"; "-y"] ++ packages) true ;;
                 mret tt) w).
  { unfold InstallAikbt.apt_install, InstallAikbt.is_root, prefix.
    rewrite Hu. unfold mbind at 1, M_bind at 1, bind at 1.
    unfold mret at 1, M_ret at 1, ret at 1.
    destruct (u =? 0).
    - reflexivity.
    - cbn [orb] in Hs. unfold InstallAikbt.have_cmd, have_on.
      unfold mbind at 1, M_bind at 1, bind at 1. rewrite Hs.
      unfold mbind at 1, M_bind at 1, bind at 1.
      unfold mret at 1, M_ret at 1, ret at 1.
      reflexivity. }
  rewrite E.
  destruct (second_after_first (InstallAikbt.run h) (aikbt_run_log h)
              (prefix ++ ["apt"; "update"])
              (prefix ++ ["apt"; "install"; "-y"] ++ packages) w)
    as (l & Hl & Hiff).
  { unfold prefix. destruct (u =? 0); discriminate. }
  exists l. split; [exact Hl|exact Hiff].
Qed.

Lemma apt_install_after_update_witness :
  exists l,
    log (snd (InstallAikbt.apt_install (ubuntu_root [("apt", 100)])
                ["curl"] empty_world)) = log empty_world ++ l
    /\ (["apt"; "install"; "-y"; "curl"] ∈ commands l
        <-> Exec ["apt"; "update"] true (Some 0) ∈ l).
Proof.
  apply (apt_install_after_update (ubuntu_root [("apt", 100)]) 0 ["curl"]
           empty_world); reflexivity.
Defined.

(** X7: [install_on_ubuntu], run by the superuser or by a user with [sudo]
    on the path, runs [apt-get install] exactly when [apt-get update]
    exited 0. *)
Theorem apt_get_install_after_update h w :
  SetupTools.is_root h || which h "sudo" w = true ->
  let prefix := if SetupTools.is_root h then [] else ["sudo"] in
  exists l,
    log (snd (SetupTools.install_on_ubuntu h w)) = log w ++ l
    /\ (prefix ++ ["apt-get"; "install"; "-y"] ++ SetupTools.APT_PACKAGES
          ∈ commands l
        <-> Exec (prefix ++ ["apt-get"; "update"; "-y"]) true (Some 0) ∈ l).
Proof.
  intros Hs prefix.
  assert (E : SetupTools.install_on_ubuntu h w
              = (SetupTools.run h (prefix ++ ["apt-get"; "update"; "-y"]) true ;;
                 SetupTools.run h
                   (prefix ++ ["apt-get"; "install"; "-y"]
                      ++ SetupTools.APT_PACKAGES) true ;;
                 mret tt) w).
  { unfold SetupTools.install_on_ubuntu.
    unfold mbind at 1, M_bind at 1, bind at 1.
    rewrite ensure_admin_linux_eq. unfold prefix.
    destruct (SetupTools.is_root h).
    - reflexivity.
    - cbn [orb] in Hs. rewrite Hs. reflexivity. }
  rewrite E.
  destruct (second_after_first (SetupTools.run h) (setup_run_log h)
              (prefix ++ ["apt-get"; "update"; "-y"])
              (prefix ++ ["apt-get"; "install"; "-y"]
                 ++ SetupTools.APT_PACKAGES) w)
    as (l & Hl & Hiff).
  { unfold prefix. destruct (SetupTools.is_root h); discriminate. }
  exists l. split; [exact Hl|exact Hiff].
Qed.

Lemma apt_get_install_after_update_witness :
  exists l,
    log (snd (SetupTools.install_on_ubuntu (ubuntu_root []) empty_world))
    = log empty_world ++ l
    /\ (["apt-get"; "install"; "-y"] ++ SetupTools.APT_PACKAGES ∈ commands l
        <-> Exec ["apt-get"; "update"; "-y"] true (Some 0) ∈ l).
Proof.
  apply (apt_get_install_after_update (ubuntu_root []) empty_world).
  reflexivity.
Defined.

(** X8: [install_on_macos] with [brew] on the path runs [brew install]
    exactly when [brew update] exited 0; without [brew] it prints how to
    get it, runs nothing and returns. *)
Theorem brew_install_after_update h w :
  exists l,
    log (snd (SetupTools.install_on_macos h w)) = log w ++ l
    /\ (["brew"; "install"] ++ SetupTools.BREW_PACKAGES ∈ commands l
        <-> which h "brew" w = true
            /\ Exec ["brew"; "update"] true (Some 0) ∈ l)
    /\ (which h "brew" w = false ->
        fst (SetupTools.install_on_macos h w) = Ok tt /\ commands l = []).
Proof.
  assert (E : SetupTools.install_on_macos h w
              = if which h "brew" w
                then (SetupTools.run h ["brew"; "update"] true ;;
                      SetupTools.run h
                        (["brew"; "install"] ++ SetupTools.BREW_PACKAGES) true ;;
                      mret tt) w
                else (Ok tt,
                      World (disk w)
                        (log w ++
                         [Printed "❌ Homebrew (brew) not found.";
                          Printed "   Install Homebrew first, then rerun this script.";
                          Printed "   Command (copy/paste in Terminal):";
                          Printed ("   /bin/bash -c " +:+ SetupTools.dq
                                   +:+ "$(curl -fsSL https://raw.githubusercontent.com/Homebrew/install/HEAD/install.sh)"
                                   +:+ SetupTools.dq)]))).
  { unfold SetupTools.install_on_macos, SetupTools.have, have_on.
    unfold mbind at 1, M_bind at 1, bind at 1.
    destruct (which h "brew" w); cbn [negb]; [reflexivity|].
    unfold mbind, M_bind, bind, print, emit. cbn [disk log].
    rewrite <- !app_assoc. reflexivity. }
  rewrite E. clear E.
  destruct (which h "brew" w) eqn:Hb.
  - destruct (second_after_first (SetupTools.run h) (setup_run_log h)
                ["brew"; "update"]
                (["brew"; "install"] ++ SetupTools.BREW_PACKAGES) w)
      as (l & Hl & Hiff); [discriminate|].
    exists l. split; [exact Hl|]. split; [|discriminate].
    rewrite Hiff. tauto.
  - eexists. split; [reflexivity|].
    split; [|intros _; split; reflexivity].
    cbn. split.
    + intros Hin. apply elem_of_nil in Hin. destruct Hin.
    + intros [Hf _]. discriminate.
Qed.

Lemma brew_install_after_update_witness :
  fst (SetupTools.install_on_macos macos_no_brew empty_world) = Ok tt.
Proof.
  destruct (brew_install_after_update macos_no_brew empty_world)
    as (l & _ & _ & H).
  exact (proj1 (H eq_refl)).
Defined.

End MoreCommands.

(** ** Steps that are skipped *)

Module Skipped.
Import Py Sys SysFacts Obs ProcFacts Examples Privilege Preconditions
  Unchecked Commands.

(** X9: [setup_update_alternatives] runs its command exactly when
    [update-alternatives] is on the path and [/usr/bin/lldb-15] exists,
    without asking whether [sudo] is there; otherwise it prints one note,
    leaves the disk alone and returns. *)
Theorem update_alternatives_when h u w :
  euid h = Some u ->
  let cmd := (if u =? 0 then [] else ["sudo"]) ++ update_alternatives_lldb in
  exists l,
    log (snd (InstallAikbt.setup_update_alternatives h w)) = log w ++ l
    /\ (cmd ∈ commands l
        <-> which h "update-alternatives" w = true
            /\ node_at (disk w) ["usr"; "bin"; "lldb-15"] <> None)
    /\ (cmd ∉ commands l ->
        exists msg,
          l = [Printed msg]
          /\ InstallAikbt.setup_update_alternatives h w
             = (Ok tt, World (disk w) (log w ++ l))).
Proof.
  intros Hu cmd. rewrite setup_update_alternatives_eq, Hu. fold cmd.
  destruct (which h "update-alternatives" w).
  - destruct (node_at (disk w) ["usr"; "bin"; "lldb-15"]) as [n|].
    + unfold mbind, M_bind, bind.
      destruct (aikbt_run_log h cmd false w) as (code & d & msg & ->).
      assert (Hin : forall rest,
                cmd ∈ commands ([Printed msg; Exec cmd false code] ++ rest)).
      { intros rest. cbn. apply list_elem_of_here. }
      rewrite unchecked_outcome. destruct code as [c|].
      * exists ([Printed msg; Exec cmd false (Some c)]
                ++ [Printed "OK: update-alternatives attempted (lldb -> lldb-15)"]).
        split; [unfold print, emit; cbn [snd log];
                rewrite <- app_assoc; reflexivity|].
        split; [split; [intros _; split; [reflexivity|discriminate]
                       |intros _; apply Hin]|].
        intros Hn. destruct Hn. apply Hin.
      * exists ([Printed msg; Exec cmd false None] ++ []).
        split; [reflexivity|].
        split; [split; [intros _; split; [reflexivity|discriminate]
                       |intros _; apply Hin]|].
        intros Hn. destruct Hn. apply Hin.
    + eexists. split; [reflexivity|]. split.
      * split; [intros Hin; cbn in Hin; apply elem_of_nil in Hin; destruct Hin
               |intros [_ Hn]; congruence].
      * intros _. eexists. split; reflexivity.
  - eexists. split; [reflexivity|]. split.
    + split; [intros Hin; cbn in Hin; apply elem_of_nil in Hin; destruct Hin
             |intros [Hf _]; discriminate].
    + intros _. eexists. split; reflexivity.
Qed.

Lemma update_alternatives_when_witness :
  exists l,
    log (snd (InstallAikbt.setup_update_alternatives (ubuntu_root [])
                empty_world)) = log empty_world ++ l
    /\ (update_alternatives_lldb ∈ commands l
        <-> which (ubuntu_root []) "update-alternatives" empty_world = true
            /\ node_at (disk empty_world) ["usr"; "bin"; "lldb-15"] <> None)
    /\ (update_alternatives_lldb ∉ commands l ->
        exists msg,
          l = [Printed msg]
          /\ InstallAikbt.setup_update_alternatives (ubuntu_root [])
               empty_world
             = (Ok tt, World (disk empty_world) (log empty_world ++ l))).
Proof.
  apply (update_alternatives_when (ubuntu_root []) 0 empty_world).
  reflexivity.
Defined.

(** X10: on a system that is neither Linux, macOS nor Windows the script
    of setup_tools.py prints two lines, runs nothing, leaves the disk alone
    and exits with code 0. *)
Theorem unsupported_os_exit_0 h w :
  SetupTools.is_linux h = false -> SetupTools.is_macos h = false ->
  SetupTools.is_windows h = false ->
  SetupTools.script h w
  = (0, say "❌ Unsupported OS for automatic system installs."
          (say (detected h) w)).
Proof.
  intros Hl Hm Hw. unfold SetupTools.script, SetupTools.main.
  rewrite print_then, Hl, Hm, Hw. reflexivity.
Qed.

Lemma unsupported_os_exit_0_witness :
  SetupTools.script freebsd empty_world
  = (0, say "❌ Unsupported OS for automatic system installs."
          (say (detected freebsd) empty_world)).
Proof.
  apply (unsupported_os_exit_0 freebsd empty_world); reflexivity.
Defined.

(** X11: the shared links are made for the shared virtual environment
    only: for the path [choose_venv_path] gives to a user who is not the
    superuser of a Linux system, and whose home directory is not [/opt],
    [symlink_cli_tools_linux_shared] does nothing at all. *)
Theorem links_only_for_shared_venv h w :
  SetupTools.is_linux h && SetupTools.is_root h = false ->
  home h <> ["opt"] ->
  SetupTools.symlink_cli_tools_linux_shared h (SetupTools.choose_venv_path h) w
  = (Ok tt, w).
Proof.
  intros Hlr Hh. unfold SetupTools.symlink_cli_tools_linux_shared,
    SetupTools.choose_venv_path.
  rewrite Hlr. destruct (SetupTools.is_linux h); [|reflexivity].
  cbn [negb]. rewrite bool_decide_eq_false_2; [reflexivity|].
  intros E. apply Hh.
  change ["opt"; "course-venv"] with (["opt"] ++ ["course-venv"]) in E.
  apply app_inj_tail in E. tauto.
Qed.

Lemma links_only_for_shared_venv_witness :
  SetupTools.symlink_cli_tools_linux_shared ubuntu_user_no_sudo
    (SetupTools.choose_venv_path ubuntu_user_no_sudo) empty_world
  = (Ok tt, empty_world).
Proof.
  apply (links_only_for_shared_venv ubuntu_user_no_sudo empty_world);
    [reflexivity|discriminate].
Defined.

(** X12: a tool that is not in the shared virtual environment is not
    linked: where none of the three is there, the function prints a warning
    for each, runs no command, leaves the disk alone and returns. *)
Theorem missing_tools_skipped h w :
  SetupTools.is_linux h = true ->
  SetupTools.is_root h || which h "sudo" w = true ->
  (forall tool, tool ∈ ["check50"; "style50"; "submit50"] ->
     node_at (disk w) (["opt"; "course-venv"] ++ ["bin"; tool]) = None) ->
  SetupTools.symlink_cli_tools_linux_shared h ["opt"; "course-venv"] w
  = (Ok tt,
     World (disk w)
       (log w ++
        map (fun tool =>
               Printed ("⚠️ Tool not found in venv (skipping link): "
                        +:+ SetupTools.show h
                              (["opt"; "course-venv"] ++ ["bin"; tool])))
          ["check50"; "style50"; "submit50"])).
Proof.
  intros Hl Hs Hno. unfold SetupTools.symlink_cli_tools_linux_shared.
  rewrite Hl. cbn [negb]. rewrite bool_decide_eq_true_2 by reflexivity.
  cbn [negb]. unfold mbind at 1, M_bind at 1, bind at 1.
  rewrite ensure_admin_linux_eq.
  assert (H1 := Hno "check50" ltac:(repeat constructor)).
  assert (H2 := Hno "style50" ltac:(repeat constructor)).
  assert (H3 := Hno "submit50" ltac:(repeat constructor)).
  assert (E : forall prefix,
    for_each ["check50"; "style50"; "submit50"] (fun tool =>
      let src := ["opt"; "course-venv"] ++ ["bin"; tool] in
      let dst := ["usr"; "local"; "bin"] ++ [tool] in
      ex ← path_exists src;
      if ex : bool
      then SetupTools.run h (prefix ++ ["ln"; "-sf"; SetupTools.show h src;
                                        SetupTools.show h dst]) true ;;
           mret tt
      else print ("⚠️ Tool not found in venv (skipping link): "
                  +:+ SetupTools.show h src)) w
    = (Ok tt,
       World (disk w)
         (log w ++
          map (fun tool =>
                 Printed ("⚠️ Tool not found in venv (skipping link): "
                          +:+ SetupTools.show h
                                (["opt"; "course-venv"] ++ ["bin"; tool])))
            ["check50"; "style50"; "submit50"]))).
  { intros prefix. cbn [for_each map].
    unfold mbind, M_bind, bind, path_exists, print, emit, mret, M_ret, ret.
    cbn [disk log]. rewrite H1. cbn [disk log]. rewrite H2.
    cbn [disk log]. rewrite H3. cbn [disk log].
    rewrite <- !app_assoc. reflexivity. }
  destruct (SetupTools.is_root h); [apply E|].
  cbn [orb] in Hs. rewrite Hs. apply E.
Qed.

Lemma missing_tools_skipped_witness :
  fst (SetupTools.symlink_cli_tools_linux_shared (ubuntu_root [])
         ["opt"; "course-venv"] with_venv) = Ok tt.
Proof.
  rewrite (missing_tools_skipped (ubuntu_root []) with_venv);
    [reflexivity|reflexivity|reflexivity|].
  intros tool Hin.
  repeat (apply elem_of_cons in Hin; destruct Hin as [->|Hin];
          [vm_compute; reflexivity|]).
  apply elem_of_nil in Hin. destruct Hin.
Defined.

(** X13: where the system has no [geteuid], install_aikbt.py stops at its
    first step with an error nobody catches: two lines are printed, no
    command is run, the disk is left alone and the exit code is 1. *)
Theorem no_geteuid_exit_1 h w :
  euid h = None ->
  InstallAikbt.script h w = (1, say step1 (say banner w)).
Proof.
  intros Hu. unfold InstallAikbt.script, InstallAikbt.main. cbv zeta.
  rewrite !print_then.
  unfold mbind at 1, M_bind at 1, bind at 1.
  pose proof (apt_install_commands h ["lldb-15"; "python3-lldb-15"; "curl"]
                (say step1 (say banner w))) as E.
  rewrite Hu in E. unfold step1, banner in *. rewrite E. reflexivity.
Qed.

Lemma no_geteuid_exit_1_witness :
  InstallAikbt.script (windows_winget []) empty_world
  = (1, say step1 (say banner empty_world)).
Proof.
  apply (no_geteuid_exit_1 (windows_winget []) empty_world). reflexivity.
Defined.

End Skipped.

(** ** What [first_line] returns *)

Module FirstLine.
Import Py Sys SysFacts Obs ProcFacts Examples Versions MoreLines.

Lemma lstrip_head : forall s c t, lstrip s = c :: t -> is_space c = false.
Proof.
  induction s as [|x s IH]; intros c t; cbn [lstrip]; [discriminate|].
  destruct (is_space x) eqn:E; [apply IH|].
  intros [= <- _]. exact E.
Qed.

Lemma lstrip_suffix : forall s, exists pre, s = pre ++ lstrip s.
Proof.
  induction s as [|x s [pre IH]]; cbn [lstrip]; [exists []; reflexivity|].
  destruct (is_space x).
  - exists (x :: pre). cbn. rewrite <- IH. reflexivity.
  - exists []. reflexivity.
Qed.

Lemma strip_head s c t : strip s = c :: t -> is_space c = false.
Proof.
  unfold strip. intros E.
  destruct (lstrip_suffix (rev (lstrip s))) as [pre Hp].
  apply (f_equal (@rev Z)) in E. rewrite rev_involutive in E.
  cbn [rev] in E. rewrite E in Hp.
  apply (f_equal (@rev Z)) in Hp. rewrite rev_involutive in Hp.
  rewrite !rev_app_distr, rev_involutive in Hp. cbn in Hp.
  exact (lstrip_head _ _ _ Hp).
Qed.

Lemma linebreak_space c : is_linebreak c = true -> is_space c = true.
Proof.
  unfold is_linebreak. rewrite !orb_true_iff, !Z.eqb_eq.
  intros H. repeat (destruct H as [H|H]; [|subst c; reflexivity]).
  subst c. reflexivity.
Qed.

Lemma splitlines_head c t :
  is_linebreak c = false -> exists l ls, splitlines (c :: t) = (c :: l) :: ls.
Proof.
  intros H. cbn [splitlines]. rewrite H.
  destruct (splitlines t) as [|l ls]; eexists _, _; reflexivity.
Qed.

Lemma no_break_is_line c l : no_break (c :: l) -> is_line (c :: l) = true.
Proof.
  intros H. unfold is_line.
  rewrite bool_decide_eq_false_2 by discriminate. cbn [negb andb].
  apply forallb_forall. intros x Hx.
  unfold no_break in H. rewrite Forall_forall in H.
  rewrite (H x); [reflexivity|]. apply list_elem_of_In. exact Hx.
Qed.

(** X14: whatever the command prints, what [first_line] returns is one
    line of text: not empty, free of line boundaries, and not starting with
    white space. *)
Theorem first_line_is_a_line h cmd w l :
  fst (SetupTools.first_line h cmd w) = Ok l ->
  is_line l = true /\ exists c t, l = c :: t /\ is_space c = false.
Proof.
  destruct cmd as [|c0 rest]; [discriminate|].
  rewrite first_line_eq.
  assert (Hu : is_line (text "unknown") = true
               /\ exists c t, text "unknown" = c :: t /\ is_space c = false).
  { split; [vm_compute; reflexivity|].
    eexists _, _. split; [vm_compute; reflexivity|reflexivity]. }
  assert (Hn : is_line (text "not available") = true
               /\ exists c t, text "not available" = c :: t
                              /\ is_space c = false).
  { split; [vm_compute; reflexivity|].
    eexists _, _. split; [vm_compute; reflexivity|reflexivity]. }
  destruct (which h c0 w); [|intros [= <-]; exact Hn].
  destruct (spawn h (c0 :: rest) w) as [[[code out] d]|];
    [|intros [= <-]; exact Hu].
  cbn [fst]. intros [= <-].
  destruct out as [o|]; [|exact Hu].
  destruct (code =? 0); [|exact Hu].
  destruct (strip (universal_newlines o)) as [|x xs] eqn:Es; [exact Hu|].
  pose proof (strip_head _ _ _ Es) as Hx.
  assert (Hb : is_linebreak x = false).
  { destruct (is_linebreak x) eqn:E; [|reflexivity].
    apply linebreak_space in E. congruence. }
  destruct (splitlines_head x xs Hb) as (l & ls & El).
  pose proof (splitlines_no_break (x :: xs)) as Hnb.
  rewrite El in Hnb |- *. apply Forall_cons in Hnb. destruct Hnb as [Hnb _].
  split; [apply no_break_is_line; exact Hnb|].
  exists x, l. split; [reflexivity|exact Hx].
Qed.

Lemma first_line_is_a_line_witness :
  is_line (text "tool 1.0") = true
  /\ exists c t, text "tool 1.0" = c :: t /\ is_space c = false.
Proof.
  apply (first_line_is_a_line (ubuntu_root []) ["lldb"; "--version"]
           empty_world).
  vm_compute. reflexivity.
Defined.

End FirstLine.

(** ** What a call that returns has done *)

Module Returned.
Import Py Sys PyFacts TextFacts SysFacts InstallAikbt Obs EnsureFacts
  AppendFacts RunFacts EnsureRun Frame ProcFacts Examples LineInsertion
  Preconditions.

(** A call that returns was made on a path that can hold a file. *)
Lemma ensure_ok_can_hold p line w w1 :
  ensure_line_in_file p line w = (Ok tt, w1) -> can_hold (disk w) p = true.
Proof.
  intros H. destruct (can_hold (disk w) p) eqn:Hc; [reflexivity|exfalso].
  unfold can_hold in Hc. apply andb_false_iff in Hc.
  destruct (blocked (disk w) [] (parent p)) eqn:Hb.
  - destruct (Reruns.mkdir_walk_blocked _ _ _ Hb) as [wx Hm].
    change (mkdir_walk [] (parent p) w) with (mkdir_parents (parent p) w) in Hm.
    unfold ensure_line_in_file in H.
    rewrite (bind_raise _ _ _ _ _ Hm) in H. discriminate.
  - destruct Hc as [Hc|Hc]; [discriminate|].
    destruct (mkdir_walk_ok _ _ _ Hb) as [wm Hm].
    change (mkdir_walk [] (parent p) w) with (mkdir_parents (parent p) w) in Hm.
    pose proof (mkdir_parents_node _ _ _ _ Hm) as Hnode.
    destruct (node_at (disk w) p) as [[|b]|] eqn:E; try discriminate.
    unfold ensure_line_in_file in H.
    rewrite (bind_ok _ _ _ _ _ Hm) in H. revert H.
    unfold path_exists, read_text. run_monad.
    repeat (progress (cbn beta iota zeta; rewrite ?Hnode)). discriminate.
Qed.

Lemma ensure_ok_present p line bl w w1 :
  is_line line = true -> encode line = Some bl ->
  ensure_line_in_file p line w = (Ok tt, w1) ->
  contains (lines_at (disk w1) p) line = true.
Proof.
  intros Hline Hl H.
  pose proof (ensure_ok_can_hold _ _ _ _ H) as Hc.
  destruct (ensure_run p line bl w Hc Hl) as (w1' & Hrun & Hcont & _).
  rewrite Hrun in H. injection H as <-.
  rewrite (lines_at_content _ _ _ Hcont).
  apply after_run_present; assumption.
Qed.

(** X15: whenever [ensure_line_in_file] returns, whatever was on the disk
    before, the line of text it was given is among the lines of the
    file. *)
Theorem ensure_line_returns_present p line bl w w1 :
  is_line line = true -> encode line = Some bl ->
  ensure_line_in_file p line w = (Ok tt, w1) ->
  contains (lines_at (disk w1) p) line = true
  /\ can_hold (disk w) p = true.
Proof.
  intros Hline Hl H. split.
  - exact (ensure_ok_present p line bl w w1 Hline Hl H).
  - exact (ensure_ok_can_hold p line w w1 H).
Qed.

Lemma ensure_line_returns_present_witness :
  contains (lines_at (disk (snd (ensure_line_in_file lldbinit import_line
                                   (with_file (text "settings")))))
              lldbinit) import_line = true
  /\ can_hold (disk (with_file (text "settings"))) lldbinit = true.
Proof.
  apply (ensure_line_returns_present lldbinit import_line import_line
           (with_file (text "settings"))); vm_compute; reflexivity.
Defined.

Lemma py_line_is_line : is_line py_line = true.
Proof. vm_compute. reflexivity. Qed.

Lemma py_line_encodes : encode py_line = Some py_line.
Proof. vm_compute. reflexivity. Qed.

(** X16: when [main] of install_aikbt.py returns, the line that sets
    [PYTHONPATH] is among the lines of [~/.bashrc]. *)
Theorem aikbt_main_bashrc h w w' :
  InstallAikbt.main h w = (Ok tt, w') ->
  contains (lines_at (disk w') (home h ++ [".bashrc"])) py_line = true.
Proof.
  unfold InstallAikbt.main. cbv zeta. intros H.
  do 11 (apply bind_inv in H;
         destruct H as [(? & ? & _ & H)|(? & _ & ?)]; [|discriminate]).
  apply bind_inv in H.
  destruct H as [([] & w1 & He & H)|(? & _ & ?)]; [|discriminate].
  pose proof (ensure_ok_present _ _ _ _ _ py_line_is_line py_line_encodes He)
    as Hin.
  assert (Hd : disk w' = disk w1).
  { revert H. unfold mbind, M_bind, bind, print, emit.
    cbn [disk log]. intros [= <-]. reflexivity. }
  rewrite Hd. exact Hin.
Qed.

Lemma aikbt_main_bashrc_witness :
  contains (lines_at (disk (snd (InstallAikbt.main (ubuntu_root [])
                                   empty_world)))
              (home (ubuntu_root []) ++ [".bashrc"])) py_line = true.
Proof.
  apply (aikbt_main_bashrc (ubuntu_root []) empty_world).
  vm_compute. reflexivity.
Defined.

End Returned.

(** ** The commands of a script, in order *)

Module InOrder.
Import Py Sys SysFacts Obs ProcFacts Examples Privilege ScriptsFailFast
  Commands.

Lemma in_order_weaken {A} cs cs' (m : M A) :
  sublist cs cs' -> runs_in_order cs m -> runs_in_order cs' m.
Proof.
  intros Hs Hm w. destruct (Hm w) as (l & E & Hl).
  exists l. split; [exact E|]. etransitivity; eassumption.
Qed.

Lemma in_order_silent {A} (m : M A) : always silent m -> runs_in_order [] m.
Proof.
  intros Hs w. destruct (Hs w) as [Hl _]. exists [].
  rewrite app_nil_r. split; [exact Hl|constructor].
Qed.

Lemma in_order_ret {A} (a : A) : runs_in_order [] (mret a).
Proof. intros w. exists []. rewrite app_nil_r. split; [reflexivity|constructor]. Qed.

Lemma in_order_raise {A} e : runs_in_order [] (@raise A e).
Proof. intros w. exists []. rewrite app_nil_r. split; [reflexivity|constructor]. Qed.

Lemma in_order_print msg : runs_in_order [] (print msg).
Proof. intros w. exists [Printed msg]. split; [reflexivity|constructor]. Qed.

(** Sequencing, where [Q] holds of what the first part returns. *)
Lemma in_order_bind_with {A B} (Q : A -> Prop) cs1 cs2 (m : M A)
    (k : A -> M B) :
  (forall w a w1, m w = (Ok a, w1) -> Q a) ->
  runs_in_order cs1 m -> (forall a, Q a -> runs_in_order cs2 (k a)) ->
  runs_in_order (cs1 ++ cs2) (m ≫= k).
Proof.
  intros Hq Hm Hk w. unfold mbind, M_bind, bind.
  destruct (Hm w) as (l1 & E1 & H1).
  destruct (m w) as [[a|e] w1] eqn:E.
  - destruct (Hk a (Hq _ _ _ E) w1) as (l2 & E2 & H2).
    exists (l1 ++ l2). cbn [snd] in E1. rewrite E2, E1, app_assoc.
    split; [reflexivity|]. rewrite commands_app.
    apply sublist_app; assumption.
  - exists l1. split; [exact E1|].
    apply sublist_inserts_r. exact H1.
Qed.

Lemma in_order_bind {A B} cs1 cs2 (m : M A) (k : A -> M B) :
  runs_in_order cs1 m -> (forall a, runs_in_order cs2 (k a)) ->
  runs_in_order (cs1 ++ cs2) (m ≫= k).
Proof.
  intros Hm Hk.
  apply (in_order_bind_with (fun _ => True)); [exact (fun _ _ _ _ => I)|exact Hm|].
  intros a _. apply Hk.
Qed.

Lemma in_order_then {A B} cs (m : M A) (k : A -> M B) :
  runs_in_order [] m -> (forall a, runs_in_order cs (k a)) ->
  runs_in_order cs (m ≫= k).
Proof. apply (in_order_bind [] cs). Qed.

Lemma in_order_if {A} cs (b : bool) (m1 m2 : M A) :
  runs_in_order cs m1 -> runs_in_order cs m2 ->
  runs_in_order cs (if b then m1 else m2).
Proof. destruct b; tauto. Qed.

Lemma in_order_try {A} cs1 cs2 (m handler : M A) :
  runs_in_order cs1 m -> runs_in_order cs2 handler ->
  runs_in_order (cs1 ++ cs2) (try_except m handler).
Proof.
  intros Hm Hh w. unfold try_except.
  destruct (Hm w) as (l1 & E1 & H1).
  destruct (m w) as [[a|[c|c cmd|n]] w1] eqn:E; cbn [snd] in E1.
  - exists l1. split; [exact E1|]. apply sublist_inserts_r. exact H1.
  - exists l1. split; [exact E1|]. apply sublist_inserts_r. exact H1.
  - destruct (Hh w1) as (l2 & E2 & H2). exists (l1 ++ l2).
    rewrite E2, E1, app_assoc. split; [reflexivity|].
    rewrite commands_app. apply sublist_app; assumption.
  - destruct (Hh w1) as (l2 & E2 & H2). exists (l1 ++ l2).
    rewrite E2, E1, app_assoc. split; [reflexivity|].
    rewrite commands_app. apply sublist_app; assumption.
Qed.

Lemma in_order_for_each {A} (f : A -> list (list string)) (xs : list A)
    (body : A -> M unit) :
  (forall x, runs_in_order (f x) (body x)) ->
  runs_in_order (concat (map f xs)) (for_each xs body).
Proof.
  intros Hb. induction xs as [|x rest IH]; cbn [for_each map concat].
  - apply (in_order_ret tt).
  - apply (in_order_bind (f x) _ (body x)); [apply Hb|intros _; exact IH].
Qed.

Lemma in_order_aikbt_run h cmd check :
  runs_in_order [cmd] (InstallAikbt.run h cmd check).
Proof.
  intros w. destruct (aikbt_run_log h cmd check w) as (code & d & msg & ->).
  exists [Printed msg; Exec cmd check code]. split; reflexivity.
Qed.

Lemma in_order_setup_run h cmd check :
  runs_in_order [cmd] (SetupTools.run h cmd check).
Proof.
  intros w. destruct (setup_run_log h cmd check w) as (code & d & msg & ->).
  exists [Printed msg; Exec cmd check code]. split; reflexivity.
Qed.

Lemma in_order_check_output h cmd : runs_in_order [cmd] (check_output h cmd).
Proof.
  intros w. unfold check_output.
  destruct (spawn h cmd w) as [[[code out] d]|].
  - exists [Probe cmd (Some code)].
    destruct (negb (code =? 0)); [split; reflexivity|].
    destruct out; split; reflexivity.
  - exists [Probe cmd None]. split; reflexivity.
Qed.

(** Steps that run nothing. *)
Ltac quiet_step :=
  lazymatch goal with
  | |- runs_in_order _ (mret _) => apply in_order_ret
  | |- runs_in_order _ (print _) => apply in_order_print
  | |- runs_in_order _ (sys_exit _) => apply in_order_raise
  | |- runs_in_order _ (raise _) => apply in_order_raise
  | |- runs_in_order _ (have_on _ _) => apply in_order_silent, silent_have
  | |- runs_in_order _ (path_exists _) =>
    apply in_order_silent, silent_path_exists
  | |- runs_in_order _ (is_dir _) => apply in_order_silent, silent_is_dir
  | |- runs_in_order _ (read_text _) =>
    apply in_order_silent, silent_read_text
  | |- runs_in_order _ (open_append _) =>
    apply in_order_silent, silent_open_append
  | |- runs_in_order _ (write_append _ _) =>
    apply in_order_silent, silent_write_append
  | |- runs_in_order _ (stat_size _ _) =>
    apply in_order_silent, silent_stat_size
  | |- runs_in_order _ (mkdir_walk _ _) =>
    apply in_order_silent, silent_mkdir_walk
  | |- runs_in_order _ (mkdir_parents _) =>
    apply in_order_silent, silent_mkdir_walk
  | |- runs_in_order _ (InstallAikbt.is_root _) =>
    apply in_order_silent, silent_aikbt_is_root
  | |- runs_in_order _ (mbind _ _) => apply in_order_then
  | |- runs_in_order _ (match ?x with [] => _ | _ :: _ => _ end) => destruct x
  | |- runs_in_order _ (if _ then _ else _) => apply in_order_if
  | |- forall _ : _, runs_in_order _ _ => intro
  end.

Lemma in_order_ensure_line p line :
  runs_in_order [] (InstallAikbt.ensure_line_in_file p line).
Proof.
  unfold InstallAikbt.ensure_line_in_file, InstallAikbt.append_line.
  repeat quiet_step.
Qed.

Lemma in_order_download_to h url dest :
  runs_in_order [["curl"; "-fsSL"; url; "-o"; show_posix dest]]
    (InstallAikbt.download_to h url dest).
Proof.
  unfold InstallAikbt.download_to, InstallAikbt.have_cmd.
  do 2 (apply in_order_then; [repeat quiet_step|intros ?]).
  apply in_order_then; [repeat quiet_step|intros _].
  apply (in_order_bind [_] []); [apply in_order_aikbt_run|intros _].
  repeat quiet_step.
Qed.

Lemma in_order_ret_bind {A B} cs (a : A) (k : A -> M B) :
  runs_in_order cs (k a) -> runs_in_order cs (mret a ≫= k).
Proof. intros H w. exact (H w). Qed.

Lemma in_order_raise_bind {A B} cs e (k : A -> M B) :
  runs_in_order cs (raise e ≫= k).
Proof.
  intros w. exists []. rewrite app_nil_r.
  split; [reflexivity|apply sublist_nil_l].
Qed.

Lemma in_order_two {A} h (run : host -> list string -> bool -> M A) c1 c2 :
  (forall cmd check, runs_in_order [cmd] (run h cmd check)) ->
  runs_in_order [c1; c2] (run h c1 true ;; run h c2 true ;; mret tt).
Proof.
  intros Hr.
  apply (in_order_bind [c1] [c2]); [apply Hr|intros _].
  apply (in_order_bind [c2] []); [apply Hr|intros _]. apply in_order_ret.
Qed.

Lemma in_order_apt_install h packages :
  runs_in_order [aikbt_prefix h ++ ["apt"; "update"];
                 aikbt_prefix h ++ ["apt"; "install"; "-y"] ++ packages]
    (InstallAikbt.apt_install h packages).
Proof.
  unfold InstallAikbt.apt_install, InstallAikbt.is_root, aikbt_prefix,
    InstallAikbt.have_cmd.
  destruct (euid h) as [u|]; [|apply in_order_raise_bind].
  apply in_order_ret_bind. destruct (u =? 0).
  - apply (in_order_two h InstallAikbt.run). apply in_order_aikbt_run.
  - do 2 (apply in_order_then; [repeat quiet_step|intros ?]).
    apply (in_order_two h InstallAikbt.run). apply in_order_aikbt_run.
Qed.

Lemma in_order_update_alternatives h :
  runs_in_order [aikbt_prefix h ++ update_alternatives_lldb]
    (InstallAikbt.setup_update_alternatives h).
Proof.
  unfold InstallAikbt.setup_update_alternatives, InstallAikbt.is_root,
    aikbt_prefix, InstallAikbt.have_cmd.
  apply in_order_then; [repeat quiet_step|intros u].
  apply in_order_if;
    [apply (in_order_weaken []); [apply sublist_nil_l|apply in_order_print]|].
  cbv zeta. apply in_order_then; [repeat quiet_step|intros ex].
  apply in_order_if;
    [apply (in_order_weaken []); [apply sublist_nil_l|apply in_order_print]|].
  destruct (euid h) as [e|]; [|apply in_order_raise_bind].
  apply in_order_ret_bind.
  apply (in_order_bind [_] []); [|intros _; apply in_order_print].
  destruct (e =? 0); apply in_order_aikbt_run.
Qed.

(** X17: the commands install_aikbt.py runs are some of its five, in the
    order of the script, whatever the outcome: [apt update], [apt install],
    the two downloads with [curl] and [update-alternatives], the privileged
    ones behind [sudo] for a user who is not the superuser. *)
Theorem aikbt_commands_in_order h :
  runs_in_order (aikbt_commands h) (InstallAikbt.main h).
Proof.
  unfold InstallAikbt.main, aikbt_commands. cbv zeta.
  do 2 (apply in_order_then; [apply in_order_print|intros _]).
  apply (in_order_bind [_; _] [_; _; _]);
    [apply in_order_apt_install|intros _].
  apply in_order_then; [apply in_order_print|intros _].
  apply (in_order_bind [_] [_; _]);
    [rewrite <- app_assoc; apply in_order_download_to|intros _].
  apply (in_order_bind [_] [_]);
    [rewrite <- app_assoc; apply in_order_download_to|intros _].
  apply in_order_then; [apply in_order_print|intros _].
  apply in_order_then; [apply in_order_ensure_line|intros _].
  apply in_order_then; [apply in_order_print|intros _].
  apply (in_order_bind [_] []);
    [apply in_order_update_alternatives|intros _].
  apply in_order_then; [apply in_order_print|intros _].
  apply in_order_then; [apply in_order_ensure_line|intros _].
  repeat quiet_step.
Qed.

End InOrder.

(** ** The commands of setup_tools.py, in order *)

Module SetupInOrder.
Import Py Sys SysFacts Obs ProcFacts Examples Privilege ScriptsFailFast
  Commands InOrder.

Lemma in_order_none {A} cs (m : M A) :
  runs_in_order [] m -> runs_in_order cs m.
Proof. apply in_order_weaken, sublist_nil_l. Qed.

Lemma in_order_before {A B} cs (m : M A) (k : A -> M B) :
  runs_in_order cs m -> (forall a, runs_in_order [] (k a)) ->
  runs_in_order cs (m ≫= k).
Proof.
  intros Hm Hk. rewrite <- (app_nil_r cs). apply in_order_bind; assumption.
Qed.

Lemma in_order_first_line h cmd :
  runs_in_order [cmd] (SetupTools.first_line h cmd).
Proof.
  unfold SetupTools.first_line, SetupTools.have.
  destruct cmd as [|c0 rest]; [apply in_order_none, in_order_raise|].
  apply in_order_then; [repeat quiet_step|intros a].
  apply in_order_if; [apply in_order_none, in_order_ret|].
  apply (in_order_try [_] []); [|apply in_order_ret].
  apply (in_order_bind [_] []); [apply in_order_check_output|intros raw].
  cbv zeta. repeat quiet_step.
Qed.

Lemma ensure_admin_linux_prefix h w a w1 :
  SetupTools.ensure_admin_linux h w = (Ok a, w1) -> a = setup_prefix h.
Proof.
  rewrite ensure_admin_linux_eq. unfold setup_prefix.
  destruct (SetupTools.is_root h); [congruence|].
  destruct (which h "sudo" w); [congruence|discriminate].
Qed.

Lemma in_order_ensure_admin h :
  runs_in_order [] (SetupTools.ensure_admin_linux h).
Proof.
  unfold SetupTools.ensure_admin_linux, SetupTools.have.
  repeat quiet_step.
Qed.

Lemma in_order_install_on_ubuntu h :
  runs_in_order
    [setup_prefix h ++ ["apt-get"; "update"; "-y"];
     setup_prefix h ++ ["apt-get"; "install"; "-y"] ++ SetupTools.APT_PACKAGES]
    (SetupTools.install_on_ubuntu h).
Proof.
  unfold SetupTools.install_on_ubuntu.
  apply (in_order_bind_with (fun a => a = setup_prefix h) [] [_; _]);
    [apply ensure_admin_linux_prefix|apply in_order_ensure_admin|].
  intros a ->. apply (in_order_two h SetupTools.run).
  apply in_order_setup_run.
Qed.

Lemma in_order_install_on_macos h :
  runs_in_order
    [["brew"; "update"]; ["brew"; "install"] ++ SetupTools.BREW_PACKAGES]
    (SetupTools.install_on_macos h).
Proof.
  unfold SetupTools.install_on_macos, SetupTools.have.
  apply in_order_then; [repeat quiet_step|intros b].
  apply in_order_if; [apply in_order_none; repeat quiet_step|].
  apply (in_order_two h SetupTools.run). apply in_order_setup_run.
Qed.

Lemma in_order_install_on_windows h :
  runs_in_order
    (map winget_install ["zyedidia.micro"; "LLVM.LLVM"; "cURL.cURL"])
    (SetupTools.install_on_windows h).
Proof.
  unfold SetupTools.install_on_windows, SetupTools.have.
  apply in_order_then; [repeat quiet_step|intros g].
  apply in_order_if; [apply in_order_none, in_order_print|].
  apply (in_order_bind
           (concat (map (fun '(_, pkg_id) =>
                           match pkg_id : option string with
                           | Some id => [winget_install id]
                           | None => []
                           end) SetupTools.WINGET_PACKAGES)) []);
    [|intros _; repeat quiet_step].
  apply in_order_for_each. intros [name [id|]]; [|apply in_order_ret].
  apply (in_order_bind [_] []); [apply in_order_setup_run|intros _].
  apply in_order_ret.
Qed.

Lemma ensure_venv_returns h w a w1 :
  SetupTools.ensure_venv h (SetupTools.choose_venv_path h) w = (Ok a, w1) ->
  a = (venv_python h, venv_pip h).
Proof.
  unfold SetupTools.ensure_venv, venv_python, venv_pip. intros H.
  do 2 (apply bind_inv in H;
        destruct H as [(? & ? & _ & H)|(? & _ & ?)]; [|discriminate]).
  destruct (SetupTools.is_windows h);
    (apply bind_inv in H;
     destruct H as [(? & ? & _ & H)|(? & _ & ?)]; [|discriminate]);
    injection H as <- _; reflexivity.
Qed.

Lemma in_order_ensure_venv h :
  runs_in_order
    [[executable h; "-m"; "venv";
      SetupTools.show h (SetupTools.choose_venv_path h)];
     [SetupTools.show h (venv_python h); "-m"; "pip"; "install"; "-U"; "pip";
      "setuptools"; "wheel"]]
    (SetupTools.ensure_venv h (SetupTools.choose_venv_path h)).
Proof.
  unfold SetupTools.ensure_venv, venv_python.
  apply in_order_then; [repeat quiet_step|intros d].
  apply (in_order_bind [_] [_]).
  - apply in_order_if; [|apply in_order_none, in_order_ret].
    apply (in_order_bind [_] []); [apply in_order_setup_run|intros _].
    apply in_order_ret.
  - intros _. destruct (SetupTools.is_windows h);
      (apply (in_order_bind [_] []); [apply in_order_setup_run|intros _];
       apply in_order_ret).
Qed.

Lemma in_order_links h :
  runs_in_order (link_commands h)
    (SetupTools.symlink_cli_tools_linux_shared h
       (SetupTools.choose_venv_path h)).
Proof.
  unfold SetupTools.symlink_cli_tools_linux_shared, link_commands.
  destruct (SetupTools.is_linux h); [|apply in_order_ret].
  destruct (bool_decide (SetupTools.choose_venv_path h
                         = ["opt"; "course-venv"])); [|apply in_order_ret].
  cbn [negb andb map].
  apply (in_order_bind_with (fun a => a = setup_prefix h) [] _);
    [apply ensure_admin_linux_prefix|apply in_order_ensure_admin|].
  intros a ->. cbv zeta.
  apply (in_order_for_each
           (fun tool =>
              [setup_prefix h
               ++ ["ln"; "-sf";
                   SetupTools.show h (SetupTools.choose_venv_path h
                                      ++ ["bin"; tool]);
                   SetupTools.show h (["usr"; "local"; "bin"] ++ [tool])]])).
  intros tool. apply in_order_then; [repeat quiet_step|intros ex].
  apply in_order_if; [|apply in_order_none, in_order_print].
  apply (in_order_bind [_] []); [apply in_order_setup_run|intros _].
  apply in_order_ret.
Qed.

Lemma in_order_print_versions h :
  runs_in_order (version_probes h)
    (SetupTools.print_versions h (venv_python h)).
Proof.
  unfold SetupTools.print_versions, version_probes.
  do 3 (apply in_order_then; [apply in_order_print|intros _]).
  apply in_order_bind.
  - apply (in_order_for_each (fun '(_, cmd) => [cmd])).
    intros [name cmd].
    apply (in_order_bind [_] []); [apply in_order_first_line|intros v].
    apply in_order_print.
  - intros _. apply in_order_then; [apply in_order_print|intros _].
    apply in_order_before; [|intros _; apply in_order_print].
    apply (in_order_for_each
             (fun dist => [[SetupTools.show h (venv_python h); "-c";
                            version_code dist]])).
    intros dist. cbv zeta.
    apply (in_order_try [_] []); [|apply in_order_print].
    apply (in_order_bind [_] []); [apply in_order_check_output|intros raw].
    apply in_order_print.
Qed.

Lemma in_order_provision h :
  runs_in_order (venv_commands h ++ link_commands h ++ version_probes h)
    (SetupTools.provision h).
Proof.
  unfold SetupTools.provision, venv_commands. cbv zeta.
  apply in_order_then; [apply in_order_print|intros _].
  apply (in_order_bind_with (fun a => a = (venv_python h, venv_pip h))
           [_; _] (_ :: _));
    [apply ensure_venv_returns|apply in_order_ensure_venv|].
  intros a ->. cbn beta iota.
  apply (in_order_bind [_] _).
  - unfold SetupTools.pip_install_in_venv.
    apply (in_order_bind [_] []); [apply in_order_setup_run|intros _].
    apply in_order_ret.
  - intros _. apply in_order_bind; [apply in_order_links|intros _].
    apply in_order_print_versions.
Qed.

(** X18: the commands and probes of setup_tools.py are some of a list the
    system fixes, in the order of the script, whatever the outcome: the
    installs of the system's package manager, the three commands of the
    virtual environment, the links where the environment is the shared
    one on Linux, and the version probes; and none on another system. *)
Theorem setup_commands_in_order h :
  runs_in_order (setup_commands h) (SetupTools.main h).
Proof.
  unfold SetupTools.main, setup_commands, system_installs.
  apply in_order_then; [apply in_order_print|intros _].
  destruct (SetupTools.is_linux h); cbn [orb].
  { apply in_order_bind; [apply in_order_install_on_ubuntu|intros _].
    apply in_order_provision. }
  destruct (SetupTools.is_macos h); cbn [orb].
  { apply in_order_bind; [apply in_order_install_on_macos|intros _].
    apply in_order_provision. }
  destruct (SetupTools.is_windows h).
  { apply in_order_bind; [apply in_order_install_on_windows|intros _].
    apply in_order_provision. }
  apply in_order_print.
Qed.

End SetupInOrder.

(** ** What a script that returns has run *)

Module OnReturn.
Import Py Sys SysFacts Obs ProcFacts Examples Privilege FailFast Probing
  ScriptsFailFast Commands SetupInOrder.

Lemma succeeded_trans cs1 cs2 a b c :
  succeeded cs1 a b -> succeeded cs2 b c -> succeeded (cs1 ++ cs2) a c.
Proof.
  intros (l1 & E1 & H1) (l2 & E2 & H2). exists (l1 ++ l2).
  split; [rewrite E2, E1, app_assoc; reflexivity|].
  apply Forall_app. split.
  - eapply Forall_impl; [exact H1|]. intros x Hx.
    apply elem_of_app. left. exact Hx.
  - eapply Forall_impl; [exact H2|]. intros x Hx.
    apply elem_of_app. right. exact Hx.
Qed.

Lemma on_return_ff {A} (m : M A) : always fail_fast m -> on_return [] m.
Proof.
  intros Hf w a w1 E. destruct (Hf w) as (l & Hl & _).
  rewrite E in Hl. exists l. split; [exact Hl|constructor].
Qed.

Lemma on_return_bind_with {A B} (Q : A -> Prop) cs1 cs2 (m : M A)
    (k : A -> M B) :
  (forall w a w1, m w = (Ok a, w1) -> Q a) ->
  on_return cs1 m -> (forall a, Q a -> on_return cs2 (k a)) ->
  on_return (cs1 ++ cs2) (m ≫= k).
Proof.
  intros Hq Hm Hk w b w2 E. apply bind_inv in E.
  destruct E as [(a & w1 & E1 & E2)|(e & _ & ?)]; [|discriminate].
  eapply succeeded_trans; [exact (Hm _ _ _ E1)|].
  exact (Hk a (Hq _ _ _ E1) _ _ _ E2).
Qed.

Lemma on_return_bind {A B} cs1 cs2 (m : M A) (k : A -> M B) :
  on_return cs1 m -> (forall a, on_return cs2 (k a)) ->
  on_return (cs1 ++ cs2) (m ≫= k).
Proof.
  intros Hm Hk.
  apply (on_return_bind_with (fun _ => True));
    [exact (fun _ _ _ _ => I)|exact Hm|].
  intros a _. apply Hk.
Qed.

Lemma on_return_after {A B} cs (m : M A) (k : A -> M B) :
  always fail_fast m -> (forall a, on_return cs (k a)) ->
  on_return cs (m ≫= k).
Proof. intros Hm. apply (on_return_bind [] cs). apply on_return_ff, Hm. Qed.

Lemma on_return_before {A B} cs (m : M A) (k : A -> M B) :
  on_return cs m -> (forall a, always fail_fast (k a)) ->
  on_return cs (m ≫= k).
Proof.
  intros Hm Hk. rewrite <- (app_nil_r cs). apply on_return_bind; [exact Hm|].
  intros a. apply on_return_ff, Hk.
Qed.

Lemma on_return_ret_bind {A B} cs (a : A) (k : A -> M B) :
  on_return cs (k a) -> on_return cs (mret a ≫= k).
Proof. intros H w. exact (H w). Qed.

Lemma on_return_raise_bind {A B} cs e (k : A -> M B) :
  on_return cs (raise e ≫= k).
Proof. intros w a w1. discriminate. Qed.

Lemma outcome_checked_ok cmd code a :
  outcome cmd true code = Ok a -> code = Some 0.
Proof.
  unfold outcome. destruct code as [c|]; [|discriminate].
  cbn [andb]. destruct (c =? 0) eqn:E; [|discriminate].
  apply Z.eqb_eq in E. congruence.
Qed.

Lemma on_return_aikbt_run h cmd :
  on_return [cmd] (InstallAikbt.run h cmd true).
Proof.
  intros w a w1.
  destruct (aikbt_run_log h cmd true w) as (code & d & msg & ->).
  intros [= Ho <-]. apply outcome_checked_ok in Ho. subst code.
  exists [Printed msg; Exec cmd true (Some 0)]. split; [reflexivity|].
  repeat constructor.
Qed.

Lemma on_return_setup_run h cmd :
  on_return [cmd] (SetupTools.run h cmd true).
Proof.
  intros w a w1.
  destruct (setup_run_log h cmd true w) as (code & d & msg & ->).
  intros [= Ho <-]. apply outcome_checked_ok in Ho. subst code.
  exists [Printed msg; Exec cmd true (Some 0)]. split; [reflexivity|].
  repeat constructor.
Qed.

Lemma on_return_aikbt_two h c1 c2 :
  on_return [c1; c2]
    (InstallAikbt.run h c1 true ;; InstallAikbt.run h c2 true ;; mret tt).
Proof.
  apply (on_return_bind [c1] [c2]); [apply on_return_aikbt_run|intros _].
  apply on_return_before; [apply on_return_aikbt_run|intros _].
  apply fail_fast_ret.
Qed.

Lemma on_return_setup_two h c1 c2 :
  on_return [c1; c2]
    (SetupTools.run h c1 true ;; SetupTools.run h c2 true ;; mret tt).
Proof.
  apply (on_return_bind [c1] [c2]); [apply on_return_setup_run|intros _].
  apply on_return_before; [apply on_return_setup_run|intros _].
  apply fail_fast_ret.
Qed.

Lemma on_return_apt_install h packages :
  on_return [aikbt_prefix h ++ ["apt"; "update"];
             aikbt_prefix h ++ ["apt"; "install"; "-y"] ++ packages]
    (InstallAikbt.apt_install h packages).
Proof.
  unfold InstallAikbt.apt_install, InstallAikbt.is_root, aikbt_prefix,
    InstallAikbt.have_cmd.
  destruct (euid h) as [u|]; [|apply on_return_raise_bind].
  apply on_return_ret_bind. destruct (u =? 0).
  - apply on_return_aikbt_two.
  - apply on_return_after; [ff|intros s].
    apply on_return_after; [ff|intros _].
    apply on_return_aikbt_two.
Qed.

Lemma on_return_download_to h url dest :
  on_return [["curl"; "-fsSL"; url; "-o"; show_posix dest]]
    (InstallAikbt.download_to h url dest).
Proof.
  unfold InstallAikbt.download_to, InstallAikbt.have_cmd, mkdir_parents.
  apply on_return_after; [ff|intros _].
  apply on_return_after; [ff|intros c].
  apply on_return_after; [ff|intros _].
  apply on_return_before; [apply on_return_aikbt_run|intros _].
  ff.
Qed.

(** X19: when [main] of install_aikbt.py returns, [apt update],
    [apt install] and the two downloads with [curl] have each been run and
    have exited 0. *)
Theorem aikbt_returns_after_required h :
  on_return (aikbt_required h) (InstallAikbt.main h).
Proof.
  unfold InstallAikbt.main, aikbt_required. cbv zeta.
  do 2 (apply on_return_after; [ff|intros _]).
  apply (on_return_bind [_; _] [_; _]); [apply on_return_apt_install|intros _].
  apply on_return_after; [ff|intros _].
  apply (on_return_bind [_] [_]);
    [rewrite <- app_assoc; apply on_return_download_to|intros _].
  apply on_return_before;
    [rewrite <- app_assoc; apply on_return_download_to|intros _].
  ff_with ltac:(idtac; lazymatch goal with
    | |- always _ (InstallAikbt.ensure_line_in_file _ _) =>
      apply ff_ensure_line
    | |- always _ (InstallAikbt.setup_update_alternatives _) =>
      apply ff_setup_update_alternatives
    end).
Qed.

Lemma aikbt_returns_after_required_witness :
  succeeded (aikbt_required (ubuntu_root [])) empty_world
    (snd (InstallAikbt.main (ubuntu_root []) empty_world)).
Proof.
  apply (aikbt_returns_after_required (ubuntu_root []) empty_world tt).
  transitivity (fst (InstallAikbt.main (ubuntu_root []) empty_world),
                snd (InstallAikbt.main (ubuntu_root []) empty_world));
    [apply surjective_pairing|].
  f_equal; vm_compute; reflexivity.
Defined.

Lemma on_return_install_on_ubuntu h :
  on_return
    [setup_prefix h ++ ["apt-get"; "update"; "-y"];
     setup_prefix h ++ ["apt-get"; "install"; "-y"] ++ SetupTools.APT_PACKAGES]
    (SetupTools.install_on_ubuntu h).
Proof.
  unfold SetupTools.install_on_ubuntu.
  apply (on_return_bind_with (fun a => a = setup_prefix h) [] [_; _]);
    [apply ensure_admin_linux_prefix
    |apply on_return_ff, ff_ensure_admin_linux|].
  intros a ->. apply on_return_setup_two.
Qed.

Lemma on_return_ensure_venv h :
  on_return
    [[SetupTools.show h (venv_python h); "-m"; "pip"; "install"; "-U"; "pip";
      "setuptools"; "wheel"]]
    (SetupTools.ensure_venv h (SetupTools.choose_venv_path h)).
Proof.
  unfold SetupTools.ensure_venv, venv_python.
  apply on_return_after; [ff|intros d].
  apply on_return_after; [ff_with ltac:(apply ff_setup_run)|intros _].
  destruct (SetupTools.is_windows h);
    (apply on_return_before; [apply on_return_setup_run|intros _];
     apply fail_fast_ret).
Qed.

Lemma on_return_provision h :
  on_return
    [[SetupTools.show h (venv_python h); "-m"; "pip"; "install"; "-U"; "pip";
      "setuptools"; "wheel"];
     [SetupTools.show h (venv_pip h); "install"; "-U"]
       ++ SetupTools.PIP_PACKAGES]
    (SetupTools.provision h).
Proof.
  unfold SetupTools.provision. cbv zeta.
  apply on_return_after; [ff|intros _].
  apply (on_return_bind_with (fun a => a = (venv_python h, venv_pip h))
           [_] [_]);
    [apply ensure_venv_returns|apply on_return_ensure_venv|].
  intros a ->. cbn beta iota.
  apply on_return_before.
  - unfold SetupTools.pip_install_in_venv.
    apply on_return_before; [apply on_return_setup_run|intros _].
    apply fail_fast_ret.
  - intros _. apply fail_fast_bind; [apply ff_symlink|intros _].
    apply ff_print_versions.
Qed.

(** X20: when [main] of setup_tools.py returns on a system it knows, the
    upgrade of pip in the virtual environment and the install of the pip
    packages have each been run and have exited 0, and on Linux
    [apt-get update] and [apt-get install] before them. *)
Theorem setup_returns_after_required h :
  SetupTools.is_linux h || SetupTools.is_macos h || SetupTools.is_windows h
  = true ->
  on_return (setup_required h) (SetupTools.main h).
Proof.
  intros Hos. unfold SetupTools.main, setup_required.
  apply on_return_after; [ff|intros _].
  destruct (SetupTools.is_linux h); cbn [orb] in Hos.
  { apply on_return_bind; [apply on_return_install_on_ubuntu|intros _].
    apply on_return_provision. }
  destruct (SetupTools.is_macos h); cbn [orb] in Hos.
  { apply on_return_after; [apply ff_install_on_macos|intros _].
    apply on_return_provision. }
  rewrite Hos.
  apply on_return_after; [apply ff_install_on_windows|intros _].
  apply on_return_provision.
Qed.

Lemma setup_returns_after_required_witness :
  succeeded (setup_required (ubuntu_root [])) empty_world
    (snd (SetupTools.main (ubuntu_root []) empty_world)).
Proof.
  apply (setup_returns_after_required (ubuntu_root []) eq_refl empty_world tt).
  transitivity (fst (SetupTools.main (ubuntu_root []) empty_world),
                snd (SetupTools.main (ubuntu_root []) empty_world));
    [apply surjective_pairing|].
  f_equal; vm_compute; reflexivity.
Defined.

End OnReturn.
